(** * License management server: entitlement lifecycle

    A shallow embedding of the server side of the license management
    system: the relational schema of [shared/schema.ts], the data access
    layer [DatabaseStorage] of [server/storage.ts] and the role-gated
    request handlers of [server/routes.ts], followed by the properties of
    the entitlement lifecycle that hold (or fail) on that code.

    Conventions of the embedding:
    - a table is the list of its rows, in insertion order; [serial] keys
      come from a per-table sequence kept in the store;
    - a [date] column is a day number (days since 1970-01-01), a
      [timestamp] is a number of milliseconds since the epoch, and the
      server's time zone is UTC;
    - a [numeric(10,2)] amount is a number of cents;
    - free-text columns that no handler inspects ([notes],
      [paymentMethod], the address fields of a client) are left out;
    - every call of the data access layer may fail: the world carries the
      outcomes of the upcoming calls, and a failed call throws. *)

From Stdlib Require Import ZArith List String Ascii Bool Lia.
From Stdlib Require Import Sorted Permutation.
Import ListNotations.
Open Scope string_scope.
Open Scope list_scope.
Open Scope Z_scope.

(** ** Schema ([shared/schema.ts]) *)

Inductive UserRole := admin | sales | support | client.
Inductive SubscriptionType := monthly | quarterly | yearly.
Inductive LicenseStatus := active | expired | pending | revoked.
Inductive TicketStatus := new | in_progress | resolved | closed.
(** The transaction status [pending] is spelled [tx_pending]: the name
    [pending] is taken by the license status. *)
Inductive TransactionStatus := tx_pending | completed | refunded | failed.

Definition UserRole_eqb (a b : UserRole) : bool :=
  match a, b with
  | admin, admin | sales, sales | support, support | client, client => true
  | _, _ => false
  end.

Definition LicenseStatus_eqb (a b : LicenseStatus) : bool :=
  match a, b with
  | active, active | expired, expired | pending, pending
  | revoked, revoked => true
  | _, _ => false
  end.

Definition TicketStatus_eqb (a b : TicketStatus) : bool :=
  match a, b with
  | new, new | in_progress, in_progress | resolved, resolved
  | closed, closed => true
  | _, _ => false
  end.

Definition TransactionStatus_eqb (a b : TransactionStatus) : bool :=
  match a, b with
  | tx_pending, tx_pending | completed, completed | refunded, refunded
  | failed, failed => true
  | _, _ => false
  end.

Module User.
Record t := mk { id : Z; role : UserRole }.
End User.

Module Client.
Record t := mk { id : Z; userId : Z; companyName : string }.
End Client.

Module Product.
Record t := mk { id : Z; name : string; price : Z }.
End Product.

Module Subscription.
Record t := mk {
    id : Z;
    clientId : Z;
    productId : Z;
    subscriptionType : SubscriptionType;
    startDate : Z;
    endDate : Z;
    price : Z;
    autoRenew : bool;
    updatedAt : Z }.
End Subscription.

Module License.
Record t := mk {
    id : Z;
    subscriptionId : Z;
    licenseKey : string;
    status : LicenseStatus;
    activationDate : Z;
    expirationDate : Z;
    lastChecked : option Z;
    notificationsSent : Z;
    createdAt : Z;
    updatedAt : Z }.
End License.

Module Invoice.
Record t := mk {
    id : Z;
    clientId : Z;
    subscriptionId : option Z;
    invoiceNumber : string;
    amount : Z;
    tax : Z;
    totalAmount : Z;
    issueDate : Z;
    dueDate : Z;
    isPaid : bool;
    updatedAt : Z }.
End Invoice.

Module Transaction.
Record t := mk {
    id : Z;
    clientId : Z;
    invoiceId : option Z;
    amount : Z;
    status : TransactionStatus;
    transactionDate : Z;
    updatedAt : Z }.
End Transaction.

Module Ticket.
Record t := mk {
    id : Z;
    clientId : Z;
    status : TicketStatus;
    assignedTo : option Z }.
End Ticket.

(** *** Insert schemas

    [createInsertSchema(table).omit({id, createdAt, updatedAt})]: a
    column with a default or a nullable column is optional, the others
    are required. The records below are the values such a schema
    accepts; the [Partial] ones are what [.partial()] accepts, every key
    optional. For a nullable column of a partial value, [None] is an
    absent key and [Some None] is an explicit null. *)

Module InsertSubscription.
Record t := mk {
    clientId : Z;
    productId : Z;
    subscriptionType : SubscriptionType;
    startDate : Z;
    endDate : Z;
    price : Z;
    autoRenew : option bool }.
End InsertSubscription.

Module PartialSubscription.
Record t := mk {
    clientId : option Z;
    productId : option Z;
    subscriptionType : option SubscriptionType;
    startDate : option Z;
    endDate : option Z;
    price : option Z;
    autoRenew : option bool }.
End PartialSubscription.

Module InsertLicense.
Record t := mk {
    subscriptionId : Z;
    licenseKey : string;
    status : option LicenseStatus;
    activationDate : Z;
    expirationDate : Z;
    lastChecked : option Z;
    notificationsSent : option Z }.
End InsertLicense.

Module PartialLicense.
Record t := mk {
    subscriptionId : option Z;
    licenseKey : option string;
    status : option LicenseStatus;
    activationDate : option Z;
    expirationDate : option Z;
    lastChecked : option (option Z);
    notificationsSent : option Z }.
End PartialLicense.

Module InsertInvoice.
Record t := mk {
    clientId : Z;
    subscriptionId : option Z;
    invoiceNumber : string;
    amount : Z;
    tax : option Z;
    totalAmount : Z;
    issueDate : Z;
    dueDate : Z;
    isPaid : option bool }.
End InsertInvoice.

Module PartialInvoice.
Record t := mk {
    clientId : option Z;
    subscriptionId : option (option Z);
    invoiceNumber : option string;
    amount : option Z;
    tax : option Z;
    totalAmount : option Z;
    issueDate : option Z;
    dueDate : option Z;
    isPaid : option bool }.
End PartialInvoice.

Module InsertTransaction.
Record t := mk {
    clientId : Z;
    invoiceId : option Z;
    amount : Z;
    status : option TransactionStatus;
    transactionDate : option Z }.
End InsertTransaction.

Module PartialTransaction.
Record t := mk {
    clientId : option Z;
    invoiceId : option (option Z);
    amount : option Z;
    status : option TransactionStatus;
    transactionDate : option Z }.
End PartialTransaction.

(** ** Calendar

    What the handlers use of JavaScript's [Date] and of [date-fns]:
    the civil date of a timestamp, [addDays], [differenceInDays] and
    [format(_, "yyyyMMdd")]. *)

Module Calendar.

Definition MS_PER_DAY : Z := 86400000.

  (** Day number of a timestamp. *)
Definition day_of (ms : Z) : Z := ms / MS_PER_DAY.

  (** Midnight (UTC) of a [date] column, as a timestamp. *)
Definition midnight (day : Z) : Z := day * MS_PER_DAY.

  (** Year, month (1..12) and day of month (1..31) of a day number, in
      the proleptic Gregorian calendar. *)
Definition civil_from_days (z0 : Z) : Z * Z * Z :=
    let z := z0 + 719468 in
    let era := z / 146097 in
    let doe := z - era * 146097 in
    let yoe := (doe - doe / 1460 + doe / 36524 - doe / 146096) / 365 in
    let y := yoe + era * 400 in
    let doy := doe - (365 * yoe + yoe / 4 - yoe / 100) in
    let mp := (5 * doy + 2) / 153 in
    let d := doy - (153 * mp + 2) / 5 + 1 in
    let m := if mp <? 10 then mp + 3 else mp - 9 in
    (if m <=? 2 then y + 1 else y, m, d).

Definition getFullYear (ms : Z) : Z := fst (fst (civil_from_days (day_of ms))).
Definition getMonth1 (ms : Z) : Z := snd (fst (civil_from_days (day_of ms))).
Definition getDate (ms : Z) : Z := snd (civil_from_days (day_of ms)).

  (** [new Date(d.getFullYear(), d.getMonth(), 1)]: midnight of the
      first day of the month of [ms]. *)
Definition firstDayOfMonth (ms : Z) : Z :=
    midnight (day_of ms - (getDate ms - 1)).

  (** [addDays(date, n)] *)
Definition addDays (ms n : Z) : Z := ms + n * MS_PER_DAY.

  (** [differenceInDays(left, right)]: the number of full days between
      the two instants, rounded towards zero. *)
Definition differenceInDays (left right : Z) : Z :=
    Z.quot (left - right) MS_PER_DAY.

Definition digit (n : Z) : ascii := ascii_of_nat (48 + Z.to_nat n).

  (** Decimal digits of a non-negative number, at most [S fuel] of them. *)
Fixpoint decimal (fuel : nat) (n : Z) : string :=
    match fuel with
    | O => String (digit (n mod 10)) EmptyString
    | S f =>
        if n <? 10 then String (digit n) EmptyString
        else (decimal f (n / 10) ++ String (digit (n mod 10)) EmptyString)%string
    end.

  (** [Number.prototype.toString] on a non-negative integer below 10^20. *)
Definition toString (n : Z) : string := decimal 19 n.

Fixpoint zeros (k : nat) : string :=
    match k with
    | O => EmptyString
    | S k' => String "0"%char (zeros k')
    end.

  (** [s.padStart(len, '0')] *)
Definition padStart0 (len : nat) (s : string) : string :=
    (zeros (len - String.length s) ++ s)%string.

  (** [format(date, "yyyyMMdd")] *)
Definition format_yyyyMMdd (ms : Z) : string :=
    (padStart0 4 (toString (getFullYear ms))
       ++ padStart0 2 (toString (getMonth1 ms))
       ++ padStart0 2 (toString (getDate ms)))%string.

End Calendar.

(** ** Strings

    The string operations of [generateLicenseKey]. *)

Module Str.

Definition is_dash (c : ascii) : bool := Ascii.eqb c "-"%char.

  (** [s.replace(/-/g, '')] *)
Fixpoint remove_dashes (s : string) : string :=
    match s with
    | EmptyString => EmptyString
    | String c s' =>
        if is_dash c then remove_dashes s' else String c (remove_dashes s')
    end.

Definition upper_char (c : ascii) : ascii :=
    let n := nat_of_ascii c in
    if ((97 <=? n)%nat && (n <=? 122)%nat)%bool then ascii_of_nat (n - 32) else c.

  (** [s.toUpperCase()], on ASCII *)
Fixpoint toUpperCase (s : string) : string :=
    match s with
    | EmptyString => EmptyString
    | String c s' => String (upper_char c) (toUpperCase s')
    end.

Definition is_digit (c : ascii) : bool :=
    let n := nat_of_ascii c in ((48 <=? n)%nat && (n <=? 57)%nat)%bool.

Definition is_lower_hex (c : ascii) : bool :=
    let n := nat_of_ascii c in
    (is_digit c || ((97 <=? n)%nat && (n <=? 102)%nat))%bool.

Definition is_upper_hex (c : ascii) : bool :=
    let n := nat_of_ascii c in
    (is_digit c || ((65 <=? n)%nat && (n <=? 70)%nat))%bool.

Fixpoint all (p : ascii -> bool) (s : string) : bool :=
    match s with
    | EmptyString => true
    | String c s' => (p c && all p s')%bool
    end.

  (** The canonical text of a UUID, as [crypto.randomUUID] returns it:
      five groups of 8, 4, 4, 4 and 12 lower-case hexadecimal digits
      separated by dashes. *)
Fixpoint is_uuid_from (pos : nat) (s : string) : bool :=
    match s with
    | EmptyString => (pos =? 36)%nat
    | String c s' =>
        ((if ((pos =? 8) || (pos =? 13) || (pos =? 18) || (pos =? 23))%nat%bool
          then is_dash c else is_lower_hex c)
         && is_uuid_from (S pos) s')%bool
    end.

Definition is_uuid (s : string) : bool := is_uuid_from 0 s.

End Str.

(** ** The store

    The database: one list of rows per table and the sequences behind
    the [serial] keys the handlers can advance. *)

Record Store := mkStore {
  users : list User.t;
  clients : list Client.t;
  products : list Product.t;
  subscriptions : list Subscription.t;
  licenses : list License.t;
  invoices : list Invoice.t;
  transactions : list Transaction.t;
  tickets : list Ticket.t;
  subscriptions_id_seq : Z;
  licenses_id_seq : Z;
  invoices_id_seq : Z;
  transactions_id_seq : Z }.

Definition set_subscriptions (rows : list Subscription.t) (seq : Z) (s : Store) : Store :=
  mkStore (users s) (clients s) (products s) rows (licenses s) (invoices s)
    (transactions s) (tickets s) seq (licenses_id_seq s) (invoices_id_seq s)
    (transactions_id_seq s).

Definition set_licenses (rows : list License.t) (seq : Z) (s : Store) : Store :=
  mkStore (users s) (clients s) (products s) (subscriptions s) rows (invoices s)
    (transactions s) (tickets s) (subscriptions_id_seq s) seq (invoices_id_seq s)
    (transactions_id_seq s).

Definition set_invoices (rows : list Invoice.t) (seq : Z) (s : Store) : Store :=
  mkStore (users s) (clients s) (products s) (subscriptions s) (licenses s) rows
    (transactions s) (tickets s) (subscriptions_id_seq s) (licenses_id_seq s) seq
    (transactions_id_seq s).

Definition set_transactions (rows : list Transaction.t) (seq : Z) (s : Store) : Store :=
  mkStore (users s) (clients s) (products s) (subscriptions s) (licenses s)
    (invoices s) rows (tickets s) (subscriptions_id_seq s) (licenses_id_seq s)
    (invoices_id_seq s) seq.

(** Rows have a primary key. *)
Class Row (R : Type) := row_id : R -> Z.

#[global] Instance Row_Client : Row Client.t := Client.id.
#[global] Instance Row_Product : Row Product.t := Product.id.
#[global] Instance Row_Subscription : Row Subscription.t := Subscription.id.
#[global] Instance Row_License : Row License.t := License.id.
#[global] Instance Row_Invoice : Row Invoice.t := Invoice.id.
#[global] Instance Row_Transaction : Row Transaction.t := Transaction.id.

Section Tables.
Context {R : Type} `{Row R}.

  (** [select().from(t).where(eq(t.id, i))], first row *)
Definition selectById (t : list R) (i : Z) : option R :=
    find (fun r => row_id r =? i) t.

Definition exists_id (t : list R) (i : Z) : bool :=
    existsb (fun r => row_id r =? i) t.

  (** [update(t).set(..).where(eq(t.id, i))] *)
Definition updateById (t : list R) (i : Z) (f : R -> R) : list R :=
    map (fun r => if row_id r =? i then f r else r) t.
End Tables.

(** A nullable foreign key is checked only when it is not null. *)
Definition fk_opt {R : Type} `{Row R} (t : list R) (k : option Z) : bool :=
  match k with
  | Some i => exists_id t i
  | None => true
  end.

(** The value a column gets from a partial update: the supplied one,
    or the old one when the key is absent. *)
Definition patched {A : Type} (new : option A) (old : A) : A :=
  match new with
  | Some v => v
  | None => old
  end.

(** ** Computations of the server

    A computation runs in a world (the database, the outcomes of the
    upcoming database calls, the clock and the random source) and
    either returns or throws; the world survives an exception. *)

Inductive Error := ZodError | DbError.

Inductive Result (A : Type) :=
| Ok (a : A)
| Throw (e : Error).
Arguments Ok {A} a.
Arguments Throw {A} e.

Record World := mkWorld {
  db : Store;
  faults : list bool;
  clock : Z;
  entropy : list string }.

Definition M (A : Type) : Type := World -> Result A * World.

Definition ret {A} (a : A) : M A := fun w => (Ok a, w).

Definition throw {A} (e : Error) : M A := fun w => (Throw e, w).

Definition bind {A B} (m : M A) (k : A -> M B) : M B :=
  fun w =>
    match m w with
    | (Ok a, w') => k a w'
    | (Throw e, w') => (Throw e, w')
    end.

Definition try_catch {A} (m : M A) (handler : Error -> M A) : M A :=
  fun w =>
    match m w with
    | (Ok a, w') => (Ok a, w')
    | (Throw e, w') => handler e w'
    end.

Declare Scope server_scope.
Delimit Scope server_scope with server.
Notation "x <- c1 ;; c2" := (bind c1 (fun x => c2))
  (at level 61, c1 at next level, right associativity) : server_scope.
Notation "c1 ;;; c2" := (bind c1 (fun _ => c2))
  (at level 61, right associativity) : server_scope.
Open Scope server_scope.

(** [new Date()] *)
Definition now : M Z := fun w => (Ok (clock w), w).

Definition nil_uuid : string := "00000000-0000-4000-8000-000000000000".

(** [randomUUID()]: the next value of the random source. *)
Definition randomUUID : M string :=
  fun w =>
    match entropy w with
    | [] => (Ok nil_uuid, w)
    | u :: us => (Ok u, mkWorld (db w) (faults w) (clock w) us)
    end.

(** One statement sent to the database. The statement either fails
    before it runs (connection lost, timeout: the next outcome in
    [faults] is [true]) or runs on the store, where a violated
    constraint throws as well. *)
Definition db_call {A} (stmt : Store -> Result A * Store) : M A :=
  fun w =>
    match faults w with
    | true :: fs => (Throw DbError, mkWorld (db w) fs (clock w) (entropy w))
    | false :: fs =>
        let (r, s') := stmt (db w) in (r, mkWorld s' fs (clock w) (entropy w))
    | [] =>
        let (r, s') := stmt (db w) in (r, mkWorld s' [] (clock w) (entropy w))
    end.

Definition db_query {A} (q : Store -> A) : M A :=
  db_call (fun s => (Ok (q s), s)).

Fixpoint mapM {A B} (f : A -> M B) (l : list A) : M (list B) :=
  match l with
  | [] => ret []
  | a :: l' => b <- f a ;; bs <- mapM f l' ;; ret (b :: bs)
  end.

(** ** Data access layer ([DatabaseStorage]) *)

Module storage.

(** *** Clients *)

Definition getClient (id : Z) : M (option Client.t) :=
  db_query (fun s => selectById (clients s) id).

Definition getClientByUserId (userId : Z) : M (option Client.t) :=
  db_query (fun s => find (fun c => Client.userId c =? userId) (clients s)).

(** *** Subscriptions *)

Definition getSubscription (id : Z) : M (option Subscription.t) :=
  db_query (fun s => selectById (subscriptions s) id).

Definition getSubscriptionsByClient (clientId : Z) : M (list Subscription.t) :=
  db_query (fun s =>
    filter (fun x => Subscription.clientId x =? clientId) (subscriptions s)).

Definition insert_subscription (d : InsertSubscription.t) (id t : Z) : Subscription.t :=
  Subscription.mk id
    (InsertSubscription.clientId d) (InsertSubscription.productId d)
    (InsertSubscription.subscriptionType d)
    (InsertSubscription.startDate d) (InsertSubscription.endDate d)
    (InsertSubscription.price d)
    (patched (InsertSubscription.autoRenew d) false)
    t.

Definition createSubscription (d : InsertSubscription.t) : M Subscription.t :=
  t <- now ;;
  db_call (fun s =>
    let id := subscriptions_id_seq s in
    let row := insert_subscription d id t in
    if (negb (exists_id (subscriptions s) id)
        && exists_id (clients s) (Subscription.clientId row)
        && exists_id (products s) (Subscription.productId row))%bool
    then (Ok row, set_subscriptions (subscriptions s ++ [row]) (id + 1) s)
    else (Throw DbError, set_subscriptions (subscriptions s) (id + 1) s)).

Definition patch_subscription (d : PartialSubscription.t) (t : Z)
  (old : Subscription.t) : Subscription.t :=
  Subscription.mk (Subscription.id old)
    (patched (PartialSubscription.clientId d) (Subscription.clientId old))
    (patched (PartialSubscription.productId d) (Subscription.productId old))
    (patched (PartialSubscription.subscriptionType d) (Subscription.subscriptionType old))
    (patched (PartialSubscription.startDate d) (Subscription.startDate old))
    (patched (PartialSubscription.endDate d) (Subscription.endDate old))
    (patched (PartialSubscription.price d) (Subscription.price old))
    (patched (PartialSubscription.autoRenew d) (Subscription.autoRenew old))
    t.

Definition updateSubscription (id : Z) (d : PartialSubscription.t)
  : M (option Subscription.t) :=
  t <- now ;;
  db_call (fun s =>
    match selectById (subscriptions s) id with
    | None => (Ok None, s)
    | Some old =>
        if (fk_opt (clients s) (PartialSubscription.clientId d)
            && fk_opt (products s) (PartialSubscription.productId d))%bool
        then (Ok (Some (patch_subscription d t old)),
              set_subscriptions
                (updateById (subscriptions s) id (patch_subscription d t))
                (subscriptions_id_seq s) s)
        else (Throw DbError, s)
    end).

(** *** Licenses *)

Definition getLicense (id : Z) : M (option License.t) :=
  db_query (fun s => selectById (licenses s) id).

Definition getLicensesBySubscription (subscriptionId : Z) : M (list License.t) :=
  db_query (fun s =>
    filter (fun l => License.subscriptionId l =? subscriptionId) (licenses s)).

(** The [where] clause of [getExpiringLicenses]:
    [and(eq(status, 'active'), lt(expirationDate, thresholdDate))].
    [expirationDate] is a [date] column, so the database compares days:
    the threshold, an instant, is read as the day it falls on. *)
Definition expiring (thresholdDate : Z) (l : License.t) : bool :=
  (LicenseStatus_eqb (License.status l) active
   && (License.expirationDate l <? Calendar.day_of thresholdDate))%bool.

Definition getExpiringLicenses (daysThreshold : Z) : M (list License.t) :=
  t <- now ;;
  let thresholdDate := Calendar.addDays t daysThreshold in
  db_query (fun s => filter (expiring thresholdDate) (licenses s)).

Definition insert_license (d : InsertLicense.t) (id t : Z) : License.t :=
  License.mk id
    (InsertLicense.subscriptionId d)
    (InsertLicense.licenseKey d)
    (patched (InsertLicense.status d) active)
    (InsertLicense.activationDate d)
    (InsertLicense.expirationDate d)
    (InsertLicense.lastChecked d)
    (patched (InsertLicense.notificationsSent d) 0)
    t t.

Definition key_taken (rows : list License.t) (key : string) : bool :=
  existsb (fun l => String.eqb (License.licenseKey l) key) rows.

Definition createLicense (d : InsertLicense.t) : M License.t :=
  t <- now ;;
  db_call (fun s =>
    let id := licenses_id_seq s in
    let row := insert_license d id t in
    if (negb (exists_id (licenses s) id)
        && exists_id (subscriptions s) (License.subscriptionId row)
        && negb (key_taken (licenses s) (License.licenseKey row)))%bool
    then (Ok row, set_licenses (licenses s ++ [row]) (id + 1) s)
    else (Throw DbError, set_licenses (licenses s) (id + 1) s)).

Definition patch_license (d : PartialLicense.t) (t : Z) (old : License.t)
  : License.t :=
  License.mk (License.id old)
    (patched (PartialLicense.subscriptionId d) (License.subscriptionId old))
    (patched (PartialLicense.licenseKey d) (License.licenseKey old))
    (patched (PartialLicense.status d) (License.status old))
    (patched (PartialLicense.activationDate d) (License.activationDate old))
    (patched (PartialLicense.expirationDate d) (License.expirationDate old))
    (patched (PartialLicense.lastChecked d) (License.lastChecked old))
    (patched (PartialLicense.notificationsSent d) (License.notificationsSent old))
    (License.createdAt old)
    t.

(** A new key collides when a row other than the updated one has it. *)
Definition key_taken_by_other (rows : list License.t) (id : Z) (key : option string)
  : bool :=
  match key with
  | None => false
  | Some k =>
      existsb (fun l => (negb (License.id l =? id)
                         && String.eqb (License.licenseKey l) k)%bool) rows
  end.

Definition updateLicense (id : Z) (d : PartialLicense.t) : M (option License.t) :=
  t <- now ;;
  db_call (fun s =>
    match selectById (licenses s) id with
    | None => (Ok None, s)
    | Some old =>
        if (fk_opt (subscriptions s) (PartialLicense.subscriptionId d)
            && negb (key_taken_by_other (licenses s) id (PartialLicense.licenseKey d)))%bool
        then (Ok (Some (patch_license d t old)),
              set_licenses (updateById (licenses s) id (patch_license d t))
                (licenses_id_seq s) s)
        else (Throw DbError, s)
    end).

(** [generateLicenseKey], as a function of the UUID and of the instant. *)
Definition license_key_of (uuid : string) (t : Z) : string :=
  let prefix := "LIC"%string in
  let uuid := Str.toUpperCase (String.substring 0 16 (Str.remove_dashes uuid)) in
  let timestamp := Calendar.format_yyyyMMdd t in
  (prefix ++ "-" ++ uuid ++ "-" ++ timestamp)%string.

Definition generateLicenseKey : M string :=
  uuid <- randomUUID ;;
  t <- now ;;
  ret (license_key_of uuid t).

(** *** Invoices *)

Definition getInvoice (id : Z) : M (option Invoice.t) :=
  db_query (fun s => selectById (invoices s) id).

Definition getInvoicesByClient (clientId : Z) : M (list Invoice.t) :=
  db_query (fun s => filter (fun i => Invoice.clientId i =? clientId) (invoices s)).

Definition insert_invoice (d : InsertInvoice.t) (id t : Z) : Invoice.t :=
  Invoice.mk id
    (InsertInvoice.clientId d) (InsertInvoice.subscriptionId d)
    (InsertInvoice.invoiceNumber d)
    (InsertInvoice.amount d)
    (patched (InsertInvoice.tax d) 0)
    (InsertInvoice.totalAmount d)
    (InsertInvoice.issueDate d) (InsertInvoice.dueDate d)
    (patched (InsertInvoice.isPaid d) false)
    t.

Definition number_taken (rows : list Invoice.t) (n : string) : bool :=
  existsb (fun i => String.eqb (Invoice.invoiceNumber i) n) rows.

Definition createInvoice (d : InsertInvoice.t) : M Invoice.t :=
  t <- now ;;
  db_call (fun s =>
    let id := invoices_id_seq s in
    let row := insert_invoice d id t in
    if (negb (exists_id (invoices s) id)
        && exists_id (clients s) (Invoice.clientId row)
        && fk_opt (subscriptions s) (Invoice.subscriptionId row)
        && negb (number_taken (invoices s) (Invoice.invoiceNumber row)))%bool
    then (Ok row, set_invoices (invoices s ++ [row]) (id + 1) s)
    else (Throw DbError, set_invoices (invoices s) (id + 1) s)).

Definition patch_invoice (d : PartialInvoice.t) (t : Z) (old : Invoice.t)
  : Invoice.t :=
  Invoice.mk (Invoice.id old)
    (patched (PartialInvoice.clientId d) (Invoice.clientId old))
    (patched (PartialInvoice.subscriptionId d) (Invoice.subscriptionId old))
    (patched (PartialInvoice.invoiceNumber d) (Invoice.invoiceNumber old))
    (patched (PartialInvoice.amount d) (Invoice.amount old))
    (patched (PartialInvoice.tax d) (Invoice.tax old))
    (patched (PartialInvoice.totalAmount d) (Invoice.totalAmount old))
    (patched (PartialInvoice.issueDate d) (Invoice.issueDate old))
    (patched (PartialInvoice.dueDate d) (Invoice.dueDate old))
    (patched (PartialInvoice.isPaid d) (Invoice.isPaid old))
    t.

Definition number_taken_by_other (rows : list Invoice.t) (id : Z)
  (n : option string) : bool :=
  match n with
  | None => false
  | Some k =>
      existsb (fun i => (negb (Invoice.id i =? id)
                         && String.eqb (Invoice.invoiceNumber i) k)%bool) rows
  end.

Definition fk_opt2 {R : Type} `{Row R} (t : list R) (k : option (option Z)) : bool :=
  match k with
  | Some k' => fk_opt t k'
  | None => true
  end.

Definition updateInvoice (id : Z) (d : PartialInvoice.t) : M (option Invoice.t) :=
  t <- now ;;
  db_call (fun s =>
    match selectById (invoices s) id with
    | None => (Ok None, s)
    | Some old =>
        if (fk_opt (clients s) (PartialInvoice.clientId d)
            && fk_opt2 (subscriptions s) (PartialInvoice.subscriptionId d)
            && negb (number_taken_by_other (invoices s) id
                       (PartialInvoice.invoiceNumber d)))%bool
        then (Ok (Some (patch_invoice d t old)),
              set_invoices (updateById (invoices s) id (patch_invoice d t))
                (invoices_id_seq s) s)
        else (Throw DbError, s)
    end).

(** [{ isPaid: true }] *)
Definition paid : PartialInvoice.t :=
  PartialInvoice.mk None None None None None None None None (Some true).

Definition generateInvoiceNumber : M string :=
  t <- now ;;
  let year := Calendar.getFullYear t in
  count <- db_query (fun s => Z.of_nat (List.length (invoices s))) ;;
  let nextNum := count + 1 in
  ret ("INV-" ++ Calendar.toString year ++ "-"
         ++ Calendar.padStart0 5 (Calendar.toString nextNum))%string.

(** *** Transactions *)

Definition getTransaction (id : Z) : M (option Transaction.t) :=
  db_query (fun s => selectById (transactions s) id).

Definition getTransactionsByClient (clientId : Z) : M (list Transaction.t) :=
  db_query (fun s =>
    filter (fun x => Transaction.clientId x =? clientId) (transactions s)).

(** [orderBy(desc(transactionDate))], rows of equal date in table order *)
Fixpoint insert_desc (x : Transaction.t) (l : list Transaction.t)
  : list Transaction.t :=
  match l with
  | [] => [x]
  | y :: l' =>
      if Transaction.transactionDate y <? Transaction.transactionDate x
      then x :: l
      else y :: insert_desc x l'
  end.

Definition sort_desc (l : list Transaction.t) : list Transaction.t :=
  fold_left (fun acc x => insert_desc x acc) l [].

Definition getRecentTransactions (limit : nat) : M (list Transaction.t) :=
  db_query (fun s => firstn limit (sort_desc (transactions s))).

Definition insert_transaction (d : InsertTransaction.t) (id t : Z) : Transaction.t :=
  Transaction.mk id
    (InsertTransaction.clientId d) (InsertTransaction.invoiceId d)
    (InsertTransaction.amount d)
    (patched (InsertTransaction.status d) tx_pending)
    (patched (InsertTransaction.transactionDate d) t)
    t.

Definition createTransaction (d : InsertTransaction.t) : M Transaction.t :=
  t <- now ;;
  db_call (fun s =>
    let id := transactions_id_seq s in
    let row := insert_transaction d id t in
    if (negb (exists_id (transactions s) id)
        && exists_id (clients s) (Transaction.clientId row)
        && fk_opt (invoices s) (Transaction.invoiceId row))%bool
    then (Ok row, set_transactions (transactions s ++ [row]) (id + 1) s)
    else (Throw DbError, set_transactions (transactions s) (id + 1) s)).

Definition patch_transaction (d : PartialTransaction.t) (t : Z)
  (old : Transaction.t) : Transaction.t :=
  Transaction.mk (Transaction.id old)
    (patched (PartialTransaction.clientId d) (Transaction.clientId old))
    (patched (PartialTransaction.invoiceId d) (Transaction.invoiceId old))
    (patched (PartialTransaction.amount d) (Transaction.amount old))
    (patched (PartialTransaction.status d) (Transaction.status old))
    (patched (PartialTransaction.transactionDate d) (Transaction.transactionDate old))
    t.

Definition updateTransaction (id : Z) (d : PartialTransaction.t)
  : M (option Transaction.t) :=
  t <- now ;;
  db_call (fun s =>
    match selectById (transactions s) id with
    | None => (Ok None, s)
    | Some old =>
        if (fk_opt (clients s) (PartialTransaction.clientId d)
            && fk_opt2 (invoices s) (PartialTransaction.invoiceId d))%bool
        then (Ok (Some (patch_transaction d t old)),
              set_transactions
                (updateById (transactions s) id (patch_transaction d t))
                (transactions_id_seq s) s)
        else (Throw DbError, s)
    end).

(** *** Dashboard statistics *)

Definition count {A} (p : A -> bool) (l : list A) : Z :=
  Z.of_nat (List.length (filter p l)).

Definition getClientCount : M Z :=
  db_query (fun s => Z.of_nat (List.length (clients s))).

Definition getActiveLicensesCount : M Z :=
  db_query (fun s =>
    count (fun l => LicenseStatus_eqb (License.status l) active) (licenses s)).

Definition getOpenTicketsCount : M Z :=
  db_query (fun s =>
    count (fun k => (TicketStatus_eqb (Ticket.status k) new
                     || TicketStatus_eqb (Ticket.status k) in_progress)%bool)
      (tickets s)).

Definition revenue (firstDayOfMonth : Z) (rows : list Transaction.t) : Z :=
  fold_right Z.add 0
    (map Transaction.amount
       (filter (fun x => (firstDayOfMonth <=? Transaction.transactionDate x)
                         && TransactionStatus_eqb (Transaction.status x) completed)%bool
          rows)).

Definition getMonthlyRevenue : M Z :=
  currentDate <- now ;;
  let firstDayOfMonth := Calendar.firstDayOfMonth currentDate in
  db_query (fun s => revenue firstDayOfMonth (transactions s)).

(** *** Methods no route of the entitlement lifecycle calls *)

Definition getLicenseByKey (licenseKey : string) : M (option License.t) :=
  db_query (fun s =>
    find (fun l => String.eqb (License.licenseKey l) licenseKey) (licenses s)).

Definition getProduct (id : Z) : M (option Product.t) :=
  db_query (fun s => selectById (products s) id).

End storage.

(** ** Request handlers ([server/routes.ts]) *)

(** One element of the body of [GET /api/dashboard/expiring-licenses]. *)
Module ExpiringLicense.
Record t := mk {
  id : Z;
  licenseKey : string;
  expirationDate : Z;
  expiresIn : Z;
  company : string;
  clientId : Z;
  subscriptionId : Z }.
End ExpiringLicense.

(** What [res.json] is given. [invalid] is the body of a 400 answer,
    the message together with the errors of the schema. *)
Inductive Body :=
| message (m : string)
| invalid (m : string)
| stats (totalClients activeSubscriptions openTickets monthlyRevenue : Z)
| expiring_json (l : list ExpiringLicense.t)
| subscription_json (x : Subscription.t)
| subscriptions_json (l : list Subscription.t)
| license_json (x : License.t)
| licenses_json (l : list License.t)
| invoice_json (x : Invoice.t)
| invoices_json (l : list Invoice.t)
| transaction_json (x : Transaction.t)
| transactions_json (l : list Transaction.t).

Module Response.
Record t := mk { status : Z; json : Body }.
End Response.

Definition Handler : Type := World -> Response.t * World.

Definition send (status : Z) (b : Body) : M Response.t :=
  ret (Response.mk status b).

(** The [try { .. } catch (error) { .. }] around the body of a handler:
    a [ZodError] is answered 400 where the handler tests for it, any
    other exception 500. *)
Definition handler (body : M Response.t) (on_zod : option string) (on_error : string)
  : Handler :=
  fun w =>
    match body w with
    | (Ok r, w') => (r, w')
    | (Throw ZodError, w') =>
        match on_zod with
        | Some m => (Response.mk 400 (invalid m), w')
        | None => (Response.mk 500 (message on_error), w')
        end
    | (Throw DbError, w') => (Response.mk 500 (message on_error), w')
    end.

(** [schema.parse(req.body)]: the request body either is a value of
    the schema or makes [parse] throw a [ZodError]. *)
Definition parse {T} (body : option T) : M T :=
  match body with
  | Some d => ret d
  | None => throw ZodError
  end.

(** JavaScript truthiness of an optional number: [undefined], [null],
    [NaN] and [0] are falsy. *)
Definition truthy (n : option Z) : bool :=
  match n with
  | Some i => negb (i =? 0)
  | None => false
  end.

(** *** Auth middleware

    [req.isAuthenticated()] holds when the session carries a user. *)

Definition isAuthenticated (user : option User.t) (next : User.t -> Handler) : Handler :=
  match user with
  | Some u => next u
  | None => fun w => (Response.mk 401 (message "Unauthorized"), w)
  end.

Definition isSales (user : option User.t) (next : User.t -> Handler) : Handler :=
  match user with
  | Some u =>
      if (UserRole_eqb (User.role u) sales || UserRole_eqb (User.role u) admin)%bool
      then next u
      else fun w => (Response.mk 403 (message "Forbidden"), w)
  | None => fun w => (Response.mk 403 (message "Forbidden"), w)
  end.

Definition isAdmin (user : option User.t) (next : User.t -> Handler) : Handler :=
  match user with
  | Some u =>
      if UserRole_eqb (User.role u) admin
      then next u
      else fun w => (Response.mk 403 (message "Forbidden"), w)
  | None => fun w => (Response.mk 403 (message "Forbidden"), w)
  end.

Definition isSupport (user : option User.t) (next : User.t -> Handler) : Handler :=
  match user with
  | Some u =>
      if (UserRole_eqb (User.role u) support || UserRole_eqb (User.role u) admin)%bool
      then next u
      else fun w => (Response.mk 403 (message "Forbidden"), w)
  | None => fun w => (Response.mk 403 (message "Forbidden"), w)
  end.

(** *** Dashboard *)

Definition get_dashboard_stats (user : User.t) : Handler :=
  handler
    (clientCount <- try_catch storage.getClientCount (fun _ => ret 0) ;;
     activeLicensesCount <- try_catch storage.getActiveLicensesCount (fun _ => ret 0) ;;
     openTicketsCount <- try_catch storage.getOpenTicketsCount (fun _ => ret 0) ;;
     monthlyRevenue <- try_catch storage.getMonthlyRevenue (fun _ => ret 0) ;;
     send 200 (stats clientCount activeLicensesCount openTicketsCount monthlyRevenue))
    None "Error fetching dashboard stats".

(** [s || "Unknown"] *)
Definition or_unknown (s : option string) : string :=
  match s with
  | Some EmptyString | None => "Unknown"
  | Some s' => s'
  end.

(** [n || 0] *)
Definition or_zero (n : option Z) : Z :=
  match n with
  | Some i => i
  | None => 0
  end.

(** [differenceInDays(new Date(license.expirationDate), new Date())] *)
Definition daysUntilExpiration (license : License.t) (t : Z) : Z :=
  Calendar.differenceInDays (Calendar.midnight (License.expirationDate license)) t.

Definition expiring_license_data (license : License.t) : M ExpiringLicense.t :=
  subscription <- storage.getSubscription (License.subscriptionId license) ;;
  owner <- match subscription with
           | Some sub => storage.getClient (Subscription.clientId sub)
           | None => ret None
           end ;;
  t <- now ;;
  ret (ExpiringLicense.mk
         (License.id license)
         (License.licenseKey license)
         (License.expirationDate license)
         (daysUntilExpiration license t)
         (or_unknown (option_map Client.companyName owner))
         (or_zero (option_map Client.id owner))
         (or_zero (option_map Subscription.id subscription))).

(** The callbacks of the [Promise.all] are run one license after the
    other. *)
Definition get_dashboard_expiring_licenses (user : User.t) : Handler :=
  handler
    (expiringLicenses <- storage.getExpiringLicenses 14 ;;
     licenseData <- mapM expiring_license_data expiringLicenses ;;
     send 200 (expiring_json licenseData))
    None "Error fetching expiring licenses".

(** *** Subscriptions *)

Definition get_subscriptions (clientId : option Z) (user : User.t) : Handler :=
  handler
    (if truthy clientId then
       subs <- storage.getSubscriptionsByClient (or_zero clientId) ;;
       send 200 (subscriptions_json subs)
     else if UserRole_eqb (User.role user) client then
       owner <- storage.getClientByUserId (User.id user) ;;
       match owner with
       | None => send 403 (message "Client profile not found")
       | Some c =>
           subs <- storage.getSubscriptionsByClient (Client.id c) ;;
           send 200 (subscriptions_json subs)
       end
     else send 200 (subscriptions_json []))
    None "Error fetching subscriptions".

(** [!client || client.id !== ownerId] *)
Definition not_owner (c : option Client.t) (ownerId : Z) : bool :=
  match c with
  | None => true
  | Some c' => negb (Client.id c' =? ownerId)
  end.

Definition get_subscription (id : Z) (user : User.t) : Handler :=
  handler
    (subscription <- storage.getSubscription id ;;
     match subscription with
     | None => send 404 (message "Subscription not found")
     | Some sub =>
         if UserRole_eqb (User.role user) client then
           c <- storage.getClientByUserId (User.id user) ;;
           if not_owner c (Subscription.clientId sub)
           then send 403 (message "Access denied")
           else send 200 (subscription_json sub)
         else send 200 (subscription_json sub)
     end)
    None "Error fetching subscription".

Definition post_subscriptions (body : option InsertSubscription.t) (user : User.t)
  : Handler :=
  handler
    (subscriptionData <- parse body ;;
     subscription <- storage.createSubscription subscriptionData ;;
     send 201 (subscription_json subscription))
    (Some "Invalid subscription data") "Error creating subscription".

Definition patch_subscription (id : Z) (body : option PartialSubscription.t)
  (user : User.t) : Handler :=
  handler
    (subscriptionData <- parse body ;;
     subscription <- storage.updateSubscription id subscriptionData ;;
     match subscription with
     | None => send 404 (message "Subscription not found")
     | Some sub => send 200 (subscription_json sub)
     end)
    (Some "Invalid subscription data") "Error updating subscription".

(** *** Licenses *)

Definition get_licenses (subscriptionId : option Z) (user : User.t) : Handler :=
  handler
    (if negb (truthy subscriptionId) then
       send 400 (message "Subscription ID required")
     else
       rows <- storage.getLicensesBySubscription (or_zero subscriptionId) ;;
       if UserRole_eqb (User.role user) client then
         subscription <- storage.getSubscription (or_zero subscriptionId) ;;
         match subscription with
         | None => send 404 (message "Subscription not found")
         | Some sub =>
             c <- storage.getClientByUserId (User.id user) ;;
             if not_owner c (Subscription.clientId sub)
             then send 403 (message "Access denied")
             else send 200 (licenses_json rows)
         end
       else send 200 (licenses_json rows))
    None "Error fetching licenses".

Definition get_license (id : Z) (user : User.t) : Handler :=
  handler
    (license <- storage.getLicense id ;;
     match license with
     | None => send 404 (message "License not found")
     | Some lic =>
         if UserRole_eqb (User.role user) client then
           subscription <- storage.getSubscription (License.subscriptionId lic) ;;
           match subscription with
           | None => send 404 (message "Subscription not found")
           | Some sub =>
               c <- storage.getClientByUserId (User.id user) ;;
               if not_owner c (Subscription.clientId sub)
               then send 403 (message "Access denied")
               else send 200 (license_json lic)
           end
         else send 200 (license_json lic)
     end)
    None "Error fetching license".

(** [{ ...licenseData, licenseKey: key }] *)
Definition with_licenseKey (d : InsertLicense.t) (key : string) : InsertLicense.t :=
  InsertLicense.mk
    (InsertLicense.subscriptionId d) key (InsertLicense.status d)
    (InsertLicense.activationDate d) (InsertLicense.expirationDate d)
    (InsertLicense.lastChecked d) (InsertLicense.notificationsSent d).

Definition post_licenses (body : option InsertLicense.t) (user : User.t) : Handler :=
  handler
    (licenseData <- parse body ;;
     licenseData <-
       (if String.eqb (InsertLicense.licenseKey licenseData) ""
        then key <- storage.generateLicenseKey ;;
             ret (with_licenseKey licenseData key)
        else ret licenseData) ;;
     license <- storage.createLicense licenseData ;;
     send 201 (license_json license))
    (Some "Invalid license data") "Error creating license".

Definition patch_license (id : Z) (body : option PartialLicense.t) (user : User.t)
  : Handler :=
  handler
    (licenseData <- parse body ;;
     license <- storage.updateLicense id licenseData ;;
     match license with
     | None => send 404 (message "License not found")
     | Some lic => send 200 (license_json lic)
     end)
    (Some "Invalid license data") "Error updating license".

(** *** Invoices *)

Definition get_invoices (clientId : option Z) (user : User.t) : Handler :=
  handler
    (if truthy clientId then
       rows <- storage.getInvoicesByClient (or_zero clientId) ;;
       send 200 (invoices_json rows)
     else if UserRole_eqb (User.role user) client then
       owner <- storage.getClientByUserId (User.id user) ;;
       match owner with
       | None => send 403 (message "Client profile not found")
       | Some c =>
           rows <- storage.getInvoicesByClient (Client.id c) ;;
           send 200 (invoices_json rows)
       end
     else send 200 (invoices_json []))
    None "Error fetching invoices".

Definition get_invoice (id : Z) (user : User.t) : Handler :=
  handler
    (invoice <- storage.getInvoice id ;;
     match invoice with
     | None => send 404 (message "Invoice not found")
     | Some inv =>
         if UserRole_eqb (User.role user) client then
           c <- storage.getClientByUserId (User.id user) ;;
           if not_owner c (Invoice.clientId inv)
           then send 403 (message "Access denied")
           else send 200 (invoice_json inv)
         else send 200 (invoice_json inv)
     end)
    None "Error fetching invoice".

(** [{ ...invoiceData, invoiceNumber: n }] *)
Definition with_invoiceNumber (d : InsertInvoice.t) (n : string) : InsertInvoice.t :=
  InsertInvoice.mk
    (InsertInvoice.clientId d) (InsertInvoice.subscriptionId d) n
    (InsertInvoice.amount d) (InsertInvoice.tax d) (InsertInvoice.totalAmount d)
    (InsertInvoice.issueDate d) (InsertInvoice.dueDate d) (InsertInvoice.isPaid d).

Definition post_invoices (body : option InsertInvoice.t) (user : User.t) : Handler :=
  handler
    (invoiceData <- parse body ;;
     invoiceData <-
       (if String.eqb (InsertInvoice.invoiceNumber invoiceData) ""
        then n <- storage.generateInvoiceNumber ;;
             ret (with_invoiceNumber invoiceData n)
        else ret invoiceData) ;;
     invoice <- storage.createInvoice invoiceData ;;
     send 201 (invoice_json invoice))
    (Some "Invalid invoice data") "Error creating invoice".

Definition patch_invoice (id : Z) (body : option PartialInvoice.t) (user : User.t)
  : Handler :=
  handler
    (invoiceData <- parse body ;;
     invoice <- storage.updateInvoice id invoiceData ;;
     match invoice with
     | None => send 404 (message "Invoice not found")
     | Some inv => send 200 (invoice_json inv)
     end)
    (Some "Invalid invoice data") "Error updating invoice".

(** *** Transactions *)

Definition get_transactions (clientId : option Z) (user : User.t) : Handler :=
  handler
    (if truthy clientId then
       rows <- storage.getTransactionsByClient (or_zero clientId) ;;
       send 200 (transactions_json rows)
     else if UserRole_eqb (User.role user) client then
       owner <- storage.getClientByUserId (User.id user) ;;
       match owner with
       | None => send 403 (message "Client profile not found")
       | Some c =>
           rows <- storage.getTransactionsByClient (Client.id c) ;;
           send 200 (transactions_json rows)
       end
     else
       rows <- storage.getRecentTransactions 20 ;;
       send 200 (transactions_json rows))
    None "Error fetching transactions".

Definition get_transaction (id : Z) (user : User.t) : Handler :=
  handler
    (transaction <- storage.getTransaction id ;;
     match transaction with
     | None => send 404 (message "Transaction not found")
     | Some tx =>
         if UserRole_eqb (User.role user) client then
           c <- storage.getClientByUserId (User.id user) ;;
           if not_owner c (Transaction.clientId tx)
           then send 403 (message "Access denied")
           else send 200 (transaction_json tx)
         else send 200 (transaction_json tx)
     end)
    None "Error fetching transaction".

Definition post_transactions (body : option InsertTransaction.t) (user : User.t)
  : Handler :=
  handler
    (transactionData <- parse body ;;
     transaction <- storage.createTransaction transactionData ;;
     (if truthy (Transaction.invoiceId transaction)
      then storage.updateInvoice (or_zero (Transaction.invoiceId transaction))
             storage.paid ;;; ret tt
      else ret tt) ;;;
     send 201 (transaction_json transaction))
    (Some "Invalid transaction data") "Error creating transaction".

Definition patch_transaction (id : Z) (body : option PartialTransaction.t)
  (user : User.t) : Handler :=
  handler
    (transactionData <- parse body ;;
     transaction <- storage.updateTransaction id transactionData ;;
     match transaction with
     | None => send 404 (message "Transaction not found")
     | Some tx => send 200 (transaction_json tx)
     end)
    (Some "Invalid transaction data") "Error updating transaction".

(** *** The application

    The routes of the entitlement lifecycle, each with the path
    parameter, query parameter or body it reads. *)

Inductive Endpoint :=
| GET_dashboard_stats
| GET_dashboard_expiring_licenses
| GET_subscriptions (clientId : option Z)
| GET_subscriptions_id (id : Z)
| POST_subscriptions (body : option InsertSubscription.t)
| PATCH_subscriptions_id (id : Z) (body : option PartialSubscription.t)
| GET_licenses (subscriptionId : option Z)
| GET_licenses_id (id : Z)
| POST_licenses (body : option InsertLicense.t)
| PATCH_licenses_id (id : Z) (body : option PartialLicense.t)
| GET_invoices (clientId : option Z)
| GET_invoices_id (id : Z)
| POST_invoices (body : option InsertInvoice.t)
| PATCH_invoices_id (id : Z) (body : option PartialInvoice.t)
| GET_transactions (clientId : option Z)
| GET_transactions_id (id : Z)
| POST_transactions (body : option InsertTransaction.t)
| PATCH_transactions_id (id : Z) (body : option PartialTransaction.t).

(** The handler registered for an endpoint, behind its middleware. *)
Definition route (e : Endpoint) : User.t -> Handler :=
  match e with
  | GET_dashboard_stats => get_dashboard_stats
  | GET_dashboard_expiring_licenses => get_dashboard_expiring_licenses
  | GET_subscriptions clientId => get_subscriptions clientId
  | GET_subscriptions_id id => get_subscription id
  | POST_subscriptions body => post_subscriptions body
  | PATCH_subscriptions_id id body => patch_subscription id body
  | GET_licenses subscriptionId => get_licenses subscriptionId
  | GET_licenses_id id => get_license id
  | POST_licenses body => post_licenses body
  | PATCH_licenses_id id body => patch_license id body
  | GET_invoices clientId => get_invoices clientId
  | GET_invoices_id id => get_invoice id
  | POST_invoices body => post_invoices body
  | PATCH_invoices_id id body => patch_invoice id body
  | GET_transactions clientId => get_transactions clientId
  | GET_transactions_id id => get_transaction id
  | POST_transactions body => post_transactions body
  | PATCH_transactions_id id body => patch_transaction id body
  end.

Definition middleware (e : Endpoint)
  : option User.t -> (User.t -> Handler) -> Handler :=
  match e with
  | POST_subscriptions _ | PATCH_subscriptions_id _ _
  | POST_licenses _ | PATCH_licenses_id _ _
  | POST_invoices _ | PATCH_invoices_id _ _
  | POST_transactions _ | PATCH_transactions_id _ _ => isSales
  | _ => isAuthenticated
  end.

(** One request: the session's user, if any, and the endpoint. *)
Definition app (user : option User.t) (e : Endpoint) : Handler :=
  middleware e user (route e).

(** A sequence of requests, served one after the other. *)
Fixpoint serve (requests : list (option User.t * Endpoint)) (w : World) : World :=
  match requests with
  | [] => w
  | (user, e) :: rest => serve rest (snd (app user e w))
  end.

(** ** Recent transactions of the dashboard *)

(** One element of the body of [GET /api/dashboard/recent-transactions]:
    the transaction with three more fields. [subscriptionType] is the
    type of the subscription, or [None] for the string "Unknown". *)
Module RecentTransaction.
Record t := mk {
  transaction : Transaction.t;
  clientName : string;
  productName : string;
  subscriptionType : option SubscriptionType }.
End RecentTransaction.

(** [s || "Unknown Product"] *)
Definition or_unknown_product (s : option string) : string :=
  match s with
  | Some EmptyString | None => "Unknown Product"
  | Some s' => s'
  end.

(** [invoice?.subscriptionId] *)
Definition subscription_of_invoice (invoice : option Invoice.t) : option Z :=
  match invoice with
  | Some i => Invoice.subscriptionId i
  | None => None
  end.

Definition recent_transaction_details (transaction : Transaction.t)
  : M RecentTransaction.t :=
  owner <- storage.getClient (Transaction.clientId transaction) ;;
  invoice <- (if truthy (Transaction.invoiceId transaction)
              then storage.getInvoice (or_zero (Transaction.invoiceId transaction))
              else ret None) ;;
  subscription <- (if truthy (subscription_of_invoice invoice)
                   then storage.getSubscription
                          (or_zero (subscription_of_invoice invoice))
                   else ret None) ;;
  product <- (if truthy (option_map Subscription.productId subscription)
              then storage.getProduct
                     (or_zero (option_map Subscription.productId subscription))
              else ret None) ;;
  ret (RecentTransaction.mk
         transaction
         (or_unknown (option_map Client.companyName owner))
         (or_unknown_product (option_map Product.name product))
         (option_map Subscription.subscriptionType subscription)).

(** The [try] block of [GET /api/dashboard/recent-transactions], whose
    result the route sends with status 200; when it throws the route
    answers 500. The callbacks of the [Promise.all] are run one
    transaction after the other. *)
Definition dashboard_recent_transactions : M (list RecentTransaction.t) :=
  recentTransactions <- storage.getRecentTransactions 5 ;;
  mapM recent_transaction_details recentTransactions.

(** ** Pages of the client

    The pages read the clock of the browser, here the argument [t]. A
    [date] column arrives as the string [YYYY-MM-DD], which [new Date]
    reads as midnight UTC of that day. A badge is modelled by its
    label. *)
Module Pages.

(** *** Licenses page *)
Module Licenses.

Definition getDaysUntilExpiration (expirationDate : Z) (t : Z) : Z :=
  Calendar.differenceInDays (Calendar.midnight expirationDate) t.

Definition getStatusBadge (status : LicenseStatus) (expirationDate : Z) (t : Z)
  : string :=
  let daysUntilExpiration := getDaysUntilExpiration expirationDate t in
  if (LicenseStatus_eqb status active
      && (daysUntilExpiration <=? 14) && (0 <? daysUntilExpiration))%bool
  then "Expiring Soon"
  else match status with
       | active => "Active"
       | expired => "Expired"
       | pending => "Pending"
       | revoked => "Revoked"
       end.

End Licenses.

(** *** Subscriptions page *)
Module Subscriptions.

(** [isFuture(date)] and [isPast(date)] of date-fns. *)
Definition isFuture (date t : Z) : bool := t <? date.
Definition isPast (date t : Z) : bool := date <? t.

(** The status and the label. *)
Definition getSubscriptionStatus (startDate endDate : Z) (t : Z) : string * string :=
  let start := Calendar.midnight startDate in
  let end_ := Calendar.midnight endDate in
  if isFuture start t then ("upcoming", "Upcoming")
  else if isPast end_ t then ("expired", "Expired")
  else if Calendar.differenceInDays end_ t <=? 14 then ("expiring", "Expiring Soon")
  else ("active", "Active").

End Subscriptions.

End Pages.

(** * Properties *)

(** ** Example data

    Two client companies, each with its user, subscription, license and
    invoice, and one user per staff role. License 1 (Acme) is revoked;
    license 2 (Globex) is active but past its expiration date; license
    3 (Globex) is active and expires in a fortnight. *)

Module Demo.

Definition alice : User.t := User.mk 1 client.
Definition bob : User.t := User.mk 2 client.
Definition sam : User.t := User.mk 3 sales.
Definition sue : User.t := User.mk 4 support.
Definition ada : User.t := User.mk 5 admin.

Definition acme : Client.t := Client.mk 1 1 "Acme".
Definition globex : Client.t := Client.mk 2 2 "Globex".

(** 2024-01-01 is day 19723, 2024-01-31 is day 19753. *)
Definition acme_sub : Subscription.t :=
  Subscription.mk 1 1 1 monthly 19723 19753 4900 false 0.
Definition globex_sub : Subscription.t :=
  Subscription.mk 2 2 1 yearly 19723 20088 49900 true 0.

Definition acme_license : License.t :=
  License.mk 1 1 "LIC-AAAA" revoked 19723 19753 None 0 0 0.
Definition globex_license : License.t :=
  License.mk 2 2 "LIC-BBBB" active 19723 19753 None 0 0 0.
(** A second license of Globex, active until 2024-02-25 (day 19778). *)
Definition edge_license : License.t :=
  License.mk 3 2 "LIC-DDDD" active 19723 19778 None 0 0 0.

Definition acme_invoice : Invoice.t :=
  Invoice.mk 1 1 (Some 1) "INV-2024-00001" 4900 0 4900 19723 19753 false 0.
Definition globex_invoice : Invoice.t :=
  Invoice.mk 2 2 (Some 2) "INV-2024-00002" 49900 0 49900 19723 19753 false 0.

Definition store : Store :=
  mkStore [alice; bob; sam; sue; ada] [acme; globex]
    [Product.mk 1 "Suite" 4900]
    [acme_sub; globex_sub] [acme_license; globex_license; edge_license]
    [acme_invoice; globex_invoice] [] []
    3 4 3 1.

(** Noon of 2024-02-10 (day 19763). *)
Definition noon : Z := 19763 * Calendar.MS_PER_DAY + 43200000.

(** A world where no database call fails. *)
Definition world : World := mkWorld store [] noon [].

(** The body of a license creation that leaves [status] out. *)
Definition new_license : InsertLicense.t :=
  InsertLicense.mk 1 "LIC-CCCC" None 19763 19792 None None.

(** A payment of Acme's invoice, with the given status. *)
Definition payment (st : TransactionStatus) : InsertTransaction.t :=
  InsertTransaction.mk 1 (Some 1) 4900 (Some st) None.

(** A world where the second database call fails. *)
Definition flaky : World := mkWorld store [false; true] noon [].

(** A session that never overwrites the status of license 1: a
    creation, a status patch refused by the gate, a renewal patch of
    license 1, a status patch of license 2, a payment and two reads. *)
Definition session : list (option User.t * Endpoint) :=
  [ (Some sam, POST_licenses (Some new_license));
    (Some sue, PATCH_licenses_id 1
                 (Some (PartialLicense.mk None None (Some active) None None None None)));
    (Some sam, PATCH_licenses_id 1
                 (Some (PartialLicense.mk None None None None (Some 19782) None (Some 0))));
    (Some ada, PATCH_licenses_id 2
                 (Some (PartialLicense.mk None None (Some expired) None None None None)));
    (Some sam, POST_transactions (Some (payment completed)));
    (Some alice, GET_licenses_id 1);
    (None, GET_dashboard_stats) ].

(** A world where the next database call fails. *)
Definition down : World := mkWorld store [true] noon [].

(** The body of a license creation with the key of Acme's license. *)
Definition duplicate_key : InsertLicense.t :=
  InsertLicense.mk 2 "LIC-AAAA" None 19763 19792 None None.

(** The body of an invoice creation without number, whose total is not
    the sum of the amount and of the tax. *)
Definition new_invoice : InsertInvoice.t :=
  InsertInvoice.mk 1 (Some 1) "" 10000 (Some 825) 99999 19763 19792 None.

End Demo.

(** ** Vocabulary of the properties *)

(** The roles the gate [isSales] lets through. *)
Definition sales_or_admin (user : option User.t) : bool :=
  match user with
  | Some u => (UserRole_eqb (User.role u) sales || UserRole_eqb (User.role u) admin)%bool
  | None => false
  end.

(** A computation preserves a property of the store, whatever its
    outcome. *)
Definition preserves {A} (P : Store -> Prop) (m : M A) : Prop :=
  forall w, P (db w) -> P (db (snd (m w))).

(** The operations that change an entitlement: creating a license,
    patching one (revoking and renewing are patches), creating or
    updating a subscription, creating a transaction. *)
Definition entitlement_mutating (e : Endpoint) : bool :=
  match e with
  | POST_licenses _ | PATCH_licenses_id _ _
  | POST_subscriptions _ | PATCH_subscriptions_id _ _
  | POST_transactions _ => true
  | _ => false
  end.

(** Outcome of the [i]-th upcoming database call. *)
Definition fails (w : World) (i : nat) : bool := nth i (faults w) false.

(** The statistic a dashboard query contributes: zero when it failed. *)
Definition or_default (failed : bool) (v : Z) : Z := if failed then 0 else v.

(** The key a created license gets: the supplied one, or a generated
    one when the supplied key is empty. *)
Definition effective_key (d : InsertLicense.t) (w : World) : string :=
  if String.eqb (InsertLicense.licenseKey d) ""
  then storage.license_key_of (hd nil_uuid (entropy w)) (clock w)
  else InsertLicense.licenseKey d.

(** The status of license [i], if the license exists. *)
Definition license_status (s : Store) (i : Z) : option LicenseStatus :=
  option_map License.status (selectById (licenses s) i).

(** License [i] exists and is revoked. *)
Definition is_revoked (i : Z) (s : Store) : Prop :=
  license_status s i = Some revoked.

(** A request overwrites the status of license [i] when it is a
    [PATCH /api/licenses/i] that passes the gate and whose payload
    carries a status other than [revoked]. *)
Definition overwrites_status (i : Z) (request : option User.t * Endpoint) : bool :=
  match request with
  | (user, PATCH_licenses_id j (Some d)) =>
      (sales_or_admin user && (j =? i)
       && match PartialLicense.status d with
          | Some st => negb (LicenseStatus_eqb st revoked)
          | None => false
          end)%bool
  | _ => false
  end.

(** The payload a renewal sends to [PATCH /api/licenses/:id]: a new
    expiration date and a notification counter back at zero. *)
Definition renewal (expirationDate : Z) : PartialLicense.t :=
  PartialLicense.mk None None None None (Some expirationDate) None (Some 0).

(** [{ status: st }] *)
Definition status_only (st : LicenseStatus) : PartialLicense.t :=
  PartialLicense.mk None None (Some st) None None None None.

(** What a token of hexadecimal digits can carry: four bits a digit. *)
Definition token_bits (token : string) : nat := (4 * String.length token)%nat.

(** The first instant of the year 10000: up to it a year has four
    digits. *)
Definition year_10000 : Z := 253402300800000.

(** The routes registered behind [isSales]; the others are the [GET]
    routes, behind [isAuthenticated]. *)
Definition behind_isSales (e : Endpoint) : bool :=
  match e with
  | POST_subscriptions _ | PATCH_subscriptions_id _ _
  | POST_licenses _ | PATCH_licenses_id _ _
  | POST_invoices _ | PATCH_invoices_id _ _
  | POST_transactions _ | PATCH_transactions_id _ _ => true
  | _ => false
  end.

(** The caller passes the middleware of the route. *)
Definition admitted (user : option User.t) (e : Endpoint) : bool :=
  match user with
  | None => false
  | Some _ => if behind_isSales e then sales_or_admin user else true
  end.

(** The body of the request is not a value of the route's schema. *)
Definition body_rejected (e : Endpoint) : bool :=
  match e with
  | POST_subscriptions None | PATCH_subscriptions_id _ None
  | POST_licenses None | PATCH_licenses_id _ None
  | POST_invoices None | PATCH_invoices_id _ None
  | POST_transactions None | PATCH_transactions_id _ None => true
  | _ => false
  end.

(** The request names, by its path parameter, a row that is not in its
    table (and, for a [PATCH], carries a body the schema accepts). *)
Definition missing_target (s : Store) (e : Endpoint) : bool :=
  match e with
  | GET_subscriptions_id id | PATCH_subscriptions_id id (Some _) =>
      negb (exists_id (subscriptions s) id)
  | GET_licenses_id id | PATCH_licenses_id id (Some _) =>
      negb (exists_id (licenses s) id)
  | GET_invoices_id id | PATCH_invoices_id id (Some _) =>
      negb (exists_id (invoices s) id)
  | GET_transactions_id id | PATCH_transactions_id id (Some _) =>
      negb (exists_id (transactions s) id)
  | _ => false
  end.




(** The row a [POST] would insert breaks a foreign key or a unique
    constraint of its table. *)
Definition insert_violates (s : Store) (e : Endpoint) : bool :=
  match e with
  | POST_subscriptions (Some d) =>
      (negb (exists_id (clients s) (InsertSubscription.clientId d))
       || negb (exists_id (products s) (InsertSubscription.productId d)))%bool
  | POST_licenses (Some d) =>
      (negb (exists_id (subscriptions s) (InsertLicense.subscriptionId d))
       || (negb (String.eqb (InsertLicense.licenseKey d) "")
           && storage.key_taken (licenses s) (InsertLicense.licenseKey d)))%bool
  | POST_invoices (Some d) =>
      (negb (exists_id (clients s) (InsertInvoice.clientId d))
       || negb (fk_opt (subscriptions s) (InsertInvoice.subscriptionId d))
       || (negb (String.eqb (InsertInvoice.invoiceNumber d) "")
           && storage.number_taken (invoices s) (InsertInvoice.invoiceNumber d)))%bool
  | POST_transactions (Some d) =>
      (negb (exists_id (clients s) (InsertTransaction.clientId d))
       || negb (fk_opt (invoices s) (InsertTransaction.invoiceId d)))%bool
  | _ => false
  end.

(** The four tables the handlers write. *)
Definition rows (s : Store) :=
  (subscriptions s, licenses s, invoices s, transactions s).

(** The primary keys of a table. *)
Definition ids {R : Type} `{Row R} (t : list R) : list Z := map row_id t.

(** No two rows of a written table share a primary key. *)
Definition primary_keys_unique (s : Store) : Prop :=
  NoDup (ids (subscriptions s)) /\ NoDup (ids (licenses s))
  /\ NoDup (ids (invoices s)) /\ NoDup (ids (transactions s)).

(** The sequence of a table is ahead of the table: every primary key
    in use is below the next value of the sequence. *)
Definition ahead {R : Type} `{Row R} (t : list R) (seq : Z) : Prop :=
  forall i, In i (ids t) -> i < seq.

Definition sequences_ahead (s : Store) : Prop :=
  ahead (subscriptions s) (subscriptions_id_seq s)
  /\ ahead (licenses s) (licenses_id_seq s)
  /\ ahead (invoices s) (invoices_id_seq s)
  /\ ahead (transactions s) (transactions_id_seq s).

(** Every foreign key of the written tables names an existing row: the
    [references] of [shared/schema.ts]. *)
Definition references_resolve (s : Store) : Prop :=
  (forall x, In x (subscriptions s) ->
             exists_id (clients s) (Subscription.clientId x) = true
             /\ exists_id (products s) (Subscription.productId x) = true)
  /\ (forall l, In l (licenses s) ->
                exists_id (subscriptions s) (License.subscriptionId l) = true)
  /\ (forall i, In i (invoices s) ->
                exists_id (clients s) (Invoice.clientId i) = true
                /\ fk_opt (subscriptions s) (Invoice.subscriptionId i) = true)
  /\ (forall x, In x (transactions s) ->
                exists_id (clients s) (Transaction.clientId x) = true
                /\ fk_opt (invoices s) (Transaction.invoiceId x) = true).

(** License keys and invoice numbers are unique, and so are the primary
    keys of their tables. *)
Definition keys_unique (s : Store) : Prop :=
  NoDup (ids (licenses s)) /\ NoDup (map License.licenseKey (licenses s))
  /\ NoDup (ids (invoices s)) /\ NoDup (map Invoice.invoiceNumber (invoices s)).

(** [a] is not older than [b]. *)
Definition not_older (a b : Transaction.t) : Prop :=
  Transaction.transactionDate b <= Transaction.transactionDate a.

(** The number a string of decimal digits denotes, read from the left
    on top of [acc]. *)
Fixpoint digits_value (acc : Z) (s : string) : Z :=
  match s with
  | EmptyString => acc
  | String c s' => digits_value (10 * acc + (Z.of_nat (nat_of_ascii c) - 48)) s'
  end.

(** What an alert of the dashboard says of the license it is made
    from, in the store [s] at time [t]: the license is active and
    expires before the fourteenth day from today; the alert carries its
    id, key and expiration date; [expiresIn] is the number of full days
    to the expiration date; the company, the client and the subscription
    are those of the subscription of the license and of its client, with
    "Unknown" and 0 where one is missing. *)
Definition alert_of (s : Store) (t : Z) (l : License.t) (a : ExpiringLicense.t)
  : Prop :=
  License.status l = active
  /\ License.expirationDate l < Calendar.day_of t + 14
  /\ ExpiringLicense.id a = License.id l
  /\ ExpiringLicense.licenseKey a = License.licenseKey l
  /\ ExpiringLicense.expirationDate a = License.expirationDate l
  /\ ExpiringLicense.expiresIn a = daysUntilExpiration l t
  /\ ExpiringLicense.expiresIn a <= 13
  /\ (Calendar.midnight (License.expirationDate l) <= t ->
      ExpiringLicense.expiresIn a <= 0)
  /\ (Calendar.midnight (License.expirationDate l) + Calendar.MS_PER_DAY <= t ->
      ExpiringLicense.expiresIn a < 0)
  /\ ExpiringLicense.company a <> ""
  /\ match selectById (subscriptions s) (License.subscriptionId l) with
     | Some sub =>
         ExpiringLicense.subscriptionId a = Subscription.id sub
         /\ match selectById (clients s) (Subscription.clientId sub) with
            | Some c =>
                ExpiringLicense.clientId a = Client.id c
                /\ ExpiringLicense.company a
                   = (if String.eqb (Client.companyName c) "" then "Unknown"
                      else Client.companyName c)
            | None =>
                ExpiringLicense.clientId a = 0
                /\ ExpiringLicense.company a = "Unknown"
            end
     | None =>
         ExpiringLicense.subscriptionId a = 0
         /\ ExpiringLicense.clientId a = 0
         /\ ExpiringLicense.company a = "Unknown"
     end.

(** The tables a route may write: its own, and for the creation of a
    transaction also the invoices. The pairs are the tables it must
    leave alone, before and after. *)
Definition untouched (e : Endpoint) (s s' : Store) : Prop :=
  match e with
  | POST_subscriptions _ | PATCH_subscriptions_id _ _ =>
      licenses s' = licenses s /\ invoices s' = invoices s
      /\ transactions s' = transactions s
  | POST_licenses _ | PATCH_licenses_id _ _ =>
      subscriptions s' = subscriptions s /\ invoices s' = invoices s
      /\ transactions s' = transactions s
  | POST_invoices _ | PATCH_invoices_id _ _ =>
      subscriptions s' = subscriptions s /\ licenses s' = licenses s
      /\ transactions s' = transactions s
  | POST_transactions _ =>
      subscriptions s' = subscriptions s /\ licenses s' = licenses s
  | PATCH_transactions_id _ _ =>
      subscriptions s' = subscriptions s /\ licenses s' = licenses s
      /\ invoices s' = invoices s
  | _ => s' = s
  end.

(** The rows of the four written tables that have the given id. *)
Definition rows_at (s : Store) (i : Z) :=
  (selectById (subscriptions s) i, selectById (licenses s) i,
   selectById (invoices s) i, selectById (transactions s) i).

(** The id a [PATCH] names. *)
Definition patched_id (e : Endpoint) : option Z :=
  match e with
  | PATCH_subscriptions_id j _ | PATCH_licenses_id j _
  | PATCH_invoices_id j _ | PATCH_transactions_id j _ => Some j
  | _ => None
  end.

(** An invoice marked as paid at time [t]: nothing else changes. *)
Definition marked_paid (t : Z) (inv : Invoice.t) : Invoice.t :=
  Invoice.mk (Invoice.id inv) (Invoice.clientId inv) (Invoice.subscriptionId inv)
    (Invoice.invoiceNumber inv) (Invoice.amount inv) (Invoice.tax inv)
    (Invoice.totalAmount inv) (Invoice.issueDate inv) (Invoice.dueDate inv)
    true t.

(** A world with the same store and clock in which the next database
    calls succeed. *)
Definition calm (w : World) : World := mkWorld (db w) [] (clock w) (entropy w).

(** The id of the row a request may modify: the row a [PATCH] names
    and the invoice the creation of a transaction names. *)
Definition targets (e : Endpoint) (i : Z) : bool :=
  match e with
  | PATCH_subscriptions_id j _ | PATCH_licenses_id j _
  | PATCH_invoices_id j _ | PATCH_transactions_id j _ => j =? i
  | POST_transactions (Some d) =>
      (truthy (InsertTransaction.invoiceId d)
       && (or_zero (InsertTransaction.invoiceId d) =? i))%bool
  | _ => false
  end.

(** The row found before is still found, unchanged. *)
Definition kept {R : Type} (before after : option R) : Prop :=
  forall r, before = Some r -> after = Some r.

(** The rows of id [i] of the four written tables are kept from [s]
    to [s']. *)
Definition rows_kept (i : Z) (s s' : Store) : Prop :=
  kept (selectById (subscriptions s) i) (selectById (subscriptions s') i)
  /\ kept (selectById (licenses s) i) (selectById (licenses s') i)
  /\ kept (selectById (invoices s) i) (selectById (invoices s') i)
  /\ kept (selectById (transactions s) i) (selectById (transactions s') i).

(** A gate lets the caller through: it runs the handler it guards, as
    the user of the session. *)
Definition passes (gate : option User.t -> (User.t -> Handler) -> Handler)
  (user : option User.t) : Prop :=
  exists u, user = Some u /\ forall next w, gate user next w = next u w.

(** A gate refuses the caller with a status code: the handler is not
    run and the world is left as it was. *)
Definition refuses (gate : option User.t -> (User.t -> Handler) -> Handler)
  (user : option User.t) (code : Z) : Prop :=
  forall next w, exists b, gate user next w = (Response.mk code b, w).

(** A world with an empty store. *)
Definition idle : World :=
  mkWorld (mkStore [] [] [] [] [] [] [] [] 1 1 1 1) [] 0 [].

(** The [activeSubscriptions] field of the statistics. *)
Definition activeSubscriptions_of (b : Body) : option Z :=
  match b with
  | stats _ activeSubscriptions _ _ => Some activeSubscriptions
  | _ => None
  end.

(** The [activeSubscriptions] statistic the dashboard shows to [u] for
    the store of [w], when its queries do not fail. *)
Definition shown_activeSubscriptions (u : User.t) (w : World) : option Z :=
  activeSubscriptions_of
    (Response.json (fst (app (Some u) GET_dashboard_stats (calm w)))).

(** What a license of this status adds to a count of the active ones. *)
Definition is_active (st : LicenseStatus) : Z :=
  if LicenseStatus_eqb st active then 1 else 0.

(** What a request adds to the [activeSubscriptions] statistic, from
    the store before it and the status of its answer. *)
Definition added_to_statistic (e : Endpoint) (s : Store) (status : Z) : Z :=
  match e with
  | POST_licenses (Some d) =>
      if status =? 201
      then is_active (patched (InsertLicense.status d) active)
      else 0
  | PATCH_licenses_id i (Some p) =>
      match selectById (licenses s) i with
      | Some old =>
          if status =? 200
          then is_active (patched (PartialLicense.status p) (License.status old))
               - is_active (License.status old)
          else 0
      | None => 0
      end
  | _ => 0
  end.

(** The number of the active licenses of a table, as
    [getActiveLicensesCount] counts them. *)
Definition active_licenses (l : list License.t) : Z :=
  storage.count (fun l => LicenseStatus_eqb (License.status l) active) l.

(** What the dashboard shows of a transaction of the store [s]: the
    transaction itself, the company name of its client, the type of the
    subscription its invoice bills and the name of the product of that
    subscription, with "Unknown" and "Unknown Product" where a link of
    the chain is missing. *)
Definition details_of (s : Store) (tx : Transaction.t) (d : RecentTransaction.t)
  : Prop :=
  RecentTransaction.transaction d = tx
  /\ RecentTransaction.clientName d <> ""
  /\ RecentTransaction.productName d <> ""
  /\ (forall c, selectById (clients s) (Transaction.clientId tx) = Some c ->
                Client.companyName c <> "" ->
                RecentTransaction.clientName d = Client.companyName c)
  /\ (selectById (clients s) (Transaction.clientId tx) = None ->
      RecentTransaction.clientName d = "Unknown")
  /\ (truthy (Transaction.invoiceId tx) = false ->
      RecentTransaction.subscriptionType d = None)
  /\ (RecentTransaction.subscriptionType d = None ->
      RecentTransaction.productName d = "Unknown Product")
  /\ (forall x inv y sub,
         Transaction.invoiceId tx = Some x -> x <> 0 ->
         selectById (invoices s) x = Some inv ->
         Invoice.subscriptionId inv = Some y -> y <> 0 ->
         selectById (subscriptions s) y = Some sub ->
         RecentTransaction.subscriptionType d = Some (Subscription.subscriptionType sub)
         /\ forall p, Subscription.productId sub <> 0 ->
                      selectById (products s) (Subscription.productId sub) = Some p ->
                      Product.name p <> "" ->
                      RecentTransaction.productName d = Product.name p).

(** The [Client] record of a user, as [getClientByUserId] finds it. *)
Definition profile_of (s : Store) (u : User.t) : option Client.t :=
  find (fun c => Client.userId c =? User.id u) (clients s).

(** A [PATCH] with a body the schema accepts. *)
Definition is_patch (e : Endpoint) : bool :=
  match e with
  | PATCH_subscriptions_id _ (Some _) | PATCH_licenses_id _ (Some _)
  | PATCH_invoices_id _ (Some _) | PATCH_transactions_id _ (Some _) => true
  | _ => false
  end.

(** ** Reasoning about computations *)

Lemma UserRole_eqb_eq a b : UserRole_eqb a b = true <-> a = b.
Proof. destruct a, b; simpl; split; congruence. Qed.

Lemma LicenseStatus_eqb_eq a b : LicenseStatus_eqb a b = true <-> a = b.
Proof. destruct a, b; simpl; split; congruence. Qed.

Lemma LicenseStatus_eqb_neq a b : LicenseStatus_eqb a b = false <-> a <> b.
Proof. destruct a, b; simpl; split; congruence. Qed.

Section Preservation.
Variable P : Store -> Prop.

Lemma preserves_ret {A} (a : A) : preserves P (ret a).
Proof. intros w H; exact H. Qed.

Lemma preserves_throw {A} (e : Error) : preserves P (@throw A e).
Proof. intros w H; exact H. Qed.

Lemma preserves_now : preserves P now.
Proof. intros w H; exact H. Qed.

Lemma preserves_randomUUID : preserves P randomUUID.
Proof. intros w H; unfold randomUUID; destruct (entropy w); exact H. Qed.

Lemma preserves_bind {A B} (m : M A) (k : A -> M B) :
  preserves P m -> (forall a, preserves P (k a)) -> preserves P (bind m k).
Proof.
  intros Hm Hk w H. unfold bind. specialize (Hm w H).
  destruct (m w) as [[a|e] w']; simpl in *.
  - apply Hk; exact Hm.
  - exact Hm.
Qed.

Lemma preserves_bind_ret {A B} (a : A) (k : A -> M B) :
  preserves P (k a) -> preserves P (bind (ret a) k).
Proof. intros Hk w H. exact (Hk w H). Qed.

Lemma preserves_try_catch {A} (m : M A) (h : Error -> M A) :
  preserves P m -> (forall e, preserves P (h e)) -> preserves P (try_catch m h).
Proof.
  intros Hm Hh w H. unfold try_catch. specialize (Hm w H).
  destruct (m w) as [[a|e] w']; simpl in *.
  - exact Hm.
  - apply Hh; exact Hm.
Qed.

Lemma preserves_db_call {A} (stmt : Store -> Result A * Store) :
  (forall s, P s -> P (snd (stmt s))) -> preserves P (db_call stmt).
Proof.
  intros Hs w H. unfold db_call.
  destruct (faults w) as [|[] fs]; simpl; try exact H;
    specialize (Hs (db w) H); destruct (stmt (db w)); exact Hs.
Qed.

Lemma preserves_db_query {A} (q : Store -> A) : preserves P (db_query q).
Proof. apply preserves_db_call; intros s H; exact H. Qed.

Lemma preserves_mapM {A B} (f : A -> M B) (l : list A) :
  (forall a, preserves P (f a)) -> preserves P (mapM f l).
Proof.
  intros Hf. induction l as [|a l IH]; simpl.
  - apply preserves_ret.
  - apply preserves_bind; [apply Hf|]. intros b.
    apply preserves_bind; [exact IH|]. intros bs. apply preserves_ret.
Qed.

Lemma preserves_handler (body : M Response.t) z e :
  preserves P body -> forall w, P (db w) -> P (db (snd (handler body z e w))).
Proof.
  intros Hb w H. unfold handler. specialize (Hb w H).
  destruct (body w) as [[r|[]] w']; simpl in *; try exact Hb;
    destruct z; exact Hb.
Qed.

Lemma preserves_isAuthenticated user (next : User.t -> Handler) :
  (forall u w, P (db w) -> P (db (snd (next u w)))) ->
  forall w, P (db w) -> P (db (snd (isAuthenticated user next w))).
Proof. intros Hn w H. destruct user; simpl; auto. Qed.

Lemma preserves_isSales user (next : User.t -> Handler) :
  (forall u w, P (db w) -> P (db (snd (next u w)))) ->
  forall w, P (db w) -> P (db (snd (isSales user next w))).
Proof.
  intros Hn w H. destruct user as [u|]; simpl; auto.
  destruct (_ || _)%bool; simpl; auto.
Qed.

End Preservation.

(** Breaks the body of a handler into its calls of the data access
    layer; [leaf] is tried first on every goal. *)
Ltac frame_with leaf :=
  repeat first
    [ leaf
    | apply preserves_ret | apply preserves_throw | apply preserves_now
    | apply preserves_randomUUID | apply preserves_db_query
    | apply preserves_bind | apply preserves_try_catch
    | apply preserves_mapM | apply preserves_db_call
    | progress intros
    | match goal with
      | |- preserves _ (if ?b then _ else _) => destruct b
      | |- preserves _ (match ?x with _ => _ end) => destruct x
      | |- preserves _ (parse ?b) => destruct b; unfold parse
      | |- preserves _ (send _ _) => unfold send
      end ].

Ltac frame := frame_with fail.

(** The storage methods that only read leave the store as it is. *)
Lemma reads_preserve (P : Store -> Prop) :
  (forall i, preserves P (storage.getClient i))
  /\ (forall i, preserves P (storage.getClientByUserId i))
  /\ (forall i, preserves P (storage.getSubscription i))
  /\ (forall i, preserves P (storage.getSubscriptionsByClient i))
  /\ (forall i, preserves P (storage.getLicense i))
  /\ (forall i, preserves P (storage.getLicensesBySubscription i))
  /\ (forall n, preserves P (storage.getExpiringLicenses n))
  /\ (forall i, preserves P (storage.getInvoice i))
  /\ (forall i, preserves P (storage.getInvoicesByClient i))
  /\ (forall i, preserves P (storage.getTransaction i))
  /\ (forall i, preserves P (storage.getTransactionsByClient i))
  /\ (forall n, preserves P (storage.getRecentTransactions n))
  /\ preserves P storage.getClientCount
  /\ preserves P storage.getActiveLicensesCount
  /\ preserves P storage.getOpenTicketsCount
  /\ preserves P storage.getMonthlyRevenue
  /\ preserves P storage.generateInvoiceNumber
  /\ preserves P storage.generateLicenseKey.
Proof.
  repeat split; intros;
    unfold storage.getClient, storage.getClientByUserId, storage.getSubscription,
      storage.getSubscriptionsByClient, storage.getLicense,
      storage.getLicensesBySubscription, storage.getExpiringLicenses,
      storage.getInvoice, storage.getInvoicesByClient, storage.getTransaction,
      storage.getTransactionsByClient, storage.getRecentTransactions,
      storage.getClientCount, storage.getActiveLicensesCount,
      storage.getOpenTicketsCount, storage.getMonthlyRevenue,
      storage.generateInvoiceNumber, storage.generateLicenseKey;
    frame.
Qed.

(** ** Access policy: the role gate *)

(** C8. A request that creates or patches (revokes, renews) a license,
    creates or updates a subscription, or creates a transaction is
    answered 403 Forbidden and leaves the whole world (every entity, the
    sequences) as it was when the caller is not authenticated or has a
    role other than sales and admin; for a sales or admin caller the
    gate hands the request to the route's handler. *)
Theorem role_gate_on_entitlement_mutations :
  forall (user : option User.t) (e : Endpoint) (w : World),
    entitlement_mutating e = true ->
    (sales_or_admin user = false ->
     app user e w = (Response.mk 403 (message "Forbidden"), w))
    /\ (forall u, user = Some u -> sales_or_admin user = true ->
        app user e w = route e u w).
Proof.
  intros user e w He.
  assert (Hm : middleware e = isSales) by (destruct e; simpl in *; congruence).
  unfold app. rewrite Hm. split.
  - intros Hu. destruct user as [u|]; simpl in *; [rewrite Hu|]; reflexivity.
  - intros u -> Hu. simpl in *. rewrite Hu. reflexivity.
Qed.

Lemma role_gate_on_entitlement_mutations_witness :
  entitlement_mutating (POST_licenses None) = true
  /\ sales_or_admin (Some Demo.sue) = false
  /\ app (Some Demo.sue) (POST_licenses None) Demo.world
     = (Response.mk 403 (message "Forbidden"), Demo.world).
Proof.
  split; [reflexivity|]. split; [reflexivity|].
  apply (role_gate_on_entitlement_mutations
           (Some Demo.sue) (POST_licenses None) Demo.world); reflexivity.
Defined.

(** ** Dashboard statistics *)

(** C6. [GET /api/dashboard/stats] always answers 200 with the four
    statistics, whatever the outcomes of its four queries: a statistic
    whose query failed is zero and the others have the value of their
    query; the store, the clock and the random source are unchanged. *)
Theorem dashboard_stats_degrade_independently :
  forall (u : User.t) (w : World),
    app (Some u) GET_dashboard_stats w
    = (Response.mk 200
         (stats
            (or_default (fails w 0) (Z.of_nat (List.length (clients (db w)))))
            (or_default (fails w 1)
               (storage.count (fun l => LicenseStatus_eqb (License.status l) active)
                  (licenses (db w))))
            (or_default (fails w 2)
               (storage.count
                  (fun k => (TicketStatus_eqb (Ticket.status k) new
                             || TicketStatus_eqb (Ticket.status k) in_progress)%bool)
                  (tickets (db w))))
            (or_default (fails w 3)
               (storage.revenue (Calendar.firstDayOfMonth (clock w))
                  (transactions (db w))))),
       mkWorld (db w) (skipn 4 (faults w)) (clock w) (entropy w)).
Proof.
  intros u [s fs t en]. unfold fails. simpl faults.
  destruct fs as [|[] [|[] [|[] [|[] fs]]]]; reflexivity.
Qed.

(** ** Expiring licenses *)

(** C9. [getExpiringLicenses] is a query: whatever the store, the
    threshold and the outcome of the call, the store after the call is
    the store before it, so no license has its status, its
    [notificationsSent] or its [lastChecked] modified; the same holds
    for the dashboard route built on it. *)
Theorem getExpiringLicenses_is_pure :
  forall (daysThreshold : Z) (w : World) (user : option User.t),
    db (snd (storage.getExpiringLicenses daysThreshold w)) = db w
    /\ db (snd (app user GET_dashboard_expiring_licenses w)) = db w.
Proof.
  intros n w user. split.
  - apply (proj1 (proj2 (proj2 (proj2 (proj2 (proj2 (proj2
             (reads_preserve (fun s => s = db w)))))))) n w).
    reflexivity.
  - unfold app. simpl middleware.
    apply (preserves_isAuthenticated (fun s => s = db w)); [|reflexivity].
    intros u w' H. simpl route. unfold get_dashboard_expiring_licenses.
    apply preserves_handler; [|exact H].
    pose proof (reads_preserve (fun s => s = db w)) as R.
    unfold expiring_license_data, daysUntilExpiration. frame; apply R.
Qed.

(** ** Access policy: reads scoped to the caller's client *)

(** The routes that read one resource by its id check the owner: a
    client-role caller asking for a license of another client's
    subscription is answered 403. *)
Lemma get_license_of_other_client_is_forbidden :
  forall (u : User.t) (id : Z) (w : World) (lic : License.t) (sub : Subscription.t),
    User.role u = client ->
    faults w = [] ->
    selectById (licenses (db w)) id = Some lic ->
    selectById (subscriptions (db w)) (License.subscriptionId lic) = Some sub ->
    not_owner (find (fun c => Client.userId c =? User.id u) (clients (db w)))
      (Subscription.clientId sub) = true ->
    app (Some u) (GET_licenses_id id) w
    = (Response.mk 403 (message "Access denied"), w).
Proof.
  intros u id [s fs t en] lic sub Hr Hf Hl Hs Hn. simpl in *. subst fs.
  unfold app, get_license, handler, bind, storage.getLicense,
    storage.getSubscription, storage.getClientByUserId, db_query, db_call.
  simpl. rewrite Hl, Hr. simpl. rewrite Hs. simpl. rewrite Hn. reflexivity.
Qed.

(** C5, on the code. Alice is a client-role user whose client record is
    Acme (client 1). She asks for the subscriptions, the invoices and
    the transactions of client 2 (Globex) through the [clientId] query
    parameter of the list routes: the answers are 200 with Globex's
    rows, not 403. *)
Theorem client_lists_rows_of_another_client :
  User.role Demo.alice = client
  /\ find (fun c => Client.userId c =? User.id Demo.alice) (clients Demo.store)
     = Some Demo.acme
  /\ Subscription.clientId Demo.globex_sub <> Client.id Demo.acme
  /\ app (Some Demo.alice) (GET_subscriptions (Some 2)) Demo.world
     = (Response.mk 200 (subscriptions_json [Demo.globex_sub]), Demo.world)
  /\ app (Some Demo.alice) (GET_invoices (Some 2)) Demo.world
     = (Response.mk 200 (invoices_json [Demo.globex_invoice]), Demo.world)
  /\ app (Some Demo.alice) (GET_subscriptions_id 2) Demo.world
     = (Response.mk 403 (message "Access denied"), Demo.world).
Proof.
  repeat split; try reflexivity. discriminate.
Qed.

(** ** Tables *)

Section TableLemmas.
Context {R : Type} `{Row R}.

Lemma selectById_app (l l' : list R) (i : Z) :
  selectById (l ++ l') i
  = match selectById l i with
    | Some r => Some r
    | None => selectById l' i
    end.
Proof.
  unfold selectById. induction l as [|r l IH]; simpl; [reflexivity|].
  destruct (row_id r =? i); [reflexivity|exact IH].
Qed.

Lemma selectById_none (l : list R) (i : Z) :
  exists_id l i = false -> selectById l i = None.
Proof.
  unfold selectById, exists_id. induction l as [|r l IH]; simpl; [reflexivity|].
  destruct (row_id r =? i); simpl; [discriminate|exact IH].
Qed.

Lemma selectById_some (l : list R) (i : Z) :
  exists_id l i = true -> exists r, selectById l i = Some r.
Proof.
  unfold selectById, exists_id. induction l as [|r l IH]; simpl; [discriminate|].
  destruct (row_id r =? i); simpl; [exists r; reflexivity|exact IH].
Qed.

Lemma selectById_id (l : list R) (i : Z) (r : R) :
  selectById l i = Some r -> row_id r = i.
Proof.
  unfold selectById. intros Hf. apply find_some in Hf.
  destruct Hf as [_ Hf]. apply Z.eqb_eq; exact Hf.
Qed.

Lemma selectById_updateById (l : list R) (i j : Z) (f : R -> R) :
  (forall r, row_id (f r) = row_id r) ->
  selectById (updateById l j f) i
  = if j =? i then option_map f (selectById l i) else selectById l i.
Proof.
  intros Hf. unfold selectById, updateById.
  induction l as [|r l IH]; simpl.
  - destruct (j =? i); reflexivity.
  - destruct (row_id r =? j) eqn:Ej.
    + rewrite Hf. apply Z.eqb_eq in Ej. rewrite Ej.
      destruct (j =? i) eqn:Ei; simpl; [reflexivity|].
      exact IH.
    + destruct (row_id r =? i) eqn:Ei.
      * apply Z.eqb_eq in Ei. rewrite <- Ei, Z.eqb_sym, Ej. reflexivity.
      * exact IH.
Qed.

End TableLemmas.

(** ** Creating a license *)

(** C10. A license-creation request whose body has no [status] creates
    the license with status [active], the default of the column: every
    201 answer of [POST /api/licenses] to such a request carries a
    license that is [active] and is in the table; and the request is
    answered 201 whenever the caller is sales or admin, no database call
    fails, the subscription exists and the key and the next id are
    free. *)
Theorem created_license_is_active_by_default :
  forall (user : option User.t) (d : InsertLicense.t) (w : World),
    InsertLicense.status d = None ->
    (forall r w',
        app user (POST_licenses (Some d)) w = (r, w') ->
        Response.status r = 201 ->
        exists l, Response.json r = license_json l
                  /\ License.status l = active
                  /\ In l (licenses (db w')))
    /\ (sales_or_admin user = true ->
        faults w = [] ->
        exists_id (subscriptions (db w)) (InsertLicense.subscriptionId d) = true ->
        storage.key_taken (licenses (db w)) (effective_key d w) = false ->
        exists_id (licenses (db w)) (licenses_id_seq (db w)) = false ->
        exists l w',
          app user (POST_licenses (Some d)) w
          = (Response.mk 201 (license_json l), w')
          /\ License.status l = active
          /\ selectById (licenses (db w')) (License.id l) = Some l).
Proof.
  intros user d [s fs t en] Hst. split.
  - intros r w'. unfold app. simpl middleware. simpl route.
    destruct user as [u|]; simpl isSales;
      [destruct (_ || _)%bool|]; try (intros E; inversion E; discriminate).
    unfold post_licenses, handler, bind, parse, ret, send, storage.generateLicenseKey,
      storage.createLicense, randomUUID, now, bind, ret, db_call. simpl.
    destruct (String.eqb (InsertLicense.licenseKey d) ""), en, fs as [|[] fs]; simpl;
      try (intros E; inversion E; discriminate);
      match goal with
      | |- context [if ?c then _ else _] => destruct c
      end; simpl; intros E; inversion E; subst; try discriminate; intros _;
      eexists; (split; [reflexivity|]); simpl; rewrite Hst; simpl;
      (split; [reflexivity|]); apply in_or_app; right; left; reflexivity.
  - intros Hu Hf Hsub Hkey Hid. simpl in *. subst fs.
    destruct user as [u|]; simpl in Hu; [|discriminate].
    unfold app. simpl middleware. simpl route. simpl isSales. rewrite Hu.
    unfold effective_key in Hkey. simpl in Hkey.
    unfold post_licenses, handler, bind, parse, ret, send, storage.generateLicenseKey,
      storage.createLicense, randomUUID, now, bind, ret, db_call. simpl.
    destruct (String.eqb (InsertLicense.licenseKey d) ""), en; simpl in *;
      rewrite Hid, Hsub, Hkey; simpl;
      do 2 eexists; (split; [reflexivity|]); simpl; rewrite Hst; simpl;
      (split; [reflexivity|]);
      rewrite selectById_app, (selectById_none _ _ Hid); simpl;
      unfold row_id, Row_License; simpl; rewrite Z.eqb_refl; reflexivity.
Qed.

Lemma created_license_is_active_by_default_witness :
  InsertLicense.status Demo.new_license = None
  /\ exists l w',
       app (Some Demo.sam) (POST_licenses (Some Demo.new_license)) Demo.world
       = (Response.mk 201 (license_json l), w')
       /\ License.status l = active
       /\ selectById (licenses (db w')) (License.id l) = Some l.
Proof.
  split; [reflexivity|].
  apply (proj2 (created_license_is_active_by_default
                  (Some Demo.sam) Demo.new_license Demo.world eq_refl));
    reflexivity.
Defined.

(** ** Reconciliation of invoices and transactions *)

(** C2, as stated, fails: the insert of the transaction and the update
    of the invoice are two separate statements. When the second one
    fails, the request is answered 500, the transaction stays inserted
    and the invoice stays unpaid. *)
Lemma transaction_and_invoice_writes_are_not_atomic :
  let d := Demo.payment completed in
  let '(r, w') := app (Some Demo.sam) (POST_transactions (Some d)) Demo.flaky in
  InsertTransaction.invoiceId d = Some 1
  /\ Response.status r = 500
  /\ transactions (db w') <> transactions (db Demo.flaky)
  /\ option_map Transaction.invoiceId (selectById (transactions (db w')) 1)
     = Some (Some 1)
  /\ option_map Invoice.isPaid (selectById (invoices (db w')) 1) = Some false.
Proof.
  vm_compute. repeat split; discriminate.
Qed.

(** C2, amended. When the caller is sales or admin, the body names an
    existing client and an existing invoice [x] (not 0), the next
    transaction id is free and neither database call fails, [POST
    /api/transactions] answers 201, the transaction is in the table with
    the status of the body ([pending] when absent) and invoice [x] is
    paid right after the call: for every transaction status, [failed]
    and [pending] included. *)
Theorem transaction_marks_invoice_paid :
  forall (user : option User.t) (d : InsertTransaction.t) (x : Z) (w : World),
    sales_or_admin user = true ->
    InsertTransaction.invoiceId d = Some x ->
    x <> 0 ->
    fails w 0 = false ->
    fails w 1 = false ->
    exists_id (clients (db w)) (InsertTransaction.clientId d) = true ->
    exists_id (invoices (db w)) x = true ->
    exists_id (transactions (db w)) (transactions_id_seq (db w)) = false ->
    exists tx w',
      app user (POST_transactions (Some d)) w
      = (Response.mk 201 (transaction_json tx), w')
      /\ Transaction.status tx = patched (InsertTransaction.status d) tx_pending
      /\ In tx (transactions (db w'))
      /\ exists inv, selectById (invoices (db w')) x = Some inv
                     /\ Invoice.isPaid inv = true.
Proof.
  intros user [cid iid amt st td] x [s fs t en] Hu Hx Hx0 Hf0 Hf1 Hc Hi Hid.
  simpl in Hx. subst iid.
  destruct user as [u|]; simpl in Hu; [|discriminate].
  destruct (selectById_some _ _ Hi) as [inv Hinv].
  assert (Hz : (x =? 0) = false) by (apply Z.eqb_neq; exact Hx0).
  unfold fails in *. simpl in *.
  unfold app. simpl middleware. simpl route. simpl isSales. rewrite Hu.
  unfold post_transactions, handler, bind, parse, ret, send,
    storage.createTransaction, storage.updateInvoice, now, bind, ret, db_call.
  simpl.
  destruct fs as [|[] [|[] fs]]; simpl in *; try discriminate;
    rewrite Hid, Hc; simpl; rewrite Hi; simpl; rewrite Hz; simpl;
    rewrite Hinv; simpl;
    do 2 eexists; (split; [reflexivity|]); simpl;
    (split; [reflexivity|]);
    (split; [apply in_or_app; right; left; reflexivity|]);
    exists (storage.patch_invoice storage.paid t inv);
    (split; [|reflexivity]);
    rewrite selectById_updateById by reflexivity;
    rewrite Z.eqb_refl, Hinv; reflexivity.
Qed.

Lemma transaction_marks_invoice_paid_witness :
  sales_or_admin (Some Demo.sam) = true
  /\ InsertTransaction.invoiceId (Demo.payment failed) = Some 1
  /\ exists tx w',
       app (Some Demo.sam) (POST_transactions (Some (Demo.payment failed))) Demo.world
       = (Response.mk 201 (transaction_json tx), w')
       /\ Transaction.status tx = failed
       /\ In tx (transactions (db w'))
       /\ exists inv, selectById (invoices (db w')) 1 = Some inv
                      /\ Invoice.isPaid inv = true.
Proof.
  split; [reflexivity|]. split; [reflexivity|].
  apply (transaction_marks_invoice_paid
           (Some Demo.sam) (Demo.payment failed) 1 Demo.world);
    try reflexivity.
  discriminate.
Defined.

(** ** Which licenses are expiring *)

(** C3, as stated, fails at both ends of the window. At noon of
    2024-02-10, with a threshold of 14 days: Globex's license 2 is
    active and expired ten days ago ([daysUntilExpiration = -10]), and
    it is returned; Globex's license 3 is active and expires in 14 full
    days ([daysUntilExpiration = 14]), and it is not returned. *)
Lemma expiring_window_has_no_lower_bound_and_excludes_day_n :
  exists rows w',
    storage.getExpiringLicenses 14 Demo.world = (Ok rows, w')
    /\ License.status Demo.globex_license = active
    /\ daysUntilExpiration Demo.globex_license (clock Demo.world) = -10
    /\ In Demo.globex_license rows
    /\ License.status Demo.edge_license = active
    /\ daysUntilExpiration Demo.edge_license (clock Demo.world) = 14
    /\ ~ In Demo.edge_license rows.
Proof.
  exists [Demo.globex_license], Demo.world.
  repeat split; try reflexivity.
  - left; reflexivity.
  - intros [H|[]]. discriminate H.
Qed.

(** C3, amended. When its database call does not fail,
    [getExpiringLicenses(n)] returns exactly the licenses of the table
    that are [active] and whose expiration date is a day strictly
    before the day on which [now + n days] falls. Hence: a license with
    a status other than [active] is never returned; every returned
    license has [daysUntilExpiration < n]; and there is no lower bound:
    for a positive [n], an active license whose expiration date has
    passed is returned. *)
Theorem getExpiringLicenses_selects_active_before_threshold :
  forall (n : Z) (w : World),
    fails w 0 = false ->
    exists rows w',
      storage.getExpiringLicenses n w = (Ok rows, w')
      /\ forall l,
          (In l rows <->
           In l (licenses (db w))
           /\ License.status l = active
           /\ License.expirationDate l
              < Calendar.day_of (Calendar.addDays (clock w) n))
          /\ (License.status l <> active -> ~ In l rows)
          /\ (In l rows -> daysUntilExpiration l (clock w) < n)
          /\ (In l (licenses (db w)) -> License.status l = active ->
              Calendar.midnight (License.expirationDate l) <= clock w ->
              0 < n -> In l rows).
Proof.
  intros n [s fs t en] Hf. unfold fails in Hf. simpl in *.
  exists (filter (storage.expiring (Calendar.addDays t n)) (licenses s)).
  assert (Hin : forall l,
             In l (filter (storage.expiring (Calendar.addDays t n)) (licenses s)) <->
             In l (licenses s) /\ License.status l = active
             /\ License.expirationDate l < Calendar.day_of (Calendar.addDays t n)).
  { intros l. rewrite filter_In. unfold storage.expiring.
    rewrite andb_true_iff, LicenseStatus_eqb_eq, Z.ltb_lt. tauto. }
  exists (mkWorld s (tl fs) t en). split.
  - unfold storage.getExpiringLicenses, bind, now, db_query, db_call. simpl.
    destruct fs as [|[] fs]; simpl in *; try discriminate; reflexivity.
  - intros l. split; [apply Hin|]. split; [|split].
    + intros Hs Hl. apply Hin in Hl. tauto.
    + intros Hl. apply Hin in Hl. destruct Hl as (_ & _ & Hl).
      unfold daysUntilExpiration, Calendar.differenceInDays, Calendar.addDays,
        Calendar.midnight, Calendar.day_of, Calendar.MS_PER_DAY in *.
      Z.to_euclidean_division_equations; lia.
    + intros Hl Hs Hd Hn. apply Hin. split; [exact Hl|]. split; [exact Hs|].
      unfold Calendar.addDays, Calendar.midnight, Calendar.day_of,
        Calendar.MS_PER_DAY in *.
      Z.to_euclidean_division_equations; lia.
Qed.

Lemma getExpiringLicenses_selects_active_before_threshold_witness :
  fails Demo.world 0 = false
  /\ exists rows w',
       storage.getExpiringLicenses 14 Demo.world = (Ok rows, w')
       /\ forall l,
           (In l rows <->
            In l (licenses (db Demo.world))
            /\ License.status l = active
            /\ License.expirationDate l
               < Calendar.day_of (Calendar.addDays (clock Demo.world) 14))
           /\ (License.status l <> active -> ~ In l rows)
           /\ (In l rows -> daysUntilExpiration l (clock Demo.world) < 14)
           /\ (In l (licenses (db Demo.world)) -> License.status l = active ->
               Calendar.midnight (License.expirationDate l) <= clock Demo.world ->
               0 < 14 -> In l rows).
Proof.
  split; [reflexivity|].
  apply (getExpiringLicenses_selects_active_before_threshold 14 Demo.world).
  reflexivity.
Defined.

(** ** Patching a license *)

(** What [PATCH /api/licenses/:id] does when it goes through. *)
Lemma patch_license_answer :
  forall (user : option User.t) (id : Z) (d : PartialLicense.t) (w : World)
         (old : License.t),
    sales_or_admin user = true ->
    fails w 0 = false ->
    selectById (licenses (db w)) id = Some old ->
    fk_opt (subscriptions (db w)) (PartialLicense.subscriptionId d) = true ->
    storage.key_taken_by_other (licenses (db w)) id (PartialLicense.licenseKey d)
    = false ->
    app user (PATCH_licenses_id id (Some d)) w
    = (Response.mk 200 (license_json (storage.patch_license d (clock w) old)),
       mkWorld
         (set_licenses
            (updateById (licenses (db w)) id (storage.patch_license d (clock w)))
            (licenses_id_seq (db w)) (db w))
         (tl (faults w)) (clock w) (entropy w)).
Proof.
  intros user id d [s fs t en] old Hu Hf Hold Hfk Hkey.
  destruct user as [u|]; simpl in Hu; [|discriminate].
  unfold fails in Hf. simpl in *.
  unfold app. simpl middleware. simpl route. simpl isSales. rewrite Hu.
  unfold patch_license, handler, bind, parse, ret, send, storage.updateLicense,
    now, bind, db_call.
  simpl.
  destruct fs as [|[] fs]; simpl in *; try discriminate;
    rewrite Hold, Hfk, Hkey; reflexivity.
Qed.

Lemma patch_license_selects :
  forall (l : list License.t) (id t : Z) (d : PartialLicense.t) (old : License.t),
    selectById l id = Some old ->
    selectById (updateById l id (storage.patch_license d t)) id
    = Some (storage.patch_license d t old).
Proof.
  intros l id t d old Hold.
  rewrite selectById_updateById by reflexivity.
  rewrite Z.eqb_refl, Hold. reflexivity.
Qed.

(** C4, as stated, fails. The server has no renewal operation: a
    renewal goes through [PATCH /api/licenses/:id], which looks neither
    at the status nor at the subscription. Sent by a sales user for
    Acme's revoked license, the renewal payload is answered 200 and the
    expiration date of the license moves from 2024-01-31 to 2024-02-29;
    sent for Globex's active license of a yearly subscription with an
    earlier date, it moves the expiration date backwards. *)
Lemma renewal_is_a_plain_patch :
  License.status Demo.acme_license = revoked
  /\ (let '(r, w') :=
        app (Some Demo.sam) (PATCH_licenses_id 1 (Some (renewal 19782))) Demo.world in
      Response.status r = 200
      /\ option_map License.expirationDate (selectById (licenses (db Demo.world)) 1)
         = Some 19753
      /\ option_map License.expirationDate (selectById (licenses (db w')) 1)
         = Some 19782
      /\ license_status (db w') 1 = Some revoked)
  /\ License.status Demo.globex_license = active
  /\ (let '(r, w') :=
        app (Some Demo.sam) (PATCH_licenses_id 2 (Some (renewal 19000))) Demo.world in
      Response.status r = 200
      /\ option_map Subscription.subscriptionType
           (selectById (subscriptions (db Demo.world)) 2) = Some yearly
      /\ option_map License.expirationDate (selectById (licenses (db Demo.world)) 2)
         = Some 19753
      /\ option_map License.expirationDate (selectById (licenses (db w')) 2)
         = Some 19000).
Proof.
  vm_compute. repeat split.
Qed.

(** C4, amended. For a sales or admin caller, an existing license in
    any status and a payload that breaks no constraint of the table,
    [PATCH /api/licenses/:id] answers 200 when its database call does
    not fail: the stored license has the expiration date, the
    notification counter and the status of the payload where the payload
    carries them and the old ones where it does not, its identity and
    creation time are unchanged and [updatedAt] is the current time.
    Nothing depends on the status of the license or on the billing
    period of its subscription. *)
Theorem patch_license_sets_supplied_fields :
  forall (user : option User.t) (id : Z) (d : PartialLicense.t) (w : World)
         (old : License.t),
    sales_or_admin user = true ->
    fails w 0 = false ->
    selectById (licenses (db w)) id = Some old ->
    fk_opt (subscriptions (db w)) (PartialLicense.subscriptionId d) = true ->
    storage.key_taken_by_other (licenses (db w)) id (PartialLicense.licenseKey d)
    = false ->
    exists l w',
      app user (PATCH_licenses_id id (Some d)) w
      = (Response.mk 200 (license_json l), w')
      /\ selectById (licenses (db w')) id = Some l
      /\ License.expirationDate l
         = patched (PartialLicense.expirationDate d) (License.expirationDate old)
      /\ License.notificationsSent l
         = patched (PartialLicense.notificationsSent d) (License.notificationsSent old)
      /\ License.status l = patched (PartialLicense.status d) (License.status old)
      /\ License.activationDate l
         = patched (PartialLicense.activationDate d) (License.activationDate old)
      /\ License.lastChecked l
         = patched (PartialLicense.lastChecked d) (License.lastChecked old)
      /\ License.id l = License.id old
      /\ License.createdAt l = License.createdAt old
      /\ License.updatedAt l = clock w.
Proof.
  intros user id d w old Hu Hf Hold Hfk Hkey.
  do 2 eexists. split.
  - apply patch_license_answer; eassumption.
  - simpl. split; [apply patch_license_selects; exact Hold|].
    repeat split.
Qed.

Lemma patch_license_sets_supplied_fields_witness :
  sales_or_admin (Some Demo.ada) = true
  /\ selectById (licenses (db Demo.world)) 1 = Some Demo.acme_license
  /\ exists l w',
      app (Some Demo.ada) (PATCH_licenses_id 1 (Some (renewal 19782))) Demo.world
      = (Response.mk 200 (license_json l), w')
      /\ selectById (licenses (db w')) 1 = Some l
      /\ License.expirationDate l = 19782
      /\ License.notificationsSent l = 0
      /\ License.status l = revoked
      /\ License.activationDate l = 19723
      /\ License.lastChecked l = None
      /\ License.id l = 1
      /\ License.createdAt l = 0
      /\ License.updatedAt l = Demo.noon.
Proof.
  split; [reflexivity|]. split; [reflexivity|].
  apply (patch_license_sets_supplied_fields
           (Some Demo.ada) 1 (renewal 19782) Demo.world Demo.acme_license);
    reflexivity.
Defined.

(** ** Revoked licenses *)

(** C1, as stated, fails. Acme's license is revoked; a sales user sends
    [PATCH /api/licenses/1] with the payload [{ status: 'active' }]; the
    answer is 200 and the license is active. *)
Lemma revoked_license_can_be_reactivated :
  license_status (db Demo.world) 1 = Some revoked
  /\ (let '(r, w') :=
        app (Some Demo.sam) (PATCH_licenses_id 1 (Some (status_only active)))
          Demo.world in
      Response.status r = 200 /\ license_status (db w') 1 = Some active).
Proof.
  vm_compute. repeat split.
Qed.

Section Revoked.
Variable i : Z.

(** A write to another table keeps the licenses. *)
Local Ltac other_table :=
  intros; cbv zeta;
  repeat match goal with
         | |- context [match ?x with _ => _ end] => destruct x
         end;
  simpl; unfold is_revoked in *; simpl; assumption.

Lemma createSubscription_keeps_revoked d : preserves (is_revoked i) (storage.createSubscription d).
Proof. unfold storage.createSubscription. frame. other_table. Qed.

Lemma updateSubscription_keeps_revoked j d :
  preserves (is_revoked i) (storage.updateSubscription j d).
Proof. unfold storage.updateSubscription. frame. other_table. Qed.

Lemma createInvoice_keeps_revoked d : preserves (is_revoked i) (storage.createInvoice d).
Proof. unfold storage.createInvoice. frame. other_table. Qed.

Lemma updateInvoice_keeps_revoked j d : preserves (is_revoked i) (storage.updateInvoice j d).
Proof. unfold storage.updateInvoice. frame. other_table. Qed.

Lemma createTransaction_keeps_revoked d : preserves (is_revoked i) (storage.createTransaction d).
Proof. unfold storage.createTransaction. frame. other_table. Qed.

Lemma updateTransaction_keeps_revoked j d :
  preserves (is_revoked i) (storage.updateTransaction j d).
Proof. unfold storage.updateTransaction. frame. other_table. Qed.

(** A created license is appended: it hides no existing license. *)
Lemma createLicense_keeps_revoked d : preserves (is_revoked i) (storage.createLicense d).
Proof.
  unfold storage.createLicense. frame. cbv zeta.
  match goal with |- context [if ?c then _ else _] => destruct c end;
    simpl; [|assumption].
  unfold is_revoked, license_status in *. simpl. rewrite selectById_app.
  destruct (selectById (licenses s) i); [assumption|discriminate].
Qed.

(** A patch keeps license [i] revoked when it is for another license
    or does not carry another status. *)
Lemma updateLicense_keeps_revoked j d :
  ((j =? i)
   && match PartialLicense.status d with
      | Some st => negb (LicenseStatus_eqb st revoked)
      | None => false
      end)%bool = false ->
  preserves (is_revoked i) (storage.updateLicense j d).
Proof.
  intros Hd. unfold storage.updateLicense. frame.
  destruct (selectById (licenses s) j) as [old|]; [|assumption].
  match goal with |- context [if ?c then _ else _] => destruct c end;
    simpl; [|assumption].
  unfold is_revoked, license_status in *. simpl.
  rewrite selectById_updateById by reflexivity.
  destruct (j =? i); [|assumption]. simpl in Hd.
  destruct (selectById (licenses s) i) as [r|]; [|discriminate].
  simpl in *. injection H as H. rewrite H.
  destruct (PartialLicense.status d) as [st|]; simpl; [|reflexivity].
  destruct st; simpl in Hd; try discriminate. reflexivity.
Qed.

(** One request that does not overwrite the status of license [i]
    leaves it revoked. *)
Lemma app_keeps_revoked (user : option User.t) (e : Endpoint) (w : World) :
  overwrites_status i (user, e) = false ->
  is_revoked i (db w) -> is_revoked i (db (snd (app user e w))).
Proof.
  intros Ho Hw.
  pose proof (reads_preserve (is_revoked i)) as R.
  destruct e as [ | | c | j | b | j b | c | j | b | j b | c | j | b | j b
                | c | j | b | j b ];
    unfold app; simpl middleware; simpl route.
  10: {
    (* PATCH /api/licenses/:id: past the gate, the payload decides *)
    destruct user as [u|]; simpl isSales; [|exact Hw].
    destruct (_ || _)%bool eqn:G; [|exact Hw].
    unfold patch_license. apply preserves_handler; [|exact Hw].
    destruct b as [d|]; unfold parse; [|frame].
    apply preserves_bind_ret.
    frame_with ltac:(apply updateLicense_keeps_revoked).
    simpl in Ho. rewrite G in Ho. exact Ho.
  }
  all: first [ apply preserves_isAuthenticated; [|exact Hw]
             | apply preserves_isSales; [|exact Hw] ];
    intros u w' Hw';
    unfold get_dashboard_stats, get_dashboard_expiring_licenses,
      expiring_license_data, get_subscriptions, get_subscription,
      post_subscriptions, patch_subscription, get_licenses, get_license,
      post_licenses, get_invoices, get_invoice, post_invoices,
      patch_invoice, get_transactions, get_transaction,
      post_transactions, patch_transaction;
    (apply preserves_handler; [|exact Hw']);
    frame_with ltac:(first
      [ apply createSubscription_keeps_revoked
      | apply updateSubscription_keeps_revoked
      | apply createInvoice_keeps_revoked
      | apply updateInvoice_keeps_revoked
      | apply createTransaction_keeps_revoked
      | apply updateTransaction_keeps_revoked
      | apply createLicense_keeps_revoked
      | apply R ]).
Qed.

End Revoked.

(** C1, amended. A revoked license stays revoked through every sequence
    of requests to the endpoints of the entitlement lifecycle in which
    no [PATCH /api/licenses/:id] for that license, sent by a sales or
    admin caller, carries a status other than [revoked]. Such a patch
    is not refused: when its database call does not fail it sets the
    status of the revoked license to the status of its payload. *)
Theorem revoked_is_kept_unless_a_patch_overwrites_it :
  forall (i : Z) (requests : list (option User.t * Endpoint)) (w : World),
    license_status (db w) i = Some revoked ->
    (forallb (fun r => negb (overwrites_status i r)) requests = true ->
     license_status (db (serve requests w)) i = Some revoked)
    /\ (forall user st,
           sales_or_admin user = true ->
           fails w 0 = false ->
           license_status
             (db (snd (app user (PATCH_licenses_id i (Some (status_only st))) w))) i
           = Some st).
Proof.
  intros i requests w Hw. split.
  - revert w Hw. induction requests as [|[user e] rest IH]; intros w Hw Hall.
    + exact Hw.
    + simpl in Hall. apply andb_true_iff in Hall. destruct Hall as [He Hrest].
      apply negb_true_iff in He. simpl.
      apply IH; [|exact Hrest].
      apply app_keeps_revoked; assumption.
  - intros user st Hu Hf. unfold license_status in Hw.
    destruct (selectById (licenses (db w)) i) as [old|] eqn:Hold; [|discriminate].
    rewrite (patch_license_answer user i (status_only st) w old Hu Hf Hold
               eq_refl eq_refl).
    unfold license_status. simpl.
    rewrite (patch_license_selects _ _ _ _ _ Hold). reflexivity.
Qed.

Lemma revoked_is_kept_unless_a_patch_overwrites_it_witness :
  license_status (db Demo.world) 1 = Some revoked
  /\ forallb (fun r => negb (overwrites_status 1 r)) Demo.session = true
  /\ license_status (db (serve Demo.session Demo.world)) 1 = Some revoked.
Proof.
  split; [reflexivity|]. split; [reflexivity|].
  apply (proj1 (revoked_is_kept_unless_a_patch_overwrites_it
                  1 Demo.session Demo.world eq_refl)).
  reflexivity.
Defined.

(** ** License keys *)

Section Digits.

Lemma length_append (a b : string) :
  String.length (a ++ b) = (String.length a + String.length b)%nat.
Proof. induction a as [|c a IH]; simpl; [reflexivity|rewrite IH; reflexivity]. Qed.

Lemma all_append (p : ascii -> bool) (a b : string) :
  Str.all p (a ++ b) = (Str.all p a && Str.all p b)%bool.
Proof.
  induction a as [|c a IH]; simpl; [reflexivity|].
  rewrite IH, andb_assoc. reflexivity.
Qed.

Lemma digit_is_digit (k : Z) : 0 <= k <= 9 -> Str.is_digit (Calendar.digit k) = true.
Proof.
  intros Hk.
  assert (E : k = 0 \/ k = 1 \/ k = 2 \/ k = 3 \/ k = 4 \/ k = 5 \/ k = 6
              \/ k = 7 \/ k = 8 \/ k = 9) by lia.
  repeat (destruct E as [->|E]; [reflexivity|]). subst k. reflexivity.
Qed.

Lemma decimal_all_digits (fuel : nat) :
  forall n, 0 <= n -> Str.all Str.is_digit (Calendar.decimal fuel n) = true.
Proof.
  induction fuel as [|f IH]; intros n Hn; cbn [Calendar.decimal Str.all].
  - rewrite digit_is_digit; [reflexivity|].
    pose proof (Z.mod_pos_bound n 10); lia.
  - destruct (n <? 10) eqn:E.
    + apply Z.ltb_lt in E. cbn [Str.all]. rewrite digit_is_digit by lia. reflexivity.
    + rewrite all_append, IH by (apply Z.div_pos; lia). cbn [Str.all].
      rewrite digit_is_digit; [reflexivity|].
      pose proof (Z.mod_pos_bound n 10); lia.
Qed.

Lemma decimal_length (fuel : nat) :
  forall (k : nat) n,
    0 <= n < 10 ^ Z.of_nat (S k) ->
    (String.length (Calendar.decimal fuel n) <= S k)%nat.
Proof.
  induction fuel as [|f IH]; intros k n Hn; cbn [Calendar.decimal String.length].
  - lia.
  - destruct (n <? 10) eqn:E; cbn [String.length]; [lia|].
    apply Z.ltb_ge in E. rewrite length_append. cbn [String.length].
    destruct k as [|k].
    + change (10 ^ Z.of_nat 1) with 10 in Hn. lia.
    + assert (Hq : 0 <= n / 10 < 10 ^ Z.of_nat (S k)).
      { split; [apply Z.div_pos; lia|].
        apply Z.div_lt_upper_bound; [lia|].
        replace (Z.of_nat (S (S k))) with (Z.succ (Z.of_nat (S k))) in Hn by lia.
        rewrite Z.pow_succ_r in Hn by lia. lia. }
      specialize (IH k (n / 10) Hq). lia.
Qed.

Lemma zeros_shape (k : nat) :
  String.length (Calendar.zeros k) = k
  /\ Str.all Str.is_digit (Calendar.zeros k) = true.
Proof.
  induction k as [|k [IH1 IH2]]; simpl; [split; reflexivity|].
  rewrite IH1, IH2. split; reflexivity.
Qed.

(** A number below [10 ^ k], padded to [k] places, is [k] digits. *)
Lemma padStart0_shape (k : nat) (n : Z) :
  0 <= n < 10 ^ Z.of_nat (S k) ->
  String.length (Calendar.padStart0 (S k) (Calendar.toString n)) = S k
  /\ Str.all Str.is_digit (Calendar.padStart0 (S k) (Calendar.toString n)) = true.
Proof.
  intros Hn. unfold Calendar.padStart0, Calendar.toString.
  pose proof (decimal_length 19 k n Hn) as Hl.
  pose proof (decimal_all_digits 19 n (proj1 Hn)) as Hd.
  destruct (zeros_shape (S k - String.length (Calendar.decimal 19 n))) as [Z1 Z2].
  rewrite length_append, all_append, Z1, Z2, Hd. split; [lia|reflexivity].
Qed.

End Digits.

Section CivilDate.

Lemma civil_month_day (z : Z) :
  let '(y, m, d) := Calendar.civil_from_days z in 1 <= m <= 12 /\ 1 <= d <= 31.
Proof.
  unfold Calendar.civil_from_days. cbv zeta.
  set (zz := z + 719468).
  set (era := zz / 146097).
  set (doe := zz - era * 146097).
  assert (Hdoe : 0 <= doe <= 146096)
    by (unfold doe, era; Z.div_mod_to_equations; lia).
  clearbody doe. clear era zz.
  set (yoe := (doe - doe / 1460 + doe / 36524 - doe / 146096) / 365).
  set (doy := doe - (365 * yoe + yoe / 4 - yoe / 100)).
  assert (Hdoy : 0 <= doy <= 365)
    by (unfold doy, yoe; Z.div_mod_to_equations; lia).
  clearbody doy.
  destruct ((5 * doy + 2) / 153 <? 10) eqn:E;
    [apply Z.ltb_lt in E|apply Z.ltb_ge in E];
    Z.div_mod_to_equations; lia.
Qed.

(** Between the epoch and the end of the year 9999 the year has four
    digits. *)
Lemma civil_year (z : Z) :
  0 <= z < 2932897 ->
  let '(y, m, d) := Calendar.civil_from_days z in 1970 <= y <= 9999.
Proof.
  intros H. unfold Calendar.civil_from_days. cbv zeta.
  set (zz := z + 719468).
  assert (Hzz : 719468 <= zz < 3652365) by (unfold zz; lia).
  clearbody zz. clear H z.
  set (era := zz / 146097).
  set (doe := zz - era * 146097).
  assert (Hera : 4 <= era <= 24) by (unfold era; Z.div_mod_to_equations; lia).
  assert (Hdoe : 0 <= doe <= 146096)
    by (unfold doe, era; Z.div_mod_to_equations; lia).
  assert (Hlo : era = 4 -> 135080 <= doe) by (unfold doe; lia).
  assert (Hhi : era = 24 -> doe < 146037) by (unfold doe; lia).
  clearbody doe. clearbody era. clear Hzz zz.
  set (yoe := (doe - doe / 1460 + doe / 36524 - doe / 146096) / 365).
  assert (Hyoe : 0 <= yoe <= 399) by (unfold yoe; Z.div_mod_to_equations; lia).
  assert (Hlo' : era = 4 -> 369 <= yoe)
    by (intros E; specialize (Hlo E); unfold yoe; Z.div_mod_to_equations; lia).
  set (doy := doe - (365 * yoe + yoe / 4 - yoe / 100)).
  assert (Hdoy : 0 <= doy <= 365)
    by (unfold doy, yoe; Z.div_mod_to_equations; lia).
  assert (Hlo2 : era = 4 -> yoe = 369 -> 306 <= doy)
    by (intros E1 E2; specialize (Hlo E1); unfold doy; rewrite E2;
        Z.div_mod_to_equations; lia).
  assert (Hhi2 : era = 24 -> yoe = 399 -> doy < 306)
    by (intros E1 E2; specialize (Hhi E1); unfold doy; rewrite E2;
        Z.div_mod_to_equations; lia).
  clearbody doy.
  set (mp := (5 * doy + 2) / 153).
  assert (Hmp : (doy < 306 -> mp < 10) /\ (306 <= doy -> 10 <= mp) /\ 0 <= mp <= 11)
    by (unfold mp; Z.div_mod_to_equations; lia).
  clearbody mp. clearbody yoe.
  destruct (mp <? 10) eqn:E; [apply Z.ltb_lt in E|apply Z.ltb_ge in E].
  - replace (mp + 3 <=? 2) with false by (symmetry; apply Z.leb_gt; lia).
    assert (doy < 306) by lia. lia.
  - replace (mp - 9 <=? 2) with true by (symmetry; apply Z.leb_le; lia). lia.
Qed.

(** The date stamp is eight digits. *)
Lemma format_yyyyMMdd_shape (t : Z) :
  0 <= t < year_10000 ->
  String.length (Calendar.format_yyyyMMdd t) = 8%nat
  /\ Str.all Str.is_digit (Calendar.format_yyyyMMdd t) = true.
Proof.
  intros Ht. unfold Calendar.format_yyyyMMdd, Calendar.getFullYear,
    Calendar.getMonth1, Calendar.getDate.
  assert (Hd : 0 <= Calendar.day_of t < 2932897).
  { unfold Calendar.day_of, Calendar.MS_PER_DAY, year_10000 in *.
    Z.div_mod_to_equations; lia. }
  pose proof (civil_month_day (Calendar.day_of t)) as Hmd.
  pose proof (civil_year (Calendar.day_of t) Hd) as Hy.
  destruct (Calendar.civil_from_days (Calendar.day_of t)) as [[y m] d].
  simpl fst; simpl snd.
  destruct (padStart0_shape 3 y) as [Y1 Y2]; [simpl; lia|].
  destruct (padStart0_shape 1 m) as [M1 M2]; [simpl; lia|].
  destruct (padStart0_shape 1 d) as [D1 D2]; [simpl; lia|].
  rewrite !length_append, !all_append, Y1, Y2, M1, M2, D1, D2.
  split; reflexivity.
Qed.

End CivilDate.

Section Token.

Lemma hex_is_not_dash (c : ascii) :
  Str.is_lower_hex c = true -> Str.is_dash c = false.
Proof. destruct c as [[] [] [] [] [] [] [] []]; vm_compute; congruence. Qed.

Lemma upper_of_hex (c : ascii) :
  Str.is_lower_hex c = true -> Str.is_upper_hex (Str.upper_char c) = true.
Proof. destruct c as [[] [] [] [] [] [] [] []]; vm_compute; congruence. Qed.

Lemma remove_dashes_hex (c : ascii) (s : string) :
  Str.is_lower_hex c = true ->
  Str.remove_dashes (String c s) = String c (Str.remove_dashes s).
Proof. intros H. cbn [Str.remove_dashes]. rewrite (hex_is_not_dash c H). reflexivity. Qed.

Lemma remove_dashes_dash (c : ascii) (s : string) :
  Str.is_dash c = true -> Str.remove_dashes (String c s) = Str.remove_dashes s.
Proof. intros H. cbn [Str.remove_dashes]. rewrite H. reflexivity. Qed.

Lemma is_uuid_from_beyond (s : string) :
  forall pos, (36 < pos)%nat -> Str.is_uuid_from pos s = false.
Proof.
  induction s as [|c s IH]; intros pos Hp; cbn [Str.is_uuid_from].
  - apply Nat.eqb_neq. lia.
  - rewrite IH by lia. apply andb_false_r.
Qed.

(** The token of a key: the first sixteen hexadecimal digits of the
    UUID, in upper case. *)
Lemma token_shape (uuid : string) :
  Str.is_uuid uuid = true ->
  let token := Str.toUpperCase (String.substring 0 16 (Str.remove_dashes uuid)) in
  String.length token = 16%nat /\ Str.all Str.is_upper_hex token = true.
Proof.
  unfold Str.is_uuid. intros H.
  do 36 (destruct uuid as [|? uuid]; [discriminate H|];
         cbn [Str.is_uuid_from Nat.eqb orb] in H;
         apply andb_true_iff in H; destruct H as [? H]).
  destruct uuid as [|c uuid].
  2: { cbn [Str.is_uuid_from] in H. rewrite is_uuid_from_beyond in H by lia.
       rewrite andb_false_r in H. discriminate H. }
  clear H.
  repeat first [ rewrite remove_dashes_hex by assumption
               | rewrite remove_dashes_dash by assumption ].
  cbn [String.substring Str.toUpperCase String.length Str.all].
  split; [reflexivity|].
  repeat match goal with
         | H : Str.is_lower_hex ?c = true |- context [Str.upper_char ?c] =>
             rewrite (upper_of_hex c H); clear H
         end.
  reflexivity.
Qed.

End Token.

(** C7, as stated, fails on the amount of randomness. The token is cut
    to sixteen hexadecimal digits, 64 bits at most: the key made from a
    UUID is "LIC", the first half of the UUID and the date, and two
    UUIDs that differ only in their second half give the same key. *)
Lemma license_key_token_is_half_the_uuid :
  let u1 := "123e4567-e89b-42d3-a456-426614174000" in
  let u2 := "123e4567-e89b-42d3-b000-000000000001" in
  Str.is_uuid u1 = true
  /\ Str.is_uuid u2 = true
  /\ u1 <> u2
  /\ fst (storage.generateLicenseKey (mkWorld Demo.store [] Demo.noon [u1]))
     = Ok ("LIC" ++ "-" ++ "123E4567E89B42D3" ++ "-" ++ "20240210")%string
  /\ (token_bits "123E4567E89B42D3" < 128)%nat
  /\ fst (storage.generateLicenseKey (mkWorld Demo.store [] Demo.noon [u2]))
     = fst (storage.generateLicenseKey (mkWorld Demo.store [] Demo.noon [u1])).
Proof.
  cbv zeta. split; [vm_compute; reflexivity|]. split; [vm_compute; reflexivity|].
  split; [discriminate|]. split; [vm_compute; reflexivity|].
  split; [vm_compute; lia|]. vm_compute; reflexivity.
Qed.

(** C7, amended. When the random source yields a UUID in its canonical
    text and the clock is between the epoch and the end of the year
    9999, [generateLicenseKey] returns ["LIC-" ++ token ++ "-" ++ stamp]
    where [token] is the first sixteen hexadecimal digits of the UUID in
    upper case (64 bits at most) and [stamp] is the current date as
    eight decimal digits, [yyyyMMdd]. *)
Theorem generated_license_key_format :
  forall (w : World),
    Str.is_uuid (hd nil_uuid (entropy w)) = true ->
    0 <= clock w < year_10000 ->
    exists token stamp,
      fst (storage.generateLicenseKey w) = Ok ("LIC" ++ "-" ++ token ++ "-" ++ stamp)%string
      /\ token = Str.toUpperCase
                   (String.substring 0 16
                      (Str.remove_dashes (hd nil_uuid (entropy w))))
      /\ String.length token = 16%nat
      /\ Str.all Str.is_upper_hex token = true
      /\ token_bits token = 64%nat
      /\ stamp = Calendar.format_yyyyMMdd (clock w)
      /\ String.length stamp = 8%nat
      /\ Str.all Str.is_digit stamp = true.
Proof.
  intros [s fs t en] Hu Ht. simpl in Hu, Ht.
  destruct (token_shape _ Hu) as [T1 T2].
  destruct (format_yyyyMMdd_shape t Ht) as [S1 S2].
  exists (Str.toUpperCase (String.substring 0 16 (Str.remove_dashes (hd nil_uuid en)))),
    (Calendar.format_yyyyMMdd t).
  split.
  - unfold storage.generateLicenseKey, bind, randomUUID, now, ret.
    destruct en; reflexivity.
  - unfold token_bits. rewrite T1. repeat split; assumption.
Qed.

Lemma generated_license_key_format_witness :
  Str.is_uuid (hd nil_uuid (entropy Demo.world)) = true
  /\ 0 <= clock Demo.world < year_10000
  /\ exists token stamp,
      fst (storage.generateLicenseKey Demo.world)
      = Ok ("LIC" ++ "-" ++ token ++ "-" ++ stamp)%string
      /\ token = Str.toUpperCase
                   (String.substring 0 16
                      (Str.remove_dashes (hd nil_uuid (entropy Demo.world))))
      /\ String.length token = 16%nat
      /\ Str.all Str.is_upper_hex token = true
      /\ token_bits token = 64%nat
      /\ stamp = Calendar.format_yyyyMMdd (clock Demo.world)
      /\ String.length stamp = 8%nat
      /\ Str.all Str.is_digit stamp = true.
Proof.
  split; [reflexivity|]. split; [vm_compute; split; [discriminate|reflexivity]|].
  apply (generated_license_key_format Demo.world).
  - reflexivity.
  - vm_compute; split; [discriminate|reflexivity].
Defined.

(** * Further properties of the handlers *)

(** Unfolds a request down to the statements it sends to the database. *)
Ltac run_request :=
  unfold app, middleware, route, isSales, isAuthenticated,
    get_dashboard_stats, get_dashboard_expiring_licenses, expiring_license_data,
    get_subscriptions, get_subscription, post_subscriptions, patch_subscription,
    get_licenses, get_license, post_licenses, patch_license,
    get_invoices, get_invoice, post_invoices, patch_invoice,
    get_transactions, get_transaction, post_transactions, patch_transaction,
    handler, parse, send, try_catch, throw,
    storage.getClient, storage.getClientByUserId,
    storage.getSubscription, storage.getSubscriptionsByClient,
    storage.createSubscription, storage.updateSubscription,
    storage.getLicense, storage.getLicensesBySubscription,
    storage.getExpiringLicenses, storage.createLicense, storage.updateLicense,
    storage.generateLicenseKey,
    storage.getInvoice, storage.getInvoicesByClient, storage.createInvoice,
    storage.updateInvoice, storage.generateInvoiceNumber,
    storage.getTransaction, storage.getTransactionsByClient,
    storage.getRecentTransactions, storage.createTransaction,
    storage.updateTransaction,
    storage.getClientCount, storage.getActiveLicensesCount,
    storage.getOpenTicketsCount, storage.getMonthlyRevenue,
    randomUUID, now, db_query, db_call, bind, ret.

(** ** Sessions *)

(** X1. Without a session no route is served: a [GET] route answers 401
    and a [POST] or [PATCH] route 403, and the world is left as it
    was. *)
Theorem requests_without_session_are_refused :
  forall (e : Endpoint) (w : World),
    app None e w
    = (if behind_isSales e
       then Response.mk 403 (message "Forbidden")
       else Response.mk 401 (message "Unauthorized"),
       w).
Proof. intros e w. destruct e; reflexivity. Qed.

(** ** Reads *)

(** X2. A [GET] request never writes: whoever the caller is and
    whatever the outcomes of the database calls, the store after the
    request is the store before it. *)
Theorem get_requests_never_write :
  forall (user : option User.t) (e : Endpoint) (w : World),
    behind_isSales e = false ->
    db (snd (app user e w)) = db w.
Proof.
  intros user e w He.
  pose proof (reads_preserve (fun s => s = db w)) as R.
  destruct e; try discriminate He; unfold app; simpl middleware; simpl route;
    (apply (preserves_isAuthenticated (fun s => s = db w)); [|reflexivity]);
    intros u w' Hw';
    unfold get_dashboard_stats, get_dashboard_expiring_licenses,
      expiring_license_data, get_subscriptions, get_subscription,
      get_licenses, get_license, get_invoices, get_invoice,
      get_transactions, get_transaction;
    (apply preserves_handler; [|exact Hw']);
    frame_with ltac:(apply R).
Qed.

Lemma get_requests_never_write_witness :
  behind_isSales (GET_licenses (Some 2)) = false
  /\ db (snd (app (Some Demo.bob) (GET_licenses (Some 2)) Demo.flaky))
     = db Demo.flaky.
Proof.
  split; [reflexivity|].
  apply (get_requests_never_write (Some Demo.bob) (GET_licenses (Some 2)) Demo.flaky).
  reflexivity.
Defined.

(** ** Answers of the writing routes *)

(** X3. A [POST] or [PATCH] whose body the schema rejects is answered
    400 before any database call: the world is left as it was. *)
Theorem rejected_body_is_answered_400 :
  forall (user : option User.t) (e : Endpoint) (w : World),
    body_rejected e = true ->
    sales_or_admin user = true ->
    exists m, app user e w = (Response.mk 400 (invalid m), w).
Proof.
  intros user e w He Hu.
  destruct user as [u|]; simpl in Hu; [|discriminate].
  destruct e as [ | | c | j | b | j b | c | j | b | j b | c | j | b | j b
                | c | j | b | j b ]; try discriminate He;
    destruct b; try discriminate He;
    unfold app; simpl; rewrite Hu; eexists; reflexivity.
Qed.

Lemma rejected_body_is_answered_400_witness :
  body_rejected (PATCH_invoices_id 1 None) = true
  /\ sales_or_admin (Some Demo.ada) = true
  /\ exists m,
       app (Some Demo.ada) (PATCH_invoices_id 1 None) Demo.world
       = (Response.mk 400 (invalid m), Demo.world).
Proof.
  split; [reflexivity|]. split; [reflexivity|].
  apply (rejected_body_is_answered_400
           (Some Demo.ada) (PATCH_invoices_id 1 None) Demo.world); reflexivity.
Defined.

(** X4. A request for a row that does not exist, by its id, is answered
    404 and changes nothing in the store: for the four [GET] routes by
    id and for the four [PATCH] routes, when the caller passes the
    middleware and the database call does not fail. *)
Theorem missing_row_is_answered_404 :
  forall (user : option User.t) (e : Endpoint) (w : World),
    admitted user e = true ->
    fails w 0 = false ->
    missing_target (db w) e = true ->
    Response.status (fst (app user e w)) = 404
    /\ db (snd (app user e w)) = db w.
Proof.
  intros user e [s fs t en] Ha Hf Hm.
  destruct user as [u|]; [|discriminate Ha].
  unfold fails in Hf. simpl in Hf, Hm.
  destruct e as [ | | c | j | b | j b | c | j | b | j b | c | j | b | j b
                | c | j | b | j b ]; try discriminate Hm;
    try (destruct b as [d|]; [|discriminate Hm]);
    apply negb_true_iff in Hm; apply selectById_none in Hm;
    simpl in Ha; run_request; simpl; try rewrite Ha;
    destruct fs as [|[] fs]; try discriminate Hf; simpl;
    rewrite Hm; simpl; split; reflexivity.
Qed.

Lemma missing_row_is_answered_404_witness :
  admitted (Some Demo.sam) (PATCH_licenses_id 99 (Some (renewal 19782))) = true
  /\ missing_target (db Demo.world) (PATCH_licenses_id 99 (Some (renewal 19782)))
     = true
  /\ Response.status
       (fst (app (Some Demo.sam) (PATCH_licenses_id 99 (Some (renewal 19782)))
               Demo.world)) = 404
  /\ db (snd (app (Some Demo.sam) (PATCH_licenses_id 99 (Some (renewal 19782)))
                Demo.world)) = db Demo.world.
Proof.
  split; [reflexivity|]. split; [reflexivity|].
  apply (missing_row_is_answered_404
           (Some Demo.sam) (PATCH_licenses_id 99 (Some (renewal 19782))) Demo.world);
    reflexivity.
Defined.

(** ** Reads scoped to the owner *)



(** ** Failures of the database *)

(** X6. When the first database call of a request fails, the request
    writes nothing and is never answered 201; a [POST] or [PATCH] that
    passed the middleware with a body the schema accepts is answered
    500. *)
Theorem failed_first_call_writes_nothing :
  forall (user : option User.t) (e : Endpoint) (w : World),
    fails w 0 = true ->
    db (snd (app user e w)) = db w
    /\ Response.status (fst (app user e w)) <> 201
    /\ (behind_isSales e = true -> admitted user e = true ->
        body_rejected e = false ->
        Response.status (fst (app user e w)) = 500).
Proof.
  intros user e [s fs t en] Hf. unfold fails in Hf. simpl in Hf.
  destruct fs as [|[] fs]; try discriminate Hf. clear Hf.
  destruct user as [u|].
  2: { destruct e; simpl; repeat split; discriminate. }
  destruct e as [ | | c | j | b | j b | c | j | b | j b | c | j | b | j b
                | c | j | b | j b ]; simpl behind_isSales; simpl body_rejected;
    simpl admitted.
  all: try (destruct b as [d|]).
  all: run_request; simpl.
  all: try (destruct (UserRole_eqb (User.role u) sales || UserRole_eqb (User.role u) admin)%bool; simpl).
  all: try (destruct (truthy c); simpl).
  all: try (destruct (UserRole_eqb (User.role u) client); simpl).
  all: try (destruct (String.eqb _ ""); simpl).
  all: try (destruct en; simpl).
  all: try (repeat split; (discriminate || reflexivity || (intros; discriminate)
                           || (intros; reflexivity)); fail).
  all: destruct fs as [|[] [|[] [|[] fs]]]; simpl;
    repeat split; (discriminate || reflexivity || (intros; discriminate)).
Qed.

Lemma failed_first_call_writes_nothing_witness :
  fails Demo.down 0 = true
  /\ db (snd (app (Some Demo.sam) (POST_licenses (Some Demo.new_license)) Demo.down))
     = db Demo.down
  /\ Response.status
       (fst (app (Some Demo.sam) (POST_licenses (Some Demo.new_license)) Demo.down))
     <> 201
  /\ (behind_isSales (POST_licenses (Some Demo.new_license)) = true ->
      admitted (Some Demo.sam) (POST_licenses (Some Demo.new_license)) = true ->
      body_rejected (POST_licenses (Some Demo.new_license)) = false ->
      Response.status
        (fst (app (Some Demo.sam) (POST_licenses (Some Demo.new_license)) Demo.down))
      = 500).
Proof.
  split; [reflexivity|].
  apply (failed_first_call_writes_nothing
           (Some Demo.sam) (POST_licenses (Some Demo.new_license)) Demo.down).
  reflexivity.
Defined.

(** ** Constraints of the tables *)

(** [simpl], without unfolding the formatting of numbers and dates. *)
Ltac simpl_request :=
  with_strategy opaque
    [Calendar.toString Calendar.padStart0 Calendar.getFullYear
     storage.license_key_of Calendar.firstDayOfMonth]
    simpl.

(** Closes the goal of an insert whose constraint check cannot pass. *)
Ltac refute_insert Hv :=
  match goal with
  | |- context [if ?c then _ else _] =>
      let E := fresh "E" in
      destruct c eqn:E;
      [ exfalso;
        repeat (let E' := fresh "E" in
                apply andb_true_iff in E; destruct E as [E E']);
        repeat match goal with
               | H : negb _ = true |- _ => apply negb_true_iff in H
               end;
        revert Hv;
        repeat match goal with
               | H : _ = true |- _ => rewrite H
               | H : _ = false |- _ => rewrite H
               end;
        simpl; rewrite ?andb_false_r; discriminate
      | simpl; split; reflexivity ]
  end.

(** X7. A [POST] whose row would break a foreign key (unknown client,
    product, subscription or invoice) or a unique constraint (a license
    key or an invoice number already in the table) is answered 500 and
    inserts nothing: the four tables are as before, whatever the
    outcomes of the database calls. *)
Theorem violated_constraint_inserts_nothing :
  forall (user : option User.t) (e : Endpoint) (w : World),
    sales_or_admin user = true ->
    insert_violates (db w) e = true ->
    Response.status (fst (app user e w)) = 500
    /\ rows (db (snd (app user e w))) = rows (db w).
Proof.
  intros user e [s fs t en] Hu Hv.
  destruct user as [u|]; simpl in Hu; [|discriminate].
  destruct e as [ | | c | j | b | j b | c | j | b | j b | c | j | b | j b
                | c | j | b | j b ]; try discriminate Hv;
    destruct b as [d|]; try discriminate Hv; simpl in Hv;
    run_request; simpl_request; rewrite Hu.
  - (* subscriptions *)
    destruct fs as [|[] fs]; simpl; try (split; reflexivity); refute_insert Hv.
  - (* licenses *)
    destruct (String.eqb (InsertLicense.licenseKey d) "") eqn:Ek; simpl in Hv;
      rewrite ?orb_false_r in Hv; destruct en; simpl_request;
      destruct fs as [|[] fs]; simpl_request;
      try (split; reflexivity); refute_insert Hv.
  - (* invoices *)
    destruct (String.eqb (InsertInvoice.invoiceNumber d) "") eqn:Ek; simpl in Hv;
      rewrite ?orb_false_r in Hv;
      destruct fs as [|[] [|[] fs]]; simpl_request;
      try (split; reflexivity); refute_insert Hv.
  - (* transactions *)
    destruct fs as [|[] fs]; simpl; try (split; reflexivity); refute_insert Hv.
Qed.

Lemma violated_constraint_inserts_nothing_witness :
  sales_or_admin (Some Demo.sam) = true
  /\ insert_violates (db Demo.world) (POST_licenses (Some Demo.duplicate_key)) = true
  /\ Response.status
       (fst (app (Some Demo.sam) (POST_licenses (Some Demo.duplicate_key)) Demo.world))
     = 500
  /\ rows (db (snd (app (Some Demo.sam) (POST_licenses (Some Demo.duplicate_key))
                      Demo.world)))
     = rows (db Demo.world).
Proof.
  split; [reflexivity|]. split; [reflexivity|].
  apply (violated_constraint_inserts_nothing
           (Some Demo.sam) (POST_licenses (Some Demo.duplicate_key)) Demo.world);
    reflexivity.
Defined.

(** ** Integrity of the tables *)

(** A property of the store kept by the eight statements that write is
    kept by every request, and so by every sequence of requests. *)
Section Invariants.
Variable P : Store -> Prop.
Hypothesis createSubscription_keeps : forall d, preserves P (storage.createSubscription d).
Hypothesis updateSubscription_keeps : forall j d, preserves P (storage.updateSubscription j d).
Hypothesis createLicense_keeps : forall d, preserves P (storage.createLicense d).
Hypothesis updateLicense_keeps : forall j d, preserves P (storage.updateLicense j d).
Hypothesis createInvoice_keeps : forall d, preserves P (storage.createInvoice d).
Hypothesis updateInvoice_keeps : forall j d, preserves P (storage.updateInvoice j d).
Hypothesis createTransaction_keeps : forall d, preserves P (storage.createTransaction d).
Hypothesis updateTransaction_keeps : forall j d, preserves P (storage.updateTransaction j d).

Lemma app_keeps (user : option User.t) (e : Endpoint) (w : World) :
  P (db w) -> P (db (snd (app user e w))).
Proof.
  intros Hw.
  pose proof (reads_preserve P) as R.
  destruct e; unfold app; simpl middleware; simpl route;
    (first [ apply preserves_isAuthenticated; [|exact Hw]
           | apply preserves_isSales; [|exact Hw] ]);
    intros u w' Hw';
    unfold get_dashboard_stats, get_dashboard_expiring_licenses,
      expiring_license_data, get_subscriptions, get_subscription,
      post_subscriptions, patch_subscription, get_licenses, get_license,
      post_licenses, patch_license, get_invoices, get_invoice, post_invoices,
      patch_invoice, get_transactions, get_transaction,
      post_transactions, patch_transaction;
    (apply preserves_handler; [|exact Hw']);
    frame_with ltac:(first
      [ apply createSubscription_keeps | apply updateSubscription_keeps
      | apply createLicense_keeps | apply updateLicense_keeps
      | apply createInvoice_keeps | apply updateInvoice_keeps
      | apply createTransaction_keeps | apply updateTransaction_keeps
      | apply R ]).
Qed.

Lemma serve_keeps (requests : list (option User.t * Endpoint)) :
  forall w, P (db w) -> P (db (serve requests w)).
Proof.
  induction requests as [|[user e] rest IH]; intros w Hw; simpl.
  - exact Hw.
  - apply IH. apply app_keeps. exact Hw.
Qed.

End Invariants.

Section TableFacts.
Context {R : Type} `{Row R}.

Lemma ids_app (l l' : list R) : ids (l ++ l') = ids l ++ ids l'.
Proof. apply map_app. Qed.

Lemma ids_updateById (l : list R) (j : Z) (f : R -> R) :
  (forall r, row_id (f r) = row_id r) -> ids (updateById l j f) = ids l.
Proof.
  intros Hf. unfold ids, updateById. rewrite map_map. apply map_ext.
  intros r. destruct (row_id r =? j); [apply Hf|reflexivity].
Qed.

Lemma exists_id_ids (l : list R) (i : Z) :
  exists_id l i = true <-> In i (ids l).
Proof.
  unfold exists_id, ids. rewrite existsb_exists, in_map_iff. split.
  - intros [r [Hr E]]. exists r. apply Z.eqb_eq in E. auto.
  - intros [r [E Hr]]. exists r. split; [exact Hr|]. apply Z.eqb_eq. exact E.
Qed.

Lemma exists_id_same_ids (l l' : list R) (i : Z) :
  incl (ids l) (ids l') -> exists_id l i = true -> exists_id l' i = true.
Proof. intros Hi E. apply exists_id_ids. apply Hi. apply exists_id_ids. exact E. Qed.

Lemma NoDup_ids_insert (l : list R) (r : R) :
  exists_id l (row_id r) = false -> NoDup (ids l) -> NoDup (ids (l ++ [r])).
Proof.
  intros E Hn. rewrite ids_app. simpl.
  apply NoDup_app; [exact Hn|repeat constructor; intros []|].
  intros a Ha Hb. destruct Hb as [<-|[]].
  apply exists_id_ids in Ha. congruence.
Qed.

Lemma in_updateById (l : list R) (j : Z) (f : R -> R) (x : R) :
  In x (updateById l j f) ->
  In x l \/ exists y, In y l /\ x = f y.
Proof.
  unfold updateById. rewrite in_map_iff. intros [y [E Hy]].
  destruct (row_id y =? j); subst x; eauto.
Qed.

End TableFacts.

(** Splits the test of an insert or of an update into its parts. *)
Ltac split_test :=
  match goal with
  | |- context [if ?c then _ else _] =>
      let E := fresh "E" in
      destruct c eqn:E;
      [ repeat (let E' := fresh "E" in
                apply andb_true_iff in E; destruct E as [E E']);
        repeat match goal with
               | H : negb _ = true |- _ => apply negb_true_iff in H
               end
      | ]
  end.

Lemma serve_keeps_primary_keys :
  forall (requests : list (option User.t * Endpoint)) (w : World),
    primary_keys_unique (db w) ->
    primary_keys_unique (db (serve requests w)).
Proof.
  intros requests. apply serve_keeps.
  - intros d. unfold storage.createSubscription. frame. cbv zeta.
    destruct H as (H1 & H2 & H3 & H4).
    split_test; simpl; repeat split; simpl; try assumption.
    apply NoDup_ids_insert; assumption.
  - intros j d. unfold storage.updateSubscription. frame.
    destruct H as (H1 & H2 & H3 & H4).
    destruct (selectById _ j); [|repeat split; assumption].
    split_test; simpl; repeat split; simpl; try assumption.
    rewrite ids_updateById by reflexivity. assumption.
  - intros d. unfold storage.createLicense. frame. cbv zeta.
    destruct H as (H1 & H2 & H3 & H4).
    split_test; simpl; repeat split; simpl; try assumption.
    apply NoDup_ids_insert; assumption.
  - intros j d. unfold storage.updateLicense. frame.
    destruct H as (H1 & H2 & H3 & H4).
    destruct (selectById _ j); [|repeat split; assumption].
    split_test; simpl; repeat split; simpl; try assumption.
    rewrite ids_updateById by reflexivity. assumption.
  - intros d. unfold storage.createInvoice. frame. cbv zeta.
    destruct H as (H1 & H2 & H3 & H4).
    split_test; simpl; repeat split; simpl; try assumption.
    apply NoDup_ids_insert; assumption.
  - intros j d. unfold storage.updateInvoice. frame.
    destruct H as (H1 & H2 & H3 & H4).
    destruct (selectById _ j); [|repeat split; assumption].
    split_test; simpl; repeat split; simpl; try assumption.
    rewrite ids_updateById by reflexivity. assumption.
  - intros d. unfold storage.createTransaction. frame. cbv zeta.
    destruct H as (H1 & H2 & H3 & H4).
    split_test; simpl; repeat split; simpl; try assumption.
    apply NoDup_ids_insert; assumption.
  - intros j d. unfold storage.updateTransaction. frame.
    destruct H as (H1 & H2 & H3 & H4).
    destruct (selectById _ j); [|repeat split; assumption].
    split_test; simpl; repeat split; simpl; try assumption.
    rewrite ids_updateById by reflexivity. assumption.
Qed.

Lemma ahead_insert {R : Type} `{Row R} (l : list R) (r : R) (seq : Z) :
  row_id r = seq -> ahead l seq -> ahead (l ++ [r]) (seq + 1).
Proof.
  intros Hr Ha i Hi. rewrite ids_app in Hi. apply in_app_or in Hi.
  destruct Hi as [Hi|[<-|[]]].
  - specialize (Ha i Hi). lia.
  - rewrite Hr. lia.
Qed.

Lemma ahead_skip {R : Type} `{Row R} (l : list R) (seq : Z) :
  ahead l seq -> ahead l (seq + 1).
Proof. intros Ha i Hi. specialize (Ha i Hi). lia. Qed.

Lemma ahead_update {R : Type} `{Row R} (l : list R) (j : Z) (f : R -> R) (seq : Z) :
  (forall r, row_id (f r) = row_id r) -> ahead l seq -> ahead (updateById l j f) seq.
Proof. intros Hf Ha i Hi. rewrite ids_updateById in Hi by exact Hf. exact (Ha i Hi). Qed.

Lemma serve_keeps_sequences_ahead :
  forall (requests : list (option User.t * Endpoint)) (w : World),
    sequences_ahead (db w) ->
    sequences_ahead (db (serve requests w)).
Proof.
  intros requests. apply serve_keeps.
  - intros d. unfold storage.createSubscription. frame. cbv zeta.
    destruct H as (H1 & H2 & H3 & H4).
    split_test; simpl; repeat split; simpl; try assumption.
    + apply ahead_insert; [reflexivity|assumption].
    + apply ahead_skip; assumption.
  - intros j d. unfold storage.updateSubscription. frame.
    destruct H as (H1 & H2 & H3 & H4).
    destruct (selectById _ j); [|repeat split; assumption].
    split_test; simpl; repeat split; simpl; try assumption.
    apply ahead_update; [reflexivity|assumption].
  - intros d. unfold storage.createLicense. frame. cbv zeta.
    destruct H as (H1 & H2 & H3 & H4).
    split_test; simpl; repeat split; simpl; try assumption.
    + apply ahead_insert; [reflexivity|assumption].
    + apply ahead_skip; assumption.
  - intros j d. unfold storage.updateLicense. frame.
    destruct H as (H1 & H2 & H3 & H4).
    destruct (selectById _ j); [|repeat split; assumption].
    split_test; simpl; repeat split; simpl; try assumption.
    apply ahead_update; [reflexivity|assumption].
  - intros d. unfold storage.createInvoice. frame. cbv zeta.
    destruct H as (H1 & H2 & H3 & H4).
    split_test; simpl; repeat split; simpl; try assumption.
    + apply ahead_insert; [reflexivity|assumption].
    + apply ahead_skip; assumption.
  - intros j d. unfold storage.updateInvoice. frame.
    destruct H as (H1 & H2 & H3 & H4).
    destruct (selectById _ j); [|repeat split; assumption].
    split_test; simpl; repeat split; simpl; try assumption.
    apply ahead_update; [reflexivity|assumption].
  - intros d. unfold storage.createTransaction. frame. cbv zeta.
    destruct H as (H1 & H2 & H3 & H4).
    split_test; simpl; repeat split; simpl; try assumption.
    + apply ahead_insert; [reflexivity|assumption].
    + apply ahead_skip; assumption.
  - intros j d. unfold storage.updateTransaction. frame.
    destruct H as (H1 & H2 & H3 & H4).
    destruct (selectById _ j); [|repeat split; assumption].
    split_test; simpl; repeat split; simpl; try assumption.
    apply ahead_update; [reflexivity|assumption].
Qed.

(** X8. Primary keys stay unique: through every sequence of requests,
    whatever the outcomes of the database calls, no two subscriptions,
    licenses, invoices or transactions share an id when none did
    before; and when moreover the id sequence of each of the four tables
    is above every id in use in the table, it still is afterwards. *)
Theorem primary_keys_stay_unique :
  forall (requests : list (option User.t * Endpoint)) (w : World),
    primary_keys_unique (db w) ->
    primary_keys_unique (db (serve requests w))
    /\ (sequences_ahead (db w) -> sequences_ahead (db (serve requests w))).
Proof.
  intros requests w H. split.
  - apply serve_keeps_primary_keys. exact H.
  - apply serve_keeps_sequences_ahead.
Qed.

Section ForeignKeys.
Context {R : Type} `{Row R}.

Lemma exists_id_app_l (l l' : list R) (i : Z) :
  exists_id l i = true -> exists_id (l ++ l') i = true.
Proof. unfold exists_id. rewrite existsb_app. intros ->. reflexivity. Qed.

Lemma exists_id_updateById (l : list R) (j i : Z) (f : R -> R) :
  (forall r, row_id (f r) = row_id r) ->
  exists_id (updateById l j f) i = exists_id l i.
Proof.
  intros Hf. apply eq_true_iff_eq. rewrite !exists_id_ids, ids_updateById by exact Hf.
  reflexivity.
Qed.

Lemma fk_opt_app_l (l l' : list R) (k : option Z) :
  fk_opt l k = true -> fk_opt (l ++ l') k = true.
Proof. destruct k; simpl; [apply exists_id_app_l|trivial]. Qed.

Lemma fk_opt_updateById (l : list R) (j : Z) (k : option Z) (f : R -> R) :
  (forall r, row_id (f r) = row_id r) ->
  fk_opt (updateById l j f) k = fk_opt l k.
Proof. intros Hf. destruct k; simpl; [apply exists_id_updateById; exact Hf|trivial]. Qed.

Lemma fk_patched (l : list R) (new : option Z) (old : Z) :
  fk_opt l new = true -> exists_id l old = true ->
  exists_id l (patched new old) = true.
Proof. destruct new; simpl; trivial. Qed.

Lemma fk_patched_opt (l : list R) (new : option (option Z)) (old : option Z) :
  storage.fk_opt2 l new = true -> fk_opt l old = true ->
  fk_opt l (patched new old) = true.
Proof. destruct new; simpl; trivial. Qed.

End ForeignKeys.

(** The foreign keys of a store, one fact a column. *)
Ltac fk_facts H :=
  let H1 := fresh in let H2 := fresh in let H3 := fresh in let H4 := fresh in
  destruct H as (H1 & H2 & H3 & H4);
  pose proof (fun x Hx => proj1 (H1 x Hx));
  pose proof (fun x Hx => proj2 (H1 x Hx));
  pose proof H2;
  pose proof (fun x Hx => proj1 (H3 x Hx));
  pose proof (fun x Hx => proj2 (H3 x Hx));
  pose proof (fun x Hx => proj1 (H4 x Hx));
  pose proof (fun x Hx => proj2 (H4 x Hx));
  clear H1 H2 H3 H4.

Ltac fk_goal :=
  simpl in *;
  repeat match goal with
         | H : In _ (_ ++ [_]) |- _ =>
             apply in_app_or in H; destruct H as [H|[<-|[]]]
         | H : In _ (updateById _ _ _) |- _ =>
             apply in_updateById in H; destruct H as [H|[? [H ->]]]
         end;
  simpl;
  rewrite ?exists_id_updateById, ?fk_opt_updateById by reflexivity;
  eauto using exists_id_app_l, fk_opt_app_l, fk_patched, fk_patched_opt.

Ltac fk_insert :=
  frame; cbv zeta;
  match goal with H : references_resolve _ |- _ => fk_facts H end;
  split_test; simpl; repeat split; intros; fk_goal.

Ltac fk_update j :=
  frame;
  match goal with
  | |- context [selectById ?l j] =>
      destruct (selectById l j); [|assumption]
  end;
  match goal with H : references_resolve _ |- _ => fk_facts H end;
  split_test; simpl; repeat split; intros; fk_goal.

(** X9. Referential integrity is kept: if every subscription names
    an existing client and product, every license an existing
    subscription, every invoice an existing client (and subscription,
    when it has one) and every transaction an existing client (and
    invoice, when it has one), the same holds after every sequence of
    requests. *)
Theorem references_keep_resolving :
  forall (requests : list (option User.t * Endpoint)) (w : World),
    references_resolve (db w) ->
    references_resolve (db (serve requests w)).
Proof.
  intros requests. apply serve_keeps.
  - intros d. unfold storage.createSubscription. fk_insert.
  - intros j d. unfold storage.updateSubscription. fk_update j.
  - intros d. unfold storage.createLicense. fk_insert.
  - intros j d. unfold storage.updateLicense. fk_update j.
  - intros d. unfold storage.createInvoice. fk_insert.
  - intros j d. unfold storage.updateInvoice. fk_update j.
  - intros d. unfold storage.createTransaction. fk_insert.
  - intros j d. unfold storage.updateTransaction. fk_update j.
Qed.

Section UniqueKeys.
Context {R : Type} `{Row R}.
Variable key : R -> string.

Lemma NoDup_key_insert (l : list R) (r : R) :
  existsb (fun x => String.eqb (key x) (key r)) l = false ->
  NoDup (map key l) -> NoDup (map key (l ++ [r])).
Proof.
  intros E Hn. rewrite map_app. simpl.
  apply NoDup_app; [exact Hn|repeat constructor; intros []|].
  intros a Ha Hb. destruct Hb as [<-|[]].
  apply in_map_iff in Ha. destruct Ha as [x [Hx Hin]].
  assert (existsb (fun x => String.eqb (key x) (key r)) l = true).
  { apply existsb_exists. exists x. split; [exact Hin|]. apply String.eqb_eq. exact Hx. }
  congruence.
Qed.

(** An update that keeps the key of the row keeps the keys of the table. *)
Lemma map_key_updateById (l : list R) (j : Z) (f : R -> R) :
  (forall r, key (f r) = key r) -> map key (updateById l j f) = map key l.
Proof.
  intros Hf. unfold updateById. rewrite map_map. apply map_ext.
  intros r. destruct (row_id r =? j); [apply Hf|reflexivity].
Qed.

Lemma updateById_absent (l : list R) (j : Z) (f : R -> R) :
  ~ In j (ids l) -> updateById l j f = l.
Proof.
  unfold updateById, ids. induction l as [|r l IH]; intros Hj; simpl; [reflexivity|].
  simpl in Hj. destruct (row_id r =? j) eqn:E.
  - apply Z.eqb_eq in E. tauto.
  - rewrite IH by tauto. reflexivity.
Qed.

Lemma in_keys_updateById (l : list R) (j : Z) (k : string) (f : R -> R) (y : string) :
  (forall r, key (f r) = k) ->
  In y (map key (updateById l j f)) -> In y (map key l) \/ y = k.
Proof.
  intros Hk. unfold updateById. induction l as [|r l IH]; simpl; [tauto|].
  intros [Hy|Hy].
  - destruct (row_id r =? j); [right; rewrite <- Hy; apply Hk|left; left; exact Hy].
  - destruct (IH Hy); tauto.
Qed.

(** An update that gives the row of id [j] the key [k], which no other
    row has, keeps the keys distinct. *)
Lemma NoDup_key_update (l : list R) (j : Z) (k : string) (f : R -> R) :
  (forall r, key (f r) = k) ->
  existsb (fun x => (negb (row_id x =? j) && String.eqb (key x) k)%bool) l = false ->
  NoDup (ids l) -> NoDup (map key l) ->
  NoDup (map key (updateById l j f)).
Proof.
  intros Hk. induction l as [|r l IH]; intros E Hi Hn; [constructor|].
  simpl in E. apply orb_false_iff in E. destruct E as [Er El].
  inversion Hi as [|? ? Hi1 Hi2]; subst. inversion Hn as [|? ? Hn1 Hn2]; subst.
  specialize (IH El Hi2 Hn2).
  change (updateById (r :: l) j f)
    with ((if row_id r =? j then f r else r) :: updateById l j f).
  destruct (row_id r =? j) eqn:Ej; simpl.
  - apply Z.eqb_eq in Ej. rewrite Ej in Hi1.
    rewrite updateById_absent by exact Hi1. rewrite Hk. constructor; [|exact Hn2].
    intros Hin. apply in_map_iff in Hin. destruct Hin as [x [Hx Hin]].
    assert (Hex : existsb (fun x => (negb (row_id x =? j)
                                      && String.eqb (key x) k)%bool) l = true).
    { apply existsb_exists. exists x. split; [exact Hin|].
      apply andb_true_iff. split.
      - apply negb_true_iff. apply Z.eqb_neq. intros Ex. apply Hi1.
        rewrite <- Ex. apply in_map. exact Hin.
      - apply String.eqb_eq. exact Hx. }
    congruence.
  - constructor; [|exact IH]. intros Hin.
    apply (in_keys_updateById l j k f) in Hin; [|exact Hk].
    destruct Hin as [Hin|Hin]; [exact (Hn1 Hin)|].
    simpl in Er. apply String.eqb_neq in Er. exact (Er Hin).
Qed.

End UniqueKeys.

(** X10. License keys and invoice numbers stay unique: when the keys
    of the licenses, the numbers of the invoices and the ids of both
    tables are pairwise distinct, they still are after every sequence of
    requests, creations with generated or supplied keys and patches of
    keys included. *)
Theorem unique_keys_stay_unique :
  forall (requests : list (option User.t * Endpoint)) (w : World),
    keys_unique (db w) ->
    keys_unique (db (serve requests w)).
Proof.
  intros requests. apply serve_keeps.
  - intros d. unfold storage.createSubscription. frame. cbv zeta.
    split_test; simpl; assumption.
  - intros j d. unfold storage.updateSubscription. frame.
    destruct (selectById _ j); [|assumption]. split_test; simpl; assumption.
  - intros d. unfold storage.createLicense. frame. cbv zeta.
    destruct H as (H1 & H2 & H3 & H4).
    split_test; simpl; repeat split; simpl; try assumption.
    + apply NoDup_ids_insert; assumption.
    + apply NoDup_key_insert; assumption.
  - intros j d. unfold storage.updateLicense. frame.
    destruct H as (H1 & H2 & H3 & H4).
    destruct (selectById _ j); [|repeat split; assumption].
    split_test; simpl; repeat split; simpl; try assumption.
    + rewrite ids_updateById by reflexivity. assumption.
    + destruct (PartialLicense.licenseKey d) as [k|] eqn:Ek.
      * apply (NoDup_key_update License.licenseKey _ j k); try assumption.
        intros r. simpl. rewrite Ek. reflexivity.
      * rewrite map_key_updateById; [assumption|].
        intros r. simpl. rewrite Ek. reflexivity.
  - intros d. unfold storage.createInvoice. frame. cbv zeta.
    destruct H as (H1 & H2 & H3 & H4).
    split_test; simpl; repeat split; simpl; try assumption.
    + apply NoDup_ids_insert; assumption.
    + apply NoDup_key_insert; assumption.
  - intros j d. unfold storage.updateInvoice. frame.
    destruct H as (H1 & H2 & H3 & H4).
    destruct (selectById _ j); [|repeat split; assumption].
    split_test; simpl; repeat split; simpl; try assumption.
    + rewrite ids_updateById by reflexivity. assumption.
    + destruct (PartialInvoice.invoiceNumber d) as [k|] eqn:Ek.
      * apply (NoDup_key_update Invoice.invoiceNumber _ j k); try assumption.
        intros r. simpl. rewrite Ek. reflexivity.
      * rewrite map_key_updateById; [assumption|].
        intros r. simpl. rewrite Ek. reflexivity.
  - intros d. unfold storage.createTransaction. frame. cbv zeta.
    split_test; simpl; assumption.
  - intros j d. unfold storage.updateTransaction. frame.
    destruct (selectById _ j); [|assumption]. split_test; simpl; assumption.
Qed.

Lemma primary_keys_stay_unique_witness :
  primary_keys_unique (db Demo.world)
  /\ sequences_ahead (db Demo.world)
  /\ primary_keys_unique (db (serve Demo.session Demo.world))
  /\ sequences_ahead (db (serve Demo.session Demo.world)).
Proof.
  assert (H : primary_keys_unique (db Demo.world)).
  { repeat split; repeat constructor; simpl; intuition discriminate. }
  assert (A : sequences_ahead (db Demo.world)).
  { repeat split; intros i Hi; simpl in Hi;
      repeat (destruct Hi as [<-|Hi]; [reflexivity|]); destruct Hi. }
  split; [exact H|]. split; [exact A|].
  split.
  - exact (proj1 (primary_keys_stay_unique Demo.session Demo.world H)).
  - exact (proj2 (primary_keys_stay_unique Demo.session Demo.world H) A).
Defined.

Lemma references_keep_resolving_witness :
  references_resolve (db Demo.world)
  /\ references_resolve (db (serve Demo.session Demo.world)).
Proof.
  assert (H : references_resolve (db Demo.world)).
  { repeat split; intros;
      match goal with
      | Hin : In _ _ |- _ =>
          simpl in Hin;
          repeat (destruct Hin as [<-|Hin]; [reflexivity|]); destruct Hin
      end. }
  split; [exact H|].
  apply (references_keep_resolving Demo.session Demo.world H).
Defined.

Lemma unique_keys_stay_unique_witness :
  keys_unique (db Demo.world)
  /\ keys_unique (db (serve Demo.session Demo.world)).
Proof.
  assert (H : keys_unique (db Demo.world)).
  { repeat split; repeat constructor; simpl; intuition discriminate. }
  split; [exact H|].
  apply (unique_keys_stay_unique Demo.session Demo.world H).
Defined.


(** ** Recent transactions *)

Section RecentTransactions.

Lemma insert_desc_perm (x : Transaction.t) (l : list Transaction.t) :
  Permutation (storage.insert_desc x l) (x :: l).
Proof.
  induction l as [|y l IH]; simpl; [reflexivity|].
  destruct (Transaction.transactionDate y <? Transaction.transactionDate x).
  - reflexivity.
  - rewrite IH. apply perm_swap.
Qed.

Lemma insert_desc_sorted (x : Transaction.t) (l : list Transaction.t) :
  StronglySorted not_older l -> StronglySorted not_older (storage.insert_desc x l).
Proof.
  induction 1 as [|y l Hs IH Hy]; simpl.
  - repeat constructor.
  - destruct (Transaction.transactionDate y <? Transaction.transactionDate x) eqn:E.
    + apply Z.ltb_lt in E. constructor; [constructor; assumption|].
      constructor; [unfold not_older; lia|].
      eapply Forall_impl; [|exact Hy]. unfold not_older. intros z Hz. lia.
    + apply Z.ltb_ge in E. constructor; [exact IH|].
      rewrite (insert_desc_perm x l). constructor; [exact E|exact Hy].
Qed.

Lemma sort_desc_from (l acc : list Transaction.t) :
  StronglySorted not_older acc ->
  Permutation (fold_left (fun acc x => storage.insert_desc x acc) l acc) (acc ++ l)
  /\ StronglySorted not_older (fold_left (fun acc x => storage.insert_desc x acc) l acc).
Proof.
  revert acc. induction l as [|x l IH]; intros acc Ha; simpl.
  - rewrite app_nil_r. split; [reflexivity|exact Ha].
  - destruct (IH (storage.insert_desc x acc) (insert_desc_sorted x acc Ha)) as [Hp Hs].
    split; [|exact Hs]. rewrite Hp, insert_desc_perm. simpl.
    apply Permutation_middle.
Qed.

Lemma sort_desc_spec (l : list Transaction.t) :
  Permutation (storage.sort_desc l) l
  /\ StronglySorted not_older (storage.sort_desc l).
Proof. apply (sort_desc_from l []). constructor. Qed.

End RecentTransactions.

(** X11. [getRecentTransactions(limit)] returns the [limit] most recent
    transactions, most recent first: when its database call does not
    fail, the result has [min limit n] rows for a table of [n] rows, and
    followed by some arrangement of the other rows it is the whole table
    in an order where no row is older than a later one. *)
Theorem getRecentTransactions_returns_the_most_recent :
  forall (limit : nat) (w : World),
    fails w 0 = false ->
    exists recent others w',
      storage.getRecentTransactions limit w = (Ok recent, w')
      /\ List.length recent = Nat.min limit (List.length (transactions (db w)))
      /\ Permutation (recent ++ others) (transactions (db w))
      /\ StronglySorted not_older (recent ++ others).
Proof.
  intros limit [s fs t en] Hf. unfold fails in Hf. simpl in Hf.
  destruct (sort_desc_spec (transactions s)) as [Hp Hs].
  exists (firstn limit (storage.sort_desc (transactions s))),
    (skipn limit (storage.sort_desc (transactions s))),
    (mkWorld s (tl fs) t en).
  split; [|split; [|split]].
  - unfold storage.getRecentTransactions, db_query, db_call. simpl.
    destruct fs as [|[] fs]; try discriminate Hf; reflexivity.
  - simpl. rewrite length_firstn, (Permutation_length Hp). reflexivity.
  - simpl. rewrite firstn_skipn. exact Hp.
  - rewrite firstn_skipn. exact Hs.
Qed.

Lemma getRecentTransactions_returns_the_most_recent_witness :
  fails (serve Demo.session Demo.world) 0 = false
  /\ exists recent others w',
      storage.getRecentTransactions 5 (serve Demo.session Demo.world) = (Ok recent, w')
      /\ List.length recent = Nat.min 5 (List.length (transactions (db (serve Demo.session Demo.world))))
      /\ Permutation (recent ++ others) (transactions (db (serve Demo.session Demo.world)))
      /\ StronglySorted not_older (recent ++ others).
Proof.
  split; [reflexivity|].
  apply (getRecentTransactions_returns_the_most_recent
           5 (serve Demo.session Demo.world)).
  reflexivity.
Defined.

(** ** Invoice numbers *)

Section InvoiceNumbers.

Lemma digits_value_append (a b : string) :
  forall acc, digits_value acc (a ++ b) = digits_value (digits_value acc a) b.
Proof. induction a as [|c a IH]; intros acc; simpl; [reflexivity|apply IH]. Qed.

Lemma digits_value_digit (acc k : Z) :
  0 <= k <= 9 ->
  digits_value acc (String (Calendar.digit k) EmptyString) = 10 * acc + k.
Proof.
  intros Hk.
  assert (E : k = 0 \/ k = 1 \/ k = 2 \/ k = 3 \/ k = 4 \/ k = 5 \/ k = 6
              \/ k = 7 \/ k = 8 \/ k = 9) by lia.
  cbn [digits_value].
  repeat (destruct E as [->|E]; [vm_compute (Z.of_nat _ - 48); reflexivity|]).
  subst k. vm_compute (Z.of_nat _ - 48). reflexivity.
Qed.

(** Reading back the decimal text of a number gives the number. *)
Lemma digits_value_decimal (fuel : nat) :
  forall n, 0 <= n < 10 ^ Z.of_nat (S fuel) ->
            digits_value 0 (Calendar.decimal fuel n) = n.
Proof.
  induction fuel as [|f IH]; intros n Hn; cbn [Calendar.decimal].
  - change (10 ^ Z.of_nat 1) with 10 in Hn.
    rewrite digits_value_digit by (pose proof (Z.mod_pos_bound n 10); lia).
    rewrite Z.mod_small by lia. lia.
  - destruct (n <? 10) eqn:E.
    + apply Z.ltb_lt in E. rewrite digits_value_digit by lia. lia.
    + apply Z.ltb_ge in E. rewrite digits_value_append.
      rewrite IH.
      * rewrite digits_value_digit by (pose proof (Z.mod_pos_bound n 10); lia).
        pose proof (Z.div_mod n 10). lia.
      * split; [apply Z.div_pos; lia|].
        apply Z.div_lt_upper_bound; [lia|].
        replace (Z.of_nat (S (S f))) with (Z.succ (Z.of_nat (S f))) in Hn by lia.
        rewrite Z.pow_succ_r in Hn by lia. lia.
Qed.

Lemma digits_value_zeros (k : nat) (s : string) :
  digits_value 0 (Calendar.zeros k ++ s) = digits_value 0 s.
Proof. induction k as [|k IH]; simpl; [reflexivity|exact IH]. Qed.

Lemma digits_value_padStart0 (len : nat) (n : Z) :
  0 <= n < 10 ^ 20 ->
  digits_value 0 (Calendar.padStart0 len (Calendar.toString n)) = n.
Proof.
  intros Hn. unfold Calendar.padStart0, Calendar.toString.
  rewrite digits_value_zeros. apply digits_value_decimal. exact Hn.
Qed.

Lemma decimal_length_ge (fuel : nat) :
  forall (k : nat) n,
    (k <= fuel)%nat -> 10 ^ Z.of_nat k <= n ->
    (S k <= String.length (Calendar.decimal fuel n))%nat.
Proof.
  induction fuel as [|f IH]; intros k n Hk Hn; cbn [Calendar.decimal].
  - cbn [String.length]. lia.
  - destruct k as [|k].
    + destruct (n <? 10); [cbn [String.length]; lia|].
      rewrite length_append. cbn [String.length]. lia.
    + replace (Z.of_nat (S k)) with (Z.succ (Z.of_nat k)) in Hn by lia.
      rewrite Z.pow_succ_r in Hn by lia.
      assert (0 < 10 ^ Z.of_nat k) by (apply Z.pow_pos_nonneg; lia).
      destruct (n <? 10) eqn:E; [apply Z.ltb_lt in E; lia|].
      rewrite length_append. cbn [String.length].
      assert (Hq : 10 ^ Z.of_nat k <= n / 10)
        by (apply Z.div_le_lower_bound; lia).
      specialize (IH k (n / 10) ltac:(lia) Hq). lia.
Qed.

(** A number of at least [len] digits is not padded. *)
Lemma padStart0_long (len : nat) (n : Z) :
  (1 <= len <= 20)%nat -> 10 ^ Z.of_nat (len - 1) <= n ->
  Calendar.padStart0 len (Calendar.toString n) = Calendar.toString n.
Proof.
  intros Hl Hn. unfold Calendar.padStart0, Calendar.toString.
  pose proof (decimal_length_ge 19 (len - 1) n ltac:(lia) Hn) as Hge.
  replace (len - String.length (Calendar.decimal 19 n))%nat with 0%nat by lia.
  reflexivity.
Qed.

End InvoiceNumbers.

(** X12. [generateInvoiceNumber] returns ["INV-" ++ year ++ "-" ++ seq]
    where [year] is the four digits of the current year and [seq] is
    five digits that read back as the number of invoices plus one: when
    its database call does not fail, the clock is between 1970 and the
    end of 9999 and there are fewer than 99999 invoices. The store is
    not modified. *)
Theorem generated_invoice_number_format :
  forall (w : World),
    fails w 0 = false ->
    0 <= clock w < year_10000 ->
    Z.of_nat (List.length (invoices (db w))) < 99999 ->
    exists year seq w',
      storage.generateInvoiceNumber w = (Ok ("INV-" ++ year ++ "-" ++ seq)%string, w')
      /\ db w' = db w
      /\ String.length year = 4%nat /\ Str.all Str.is_digit year = true
      /\ digits_value 0 year = Calendar.getFullYear (clock w)
      /\ String.length seq = 5%nat /\ Str.all Str.is_digit seq = true
      /\ digits_value 0 seq = Z.of_nat (List.length (invoices (db w))) + 1.
Proof.
  intros [s fs t en] Hf Ht Hn. unfold fails in Hf. simpl in *.
  assert (Hd : 0 <= Calendar.day_of t < 2932897).
  { unfold Calendar.day_of, Calendar.MS_PER_DAY, year_10000 in *.
    Z.div_mod_to_equations; lia. }
  pose proof (civil_year (Calendar.day_of t) Hd) as Hy.
  assert (Hyr : 1970 <= Calendar.getFullYear t <= 9999).
  { unfold Calendar.getFullYear.
    destruct (Calendar.civil_from_days (Calendar.day_of t)) as [[y m] d]. exact Hy. }
  set (n := Z.of_nat (List.length (invoices s)) + 1).
  assert (Hn' : 0 <= n < 10 ^ Z.of_nat 5) by (unfold n; simpl; lia).
  destruct (padStart0_shape 4 n Hn') as [N1 N2].
  exists (Calendar.toString (Calendar.getFullYear t)),
    (Calendar.padStart0 5 (Calendar.toString n)),
    (mkWorld s (tl fs) t en).
  split; [|split; [reflexivity|]].
  - unfold storage.generateInvoiceNumber, bind, now, ret, db_query, db_call.
    cbn [clock faults db].
    destruct fs as [|[] fs]; try discriminate Hf; reflexivity.
  - assert (Y : Calendar.padStart0 4 (Calendar.toString (Calendar.getFullYear t))
               = Calendar.toString (Calendar.getFullYear t)).
    { apply padStart0_long; [lia|]. simpl. lia. }
    assert (Hy4 : 0 <= Calendar.getFullYear t < 10 ^ Z.of_nat 4) by (simpl; lia).
    destruct (padStart0_shape 3 (Calendar.getFullYear t) Hy4) as [Y1 Y2].
    rewrite Y in Y1, Y2.
    split; [exact Y1|]. split; [exact Y2|].
    split; [rewrite <- Y; apply digits_value_padStart0; lia|].
    split; [exact N1|]. split; [exact N2|].
    apply digits_value_padStart0. unfold n. lia.
Qed.

Lemma generated_invoice_number_format_witness :
  fails Demo.world 0 = false
  /\ 0 <= clock Demo.world < year_10000
  /\ Z.of_nat (List.length (invoices (db Demo.world))) < 99999
  /\ exists year seq w',
      storage.generateInvoiceNumber Demo.world
      = (Ok ("INV-" ++ year ++ "-" ++ seq)%string, w')
      /\ db w' = db Demo.world
      /\ String.length year = 4%nat /\ Str.all Str.is_digit year = true
      /\ digits_value 0 year = Calendar.getFullYear (clock Demo.world)
      /\ String.length seq = 5%nat /\ Str.all Str.is_digit seq = true
      /\ digits_value 0 seq = Z.of_nat (List.length (invoices (db Demo.world))) + 1.
Proof.
  split; [reflexivity|].
  split; [vm_compute; split; [discriminate|reflexivity]|].
  split; [reflexivity|].
  apply (generated_invoice_number_format Demo.world).
  - reflexivity.
  - vm_compute; split; [discriminate|reflexivity].
  - reflexivity.
Defined.


(** ** The first day of the month *)

Section MonthStart.

Lemma yoe_of_year_start (yoe : Z) :
  0 <= yoe <= 399 ->
  let S := 365 * yoe + yoe / 4 - yoe / 100 in
  (S - S / 1460 + S / 36524 - S / 146096) / 365 = yoe.
Proof.
  intros H. cbv zeta. Z.div_mod_to_equations; lia.
Qed.

Lemma yoe_monotone (a b : Z) :
  0 <= a <= b -> b <= 146096 ->
  (a - a / 1460 + a / 36524 - a / 146096) / 365
  <= (b - b / 1460 + b / 36524 - b / 146096) / 365.
Proof. intros H1 H2. Z.div_mod_to_equations; lia. Qed.

Lemma civil_first_day (z : Z) :
  let '(y, m, d) := Calendar.civil_from_days z in
  Calendar.civil_from_days (z - (d - 1)) = (y, m, 1).
Proof.
  unfold Calendar.civil_from_days. cbv zeta.
  set (zz := z + 719468).
  set (era := zz / 146097).
  set (doe := zz - era * 146097).
  assert (Hdoe : 0 <= doe <= 146096) by (unfold doe, era; Z.div_mod_to_equations; lia).
  set (yoe := (doe - doe / 1460 + doe / 36524 - doe / 146096) / 365).
  assert (Hyoe : 0 <= yoe <= 399) by (unfold yoe; Z.div_mod_to_equations; lia).
  set (S := 365 * yoe + yoe / 4 - yoe / 100).
  set (doy := doe - S).
  assert (Hdoy : 0 <= doy <= 365) by (unfold doy, S, yoe; Z.div_mod_to_equations; lia).
  set (mp := (5 * doy + 2) / 153).
  assert (Hmp : 0 <= mp <= 11) by (unfold mp; Z.div_mod_to_equations; lia).
  set (d := doy - (153 * mp + 2) / 5 + 1).
  assert (Hd : 1 <= d /\ d - 1 <= doy) by (unfold d, mp; Z.div_mod_to_equations; lia).
  replace (z - (d - 1) + 719468) with (zz - (d - 1)) by (unfold zz; lia).
  set (doe' := doe - (d - 1)).
  assert (Hera : (zz - (d - 1)) / 146097 = era).
  { assert (zz - (d - 1) = era * 146097 + doe') by (unfold doe', doe; lia).
    assert (0 <= doe' <= 146096) by (unfold doe', doy in *; unfold S in *; Z.div_mod_to_equations; lia).
    Z.div_mod_to_equations; lia. }
  rewrite Hera.
  replace (zz - (d - 1) - era * 146097) with doe' by (unfold doe', doe; lia).
  assert (HS : 0 <= S <= doe') by (unfold doe', doy in *; unfold S in *; Z.div_mod_to_equations; lia).
  assert (Hyoe' : (doe' - doe' / 1460 + doe' / 36524 - doe' / 146096) / 365 = yoe).
  { apply Z.le_antisymm.
    - unfold yoe. apply yoe_monotone; unfold doe'; lia.
    - rewrite <- (yoe_of_year_start yoe Hyoe) at 1. fold S.
      apply yoe_monotone; lia. }
  rewrite Hyoe'. fold S.
  replace (doe' - S) with ((153 * mp + 2) / 5) by (unfold doe', d, doy; lia).
  assert (Hmp' : (5 * ((153 * mp + 2) / 5) + 2) / 153 = mp) by (Z.div_mod_to_equations; lia).
  rewrite Hmp'. f_equal. lia.
Qed.

End MonthStart.

(** X13. [firstDayOfMonth], the lower bound of the monthly revenue, is
    the midnight that starts the month of the clock: it is a whole
    number of days, it is in the same year and month as the clock, its
    day of the month is 1, and the clock is at or after it and less than
    31 days later. *)
Theorem firstDayOfMonth_starts_the_month :
  forall (t : Z),
    Calendar.firstDayOfMonth t mod Calendar.MS_PER_DAY = 0
    /\ Calendar.getFullYear (Calendar.firstDayOfMonth t) = Calendar.getFullYear t
    /\ Calendar.getMonth1 (Calendar.firstDayOfMonth t) = Calendar.getMonth1 t
    /\ Calendar.getDate (Calendar.firstDayOfMonth t) = 1
    /\ Calendar.firstDayOfMonth t <= t
        < Calendar.firstDayOfMonth t + 31 * Calendar.MS_PER_DAY.
Proof.
  intros t.
  pose proof (civil_first_day (Calendar.day_of t)) as Hc.
  pose proof (civil_month_day (Calendar.day_of t)) as Hb.
  unfold Calendar.firstDayOfMonth, Calendar.getFullYear, Calendar.getMonth1,
    Calendar.getDate.
  destruct (Calendar.civil_from_days (Calendar.day_of t)) as [[y m] d] eqn:E.
  cbn [fst snd].
  assert (Hd : Calendar.day_of (Calendar.midnight (Calendar.day_of t - (d - 1)))
               = Calendar.day_of t - (d - 1)).
  { unfold Calendar.day_of at 1. unfold Calendar.midnight.
    apply Z.div_mul. unfold Calendar.MS_PER_DAY. lia. }
  rewrite Hd, Hc. cbn [fst snd].
  split; [unfold Calendar.midnight; apply Z.mod_mul; unfold Calendar.MS_PER_DAY; lia|].
  repeat (split; [reflexivity|]).
  unfold Calendar.midnight, Calendar.day_of, Calendar.MS_PER_DAY.
  Z.div_mod_to_equations; lia.
Qed.

(** ** Monthly revenue *)

Section Revenue.

Lemma firstDayOfMonth_le (t : Z) : Calendar.firstDayOfMonth t <= t.
Proof.
  pose proof (civil_month_day (Calendar.day_of t)) as Hb.
  unfold Calendar.firstDayOfMonth, Calendar.getDate.
  destruct (Calendar.civil_from_days (Calendar.day_of t)) as [[y m] d].
  cbn [snd]. unfold Calendar.midnight, Calendar.day_of, Calendar.MS_PER_DAY.
  Z.div_mod_to_equations; lia.
Qed.

Lemma revenue_app (since : Z) (l l' : list Transaction.t) :
  storage.revenue since (l ++ l') = storage.revenue since l + storage.revenue since l'.
Proof.
  unfold storage.revenue. rewrite filter_app, map_app.
  induction (map Transaction.amount (filter _ l)) as [|a m IH]; simpl; lia.
Qed.

End Revenue.

(** X14. What a created transaction adds to the monthly revenue. When
    [POST /api/transactions] inserts its row (sales or admin caller,
    first database call not failing, existing client and invoice, free
    id), the revenue of the month grows by the amount of the transaction
    if its status is [completed] and its date is at or after the first
    day of the month (there is no upper bound on the date), and does not
    change otherwise. So a transaction sent without status, [pending] by
    default, never counts, and a completed one sent without date, dated
    now by default, always counts. *)
Theorem revenue_counts_completed_transactions_of_the_month :
  forall (user : option User.t) (d : InsertTransaction.t) (w : World),
    sales_or_admin user = true ->
    fails w 0 = false ->
    exists_id (clients (db w)) (InsertTransaction.clientId d) = true ->
    fk_opt (invoices (db w)) (InsertTransaction.invoiceId d) = true ->
    exists_id (transactions (db w)) (transactions_id_seq (db w)) = false ->
    let since := Calendar.firstDayOfMonth (clock w) in
    let before := storage.revenue since (transactions (db w)) in
    let after :=
      storage.revenue since
        (transactions (db (snd (app user (POST_transactions (Some d)) w)))) in
    after
    = before
      + (if ((since <=? patched (InsertTransaction.transactionDate d) (clock w))
             && TransactionStatus_eqb
                  (patched (InsertTransaction.status d) tx_pending) completed)%bool
         then InsertTransaction.amount d else 0)
    /\ (InsertTransaction.status d = None -> after = before)
    /\ (InsertTransaction.status d = Some completed ->
        InsertTransaction.transactionDate d = None ->
        after = before + InsertTransaction.amount d).
Proof.
  intros user [cid iid amt st td] [s fs t en] Hu Hf Hc Hi Hid.
  destruct user as [u|]; simpl in Hu; [|discriminate].
  unfold fails in Hf. simpl in Hf, Hc, Hi, Hid. cbv zeta. cbn [db clock].
  cbn [InsertTransaction.status InsertTransaction.transactionDate
       InsertTransaction.amount].
  assert (Hdb : transactions
                  (db (snd (app (Some u)
                              (POST_transactions
                                 (Some (InsertTransaction.mk cid iid amt st td)))
                              (mkWorld s fs t en))))
                = transactions s
                  ++ [storage.insert_transaction
                        (InsertTransaction.mk cid iid amt st td)
                        (transactions_id_seq s) t]).
  { unfold app. simpl middleware. simpl route. simpl isSales. rewrite Hu.
    unfold post_transactions, handler, bind, parse, ret, send,
      storage.createTransaction, storage.updateInvoice, now, bind, ret, db_call.
    simpl.
    destruct fs as [|[] fs]; try discriminate Hf; simpl;
      rewrite Hid, Hc, Hi; simpl;
      destruct (truthy iid); simpl; try reflexivity;
      try (destruct fs as [|[] fs]; simpl; try reflexivity);
      destruct (selectById (invoices s) (or_zero iid)); reflexivity. }
  rewrite Hdb, revenue_app.
  set (since := Calendar.firstDayOfMonth t).
  assert (Hnew : storage.revenue since
                   [storage.insert_transaction
                      (InsertTransaction.mk cid iid amt st td) (transactions_id_seq s) t]
                 = if ((since <=? patched td t)
                       && TransactionStatus_eqb (patched st tx_pending) completed)%bool
                   then amt else 0).
  { unfold storage.revenue. simpl.
    destruct ((since <=? patched td t)
              && TransactionStatus_eqb (patched st tx_pending) completed)%bool;
      simpl; lia. }
  rewrite Hnew. split; [reflexivity|]. split.
  - intros ->. simpl. rewrite andb_false_r. lia.
  - intros -> ->. simpl.
    replace (since <=? t) with true
      by (symmetry; apply Z.leb_le; apply firstDayOfMonth_le).
    reflexivity.
Qed.

Lemma revenue_counts_completed_transactions_of_the_month_witness :
  sales_or_admin (Some Demo.sam) = true
  /\ fails Demo.world 0 = false
  /\ (let d := Demo.payment completed in
      let w := Demo.world in
      let since := Calendar.firstDayOfMonth (clock w) in
      let before := storage.revenue since (transactions (db w)) in
      let after :=
        storage.revenue since
          (transactions (db (snd (app (Some Demo.sam) (POST_transactions (Some d)) w)))) in
      after
      = before
        + (if ((since <=? patched (InsertTransaction.transactionDate d) (clock w))
               && TransactionStatus_eqb
                    (patched (InsertTransaction.status d) tx_pending) completed)%bool
           then InsertTransaction.amount d else 0)
      /\ (InsertTransaction.status d = None -> after = before)
      /\ (InsertTransaction.status d = Some completed ->
          InsertTransaction.transactionDate d = None ->
          after = before + InsertTransaction.amount d)).
Proof.
  split; [reflexivity|]. split; [reflexivity|].
  apply (revenue_counts_completed_transactions_of_the_month
           (Some Demo.sam) (Demo.payment completed) Demo.world); reflexivity.
Defined.


(** ** Expiration alerts *)

Section Alerts.

(** When no database call fails, a [mapM] of computations that leave
    the world alone is a [map]. *)
Lemma mapM_quiet {A B} (f : A -> M B) (g : A -> B) (w : World) (l : list A) :
  (forall a, In a l -> f a w = (Ok (g a), w)) ->
  mapM f l w = (Ok (map g l), w).
Proof.
  induction l as [|a l IH]; intros Hf; simpl; [reflexivity|].
  unfold bind at 1. rewrite (Hf a (or_introl eq_refl)).
  unfold bind at 1. rewrite IH by (intros b Hb; apply Hf; right; exact Hb).
  reflexivity.
Qed.

Lemma Forall2_map_r {A B} (R : A -> B -> Prop) (g : A -> B) (l : list A) :
  (forall a, In a l -> R a (g a)) -> Forall2 R l (map g l).
Proof.
  induction l as [|a l IH]; intros H; simpl; constructor.
  - apply H. left. reflexivity.
  - apply IH. intros b Hb. apply H. right. exact Hb.
Qed.

Lemma or_unknown_not_empty (s : option string) : or_unknown s <> "".
Proof. destruct s as [[|c s]|]; simpl; discriminate. Qed.

End Alerts.

(** X15. The alerts of the dashboard. When no database call fails,
    [GET /api/dashboard/expiring-licenses] answers 200 with one alert
    for each license that [getExpiringLicenses(14)] returns, in the same
    order, and leaves the world as it was. The license of an alert is
    active and its expiration date is a day before the fourteenth day
    from today. The alert carries the id, the key and the expiration
    date of its license; its [expiresIn] is the number of full days to
    the expiration date: at most 13, zero or less once the midnight of
    the expiration date has passed and negative once a full day has
    passed since. Its subscription id, client id and company name are
    those of the subscription of the license and of the client of that
    subscription; the ids are 0 and the company is "Unknown" where the
    subscription or the client is missing, and the company is "Unknown"
    also for an empty name, so that it is never empty. *)
Theorem expiring_alerts_describe_the_expiring_licenses :
  forall (u : User.t) (w : World),
    faults w = [] ->
    exists rows alerts,
      storage.getExpiringLicenses 14 w = (Ok rows, w)
      /\ app (Some u) GET_dashboard_expiring_licenses w
         = (Response.mk 200 (expiring_json alerts), w)
      /\ Forall2 (alert_of (db w) (clock w)) rows alerts.
Proof.
  intros u [s fs t en] Hf. simpl in Hf. subst fs. cbn [clock db].
  set (w := mkWorld s [] t en).
  set (g := fun license : License.t =>
              let subscription := selectById (subscriptions s)
                                    (License.subscriptionId license) in
              let owner := match subscription with
                           | Some sub => selectById (clients s) (Subscription.clientId sub)
                           | None => None
                           end in
              ExpiringLicense.mk (License.id license) (License.licenseKey license)
                (License.expirationDate license) (daysUntilExpiration license t)
                (or_unknown (option_map Client.companyName owner))
                (or_zero (option_map Client.id owner))
                (or_zero (option_map Subscription.id subscription))).
  assert (Hg : forall l, expiring_license_data l w = (Ok (g l), w)).
  { intros l. unfold expiring_license_data, g, w, bind, storage.getSubscription,
      storage.getClient, db_query, db_call, now, ret. simpl.
    destruct (selectById (subscriptions s) (License.subscriptionId l)); reflexivity. }
  exists (filter (storage.expiring (Calendar.addDays t 14)) (licenses s)),
    (map g (filter (storage.expiring (Calendar.addDays t 14)) (licenses s))).
  split; [reflexivity|]. split.
  - unfold app. simpl middleware. simpl route. simpl isAuthenticated.
    unfold get_dashboard_expiring_licenses, handler.
    unfold bind at 1. unfold storage.getExpiringLicenses at 1.
    unfold bind at 1, now, db_query, db_call. cbn [faults db clock entropy].
    change (faults w) with (@nil bool). cbv iota.
    change (db w) with s. change (clock w) with t. change (entropy w) with en.
    fold w. unfold bind at 1.
    rewrite (mapM_quiet expiring_license_data g w) by (intros; apply Hg).
    reflexivity.
  - apply Forall2_map_r. intros l Hl. apply filter_In in Hl. destruct Hl as [_ Hl].
    unfold storage.expiring in Hl. apply andb_true_iff in Hl. destruct Hl as [Hs Hl].
    apply LicenseStatus_eqb_eq in Hs. apply Z.ltb_lt in Hl.
    unfold alert_of, g. cbn [ExpiringLicense.id ExpiringLicense.licenseKey
      ExpiringLicense.expirationDate ExpiringLicense.expiresIn
      ExpiringLicense.company ExpiringLicense.clientId
      ExpiringLicense.subscriptionId].
    split; [exact Hs|].
    split.
    { unfold Calendar.addDays, Calendar.day_of, Calendar.MS_PER_DAY in *.
      Z.to_euclidean_division_equations; lia. }
    repeat (split; [reflexivity|]).
    split.
    { unfold daysUntilExpiration, Calendar.differenceInDays, Calendar.addDays,
        Calendar.midnight, Calendar.day_of, Calendar.MS_PER_DAY in *.
      Z.to_euclidean_division_equations; lia. }
    split.
    { intros Hp. unfold daysUntilExpiration, Calendar.differenceInDays,
        Calendar.midnight, Calendar.MS_PER_DAY in *.
      Z.to_euclidean_division_equations; lia. }
    split.
    { intros Hp. unfold daysUntilExpiration, Calendar.differenceInDays,
        Calendar.midnight, Calendar.MS_PER_DAY in *.
      Z.to_euclidean_division_equations; lia. }
    split; [apply or_unknown_not_empty|].
    destruct (selectById (subscriptions s) (License.subscriptionId l)) as [sub|];
      [|repeat split].
    split; [reflexivity|].
    destruct (selectById (clients s) (Subscription.clientId sub)) as [c|];
      [|repeat split].
    split; [reflexivity|]. cbn [option_map or_unknown].
    destruct (Client.companyName c); reflexivity.
Qed.

Lemma expiring_alerts_describe_the_expiring_licenses_witness :
  faults Demo.world = []
  /\ exists rows alerts,
      storage.getExpiringLicenses 14 Demo.world = (Ok rows, Demo.world)
      /\ app (Some Demo.sue) GET_dashboard_expiring_licenses Demo.world
         = (Response.mk 200 (expiring_json alerts), Demo.world)
      /\ Forall2 (alert_of (db Demo.world) (clock Demo.world)) rows alerts.
Proof.
  split; [reflexivity|].
  apply (expiring_alerts_describe_the_expiring_licenses Demo.sue Demo.world).
  reflexivity.
Defined.

(** ** What a request leaves alone *)

(** A property of the store that does not depend on a table is kept by
    the statements that write this table. *)
Section Insensitive.
Variable P : Store -> Prop.

Lemma subscriptions_writes_keep :
  (forall rows seq s, P s -> P (set_subscriptions rows seq s)) ->
  (forall d, preserves P (storage.createSubscription d))
  /\ (forall j d, preserves P (storage.updateSubscription j d)).
Proof.
  intros HP. split; intros.
  - unfold storage.createSubscription. frame. cbv zeta.
    split_test; simpl; apply HP; assumption.
  - unfold storage.updateSubscription. frame.
    destruct (selectById _ j); [|assumption].
    split_test; simpl; [apply HP|]; assumption.
Qed.

Lemma licenses_writes_keep :
  (forall rows seq s, P s -> P (set_licenses rows seq s)) ->
  (forall d, preserves P (storage.createLicense d))
  /\ (forall j d, preserves P (storage.updateLicense j d)).
Proof.
  intros HP. split; intros.
  - unfold storage.createLicense. frame. cbv zeta.
    split_test; simpl; apply HP; assumption.
  - unfold storage.updateLicense. frame.
    destruct (selectById _ j); [|assumption].
    split_test; simpl; [apply HP|]; assumption.
Qed.

Lemma invoices_writes_keep :
  (forall rows seq s, P s -> P (set_invoices rows seq s)) ->
  (forall d, preserves P (storage.createInvoice d))
  /\ (forall j d, preserves P (storage.updateInvoice j d)).
Proof.
  intros HP. split; intros.
  - unfold storage.createInvoice. frame. cbv zeta.
    split_test; simpl; apply HP; assumption.
  - unfold storage.updateInvoice. frame.
    destruct (selectById _ j); [|assumption].
    split_test; simpl; [apply HP|]; assumption.
Qed.

Lemma transactions_writes_keep :
  (forall rows seq s, P s -> P (set_transactions rows seq s)) ->
  (forall d, preserves P (storage.createTransaction d))
  /\ (forall j d, preserves P (storage.updateTransaction j d)).
Proof.
  intros HP. split; intros.
  - unfold storage.createTransaction. frame. cbv zeta.
    split_test; simpl; apply HP; assumption.
  - unfold storage.updateTransaction. frame.
    destruct (selectById _ j); [|assumption].
    split_test; simpl; [apply HP|]; assumption.
Qed.

End Insensitive.

(** Unfolds the handler of a route and breaks it into its calls. *)
Ltac route_frame leaf :=
  unfold app; simpl middleware; simpl route;
  lazymatch goal with
  | |- ?Q (db (snd (isSales _ _ ?w))) =>
      apply (preserves_isSales Q)
  | |- ?Q (db (snd (isAuthenticated _ _ ?w))) =>
      apply (preserves_isAuthenticated Q)
  end;
  [ intros ? ? ?;
    unfold get_dashboard_stats, get_dashboard_expiring_licenses,
      expiring_license_data, get_subscriptions, get_subscription,
      post_subscriptions, patch_subscription, get_licenses, get_license,
      post_licenses, patch_license, get_invoices, get_invoice, post_invoices,
      patch_invoice, get_transactions, get_transaction,
      post_transactions, patch_transaction;
    (apply preserves_handler; [|assumption]);
    frame_with leaf
  | ].

(** X16. A request writes only the table of its route: creating or
    patching a subscription, a license or an invoice leaves the three
    other tables as they were, creating a transaction leaves the
    subscriptions and the licenses (it may mark an invoice), patching a
    transaction leaves the three other tables, and a [GET] leaves the
    whole store; for every caller, body and outcome of the database
    calls. *)
Theorem writes_are_confined_to_their_table :
  forall (user : option User.t) (e : Endpoint) (w : World),
    untouched e (db w) (db (snd (app user e w))).
Proof.
  intros user e w.
  set (Q := fun s' => untouched e (db w) s').
  change (Q (db (snd (app user e w)))).
  assert (Q0 : Q (db w)) by (unfold Q; destruct e; simpl; repeat split; reflexivity).
  pose proof (reads_preserve Q) as R.
  pose proof (subscriptions_writes_keep Q) as WS.
  pose proof (licenses_writes_keep Q) as WL.
  pose proof (invoices_writes_keep Q) as WI.
  pose proof (transactions_writes_keep Q) as WT.
  destruct e;
    route_frame ltac:(first
      [ apply R
      | apply WS; intros; unfold Q in *; simpl in *; assumption
      | apply WL; intros; unfold Q in *; simpl in *; assumption
      | apply WI; intros; unfold Q in *; simpl in *; assumption
      | apply WT; intros; unfold Q in *; simpl in *; assumption ]);
    exact Q0.
Qed.

Section Kept.
Variable i : Z.
Variable s0 : Store.

Lemma kept_insert {R : Type} `{Row R} (b : option R) (l : list R) (r : R) :
  kept b (selectById l i) -> kept b (selectById (l ++ [r]) i).
Proof.
  intros Hk x Hx. rewrite selectById_app, (Hk x Hx). reflexivity.
Qed.

Lemma kept_update {R : Type} `{Row R} (b : option R) (l : list R) (j : Z) (f : R -> R) :
  (forall r, row_id (f r) = row_id r) -> (j =? i) = false ->
  kept b (selectById l i) -> kept b (selectById (updateById l j f) i).
Proof.
  intros Hf Hj Hk x Hx. rewrite selectById_updateById, Hj by exact Hf.
  exact (Hk x Hx).
Qed.

Lemma creations_keep_rows :
  (forall d, preserves (rows_kept i s0) (storage.createSubscription d))
  /\ (forall d, preserves (rows_kept i s0) (storage.createLicense d))
  /\ (forall d, preserves (rows_kept i s0) (storage.createInvoice d))
  /\ (forall d, preserves (rows_kept i s0) (storage.createTransaction d)).
Proof.
  split; [|split; [|split]]; intros d;
    unfold storage.createSubscription, storage.createLicense,
      storage.createInvoice, storage.createTransaction;
    frame; cbv zeta;
    match goal with H : rows_kept _ _ _ |- _ => destruct H as (H1 & H2 & H3 & H4) end;
    split_test; simpl; repeat split; simpl; try assumption;
    apply kept_insert; assumption.
Qed.

Lemma updates_keep_rows (j : Z) :
  (j =? i) = false ->
  (forall d, preserves (rows_kept i s0) (storage.updateSubscription j d))
  /\ (forall d, preserves (rows_kept i s0) (storage.updateLicense j d))
  /\ (forall d, preserves (rows_kept i s0) (storage.updateInvoice j d))
  /\ (forall d, preserves (rows_kept i s0) (storage.updateTransaction j d)).
Proof.
  intros Hj. split; [|split; [|split]]; intros d;
    unfold storage.updateSubscription, storage.updateLicense,
      storage.updateInvoice, storage.updateTransaction;
    frame;
    (destruct (selectById _ j); [|assumption]);
    match goal with H : rows_kept _ _ _ |- _ => destruct H as (H1 & H2 & H3 & H4) end;
    split_test; simpl; repeat split; simpl; try assumption;
    apply kept_update; (reflexivity || assumption).
Qed.

End Kept.

(** X17. A request changes no row but the one it names: every
    subscription, license, invoice and transaction that exists before
    the request is still there, unchanged, after it, unless its id is
    the id a [PATCH] names or the id of the invoice a created
    transaction names. In particular a [POST] never changes or removes
    an existing row. *)
Theorem rows_not_targeted_are_kept :
  forall (user : option User.t) (e : Endpoint) (w : World) (i : Z),
    targets e i = false ->
    rows_kept i (db w) (db (snd (app user e w))).
Proof.
  intros user e w i Ht.
  assert (Q0 : rows_kept i (db w) (db w)) by (repeat split; intros r Hr; exact Hr).
  pose proof (reads_preserve (rows_kept i (db w))) as R.
  pose proof (creations_keep_rows i (db w)) as C.
  destruct e as [ | | c | j | b | j b | c | j | b | j b | c | j | b | j b
                | c | j | b | j b ].
  17: {
    (* POST /api/transactions: the invoice of the created transaction *)
    destruct w as [s fs t en]. destruct user as [u|]; [|exact Q0].
    unfold app. simpl middleware. simpl route. simpl isSales.
    destruct (_ || _)%bool; [|exact Q0].
    destruct b as [[cid iid amt st td]|]; [|exact Q0].
    simpl in Ht.
    unfold post_transactions, handler, bind, parse, ret, send,
      storage.createTransaction, storage.updateInvoice, now, bind, ret, db_call.
    simpl.
    assert (K : forall l x, kept (selectById (transactions s) i) (selectById l i) ->
                rows_kept i s (set_transactions l x s))
      by (intros l x Hk; repeat split; simpl; try (intros r Hr; exact Hr); exact Hk).
    destruct fs as [|[] fs]; simpl; try exact Q0;
      (split_test; simpl;
       [|apply K; intros r Hr; exact Hr]);
      (destruct (truthy iid) eqn:Et; simpl;
       [|apply K; apply kept_insert; intros r Hr; exact Hr]);
      simpl in Ht;
      try (destruct fs as [|[] fs]; simpl;
           try (apply K; apply kept_insert; intros r Hr; exact Hr));
      (destruct (selectById (invoices s) (or_zero iid)); simpl;
       [|apply K; apply kept_insert; intros r Hr; exact Hr]);
      repeat split; simpl; try (intros r Hr; exact Hr);
      first [ apply kept_insert; intros r Hr; exact Hr
            | apply kept_update; [reflexivity|exact Ht|intros r Hr; exact Hr] ].
  }
  all: try (pose proof (updates_keep_rows i (db w) j Ht) as U).
  all: route_frame ltac:(first [apply R | apply C | apply U]); exact Q0.
Qed.

Lemma rows_not_targeted_are_kept_witness :
  targets (PATCH_licenses_id 1 (Some (renewal 19782))) 2 = false
  /\ rows_kept 2 (db Demo.world)
       (db (snd (app (Some Demo.sam) (PATCH_licenses_id 1 (Some (renewal 19782)))
                   Demo.world))).
Proof.
  split; [reflexivity|].
  apply (rows_not_targeted_are_kept
           (Some Demo.sam) (PATCH_licenses_id 1 (Some (renewal 19782))) Demo.world 2).
  reflexivity.
Defined.


(** ** Reconciliation, row by row *)

(** X18. What the creation of a transaction can do to the invoice it
    names: for every caller, status and outcome of the database calls,
    after [POST /api/transactions] the invoices have the same ids as
    before and the named invoice is either exactly as it was or as it
    was except that [isPaid] is true and [updatedAt] is the current
    time. Its amounts, dates, number and owner are never modified. *)
Theorem transaction_changes_only_the_paid_flag :
  forall (user : option User.t) (d : InsertTransaction.t) (w : World)
         (x : Z) (inv : Invoice.t),
    InsertTransaction.invoiceId d = Some x ->
    selectById (invoices (db w)) x = Some inv ->
    let s' := db (snd (app user (POST_transactions (Some d)) w)) in
    ids (invoices s') = ids (invoices (db w))
    /\ (selectById (invoices s') x = Some inv
        \/ selectById (invoices s') x = Some (marked_paid (clock w) inv)).
Proof.
  intros user [cid iid amt st td] [s fs t en] x inv Hx Hinv.
  simpl in Hx, Hinv. subst iid. cbv zeta. cbn [db clock].
  destruct user as [u|]; [|split; [reflexivity|left; exact Hinv]].
  unfold app. simpl middleware. simpl route. simpl isSales.
  destruct (_ || _)%bool; [|split; [reflexivity|left; exact Hinv]].
  unfold post_transactions, handler, bind, parse, ret, send,
    storage.createTransaction, storage.updateInvoice, now, bind, ret, db_call.
  simpl.
  destruct fs as [|[] fs]; simpl; try (split; [reflexivity|left; exact Hinv]);
    (split_test; simpl; [|split; [reflexivity|left; exact Hinv]]);
    (destruct (x =? 0) eqn:Ex; simpl; [split; [reflexivity|left; exact Hinv]|]);
    try (destruct fs as [|[] fs]; simpl; try (split; [reflexivity|left; exact Hinv]));
    rewrite Hinv; simpl;
    (split; [apply ids_updateById; reflexivity|right]);
    rewrite selectById_updateById by reflexivity;
    rewrite Z.eqb_refl, Hinv; reflexivity.
Qed.

(** ** Reading back what was created *)

Lemma find_appended {A : Type} (p : A -> bool) (l : list A) (r : A) :
  existsb p l = false -> p r = true -> find p (l ++ [r]) = Some r.
Proof.
  induction l as [|a l IH]; simpl; intros E Hr.
  - rewrite Hr. reflexivity.
  - apply orb_false_iff in E. destruct E as [Ea El]. rewrite Ea. apply IH; assumption.
Qed.

(** X19. A created license can be read back: after every 201 answer
    of [POST /api/licenses], [getLicense] with the id of the answer and
    [getLicenseByKey] with its key both return the license of the
    answer, when their database call does not fail. *)
Theorem created_license_is_found_by_id_and_key :
  forall (user : option User.t) (d : InsertLicense.t) (w : World)
         (r : Response.t) (w' : World),
    app user (POST_licenses (Some d)) w = (r, w') ->
    Response.status r = 201 ->
    exists l,
      Response.json r = license_json l
      /\ fst (storage.getLicense (License.id l) (calm w')) = Ok (Some l)
      /\ fst (storage.getLicenseByKey (License.licenseKey l) (calm w')) = Ok (Some l).
Proof.
  intros user d [s fs t en] r w'. unfold app. simpl middleware. simpl route.
  destruct user as [u|]; simpl isSales;
    [destruct (_ || _)%bool|]; try (intros E; inversion E; discriminate).
  unfold post_licenses, handler, bind, parse, ret, send, storage.generateLicenseKey,
    storage.createLicense, randomUUID, now, bind, ret, db_call. simpl.
  destruct (String.eqb (InsertLicense.licenseKey d) ""), en, fs as [|[] fs]; simpl;
    try (intros E; inversion E; discriminate);
    split_test; simpl; intros E'; inversion E'; subst; try discriminate; intros _;
    eexists; (split; [reflexivity|]);
    unfold storage.getLicense, storage.getLicenseByKey, calm, db_query, db_call;
    simpl; (split; f_equal; f_equal).
  all: try (rewrite selectById_app;
            match goal with
            | H : exists_id _ _ = false |- _ => rewrite (selectById_none _ _ H)
            end; simpl; unfold row_id, Row_License; simpl; rewrite Z.eqb_refl;
            reflexivity).
  all: apply find_appended; [assumption|simpl; apply String.eqb_refl].
Qed.

Lemma transaction_changes_only_the_paid_flag_witness :
  InsertTransaction.invoiceId (Demo.payment refunded) = Some 1
  /\ selectById (invoices (db Demo.flaky)) 1 = Some Demo.acme_invoice
  /\ (let s' := db (snd (app (Some Demo.sam)
                           (POST_transactions (Some (Demo.payment refunded)))
                           Demo.flaky)) in
      ids (invoices s') = ids (invoices (db Demo.flaky))
      /\ (selectById (invoices s') 1 = Some Demo.acme_invoice
          \/ selectById (invoices s') 1
             = Some (marked_paid (clock Demo.flaky) Demo.acme_invoice))).
Proof.
  split; [reflexivity|]. split; [reflexivity|].
  apply (transaction_changes_only_the_paid_flag
           (Some Demo.sam) (Demo.payment refunded) Demo.flaky 1 Demo.acme_invoice);
    reflexivity.
Defined.

Lemma created_license_is_found_by_id_and_key_witness :
  let r := fst (app (Some Demo.sam) (POST_licenses (Some Demo.new_license)) Demo.world) in
  let w' := snd (app (Some Demo.sam) (POST_licenses (Some Demo.new_license)) Demo.world) in
  Response.status r = 201
  /\ exists l,
      Response.json r = license_json l
      /\ fst (storage.getLicense (License.id l) (calm w')) = Ok (Some l)
      /\ fst (storage.getLicenseByKey (License.licenseKey l) (calm w')) = Ok (Some l).
Proof.
  cbv zeta. split; [reflexivity|].
  apply (created_license_is_found_by_id_and_key
           (Some Demo.sam) Demo.new_license Demo.world); reflexivity.
Defined.


(** ** Created rows *)

(** X20. What a 201 answer of a creation carries. The created invoice
    is in the table with the amount and the total of the body, the
    total being stored as sent and not computed from the amount and the
    tax, a tax of 0 and [isPaid = false] when the body has none, and the
    number of the body when it is not empty. The created transaction is
    in the table with the amount of the body, [pending] when the body
    has no status and dated now when it has no date. The created
    subscription has [autoRenew = false] when the body has none. *)
Theorem created_rows_take_the_defaults_of_their_columns :
  forall (user : option User.t) (w : World) (r : Response.t) (w' : World),
    Response.status r = 201 ->
    (forall d, app user (POST_invoices (Some d)) w = (r, w') ->
       exists inv,
         Response.json r = invoice_json inv
         /\ In inv (invoices (db w'))
         /\ Invoice.amount inv = InsertInvoice.amount d
         /\ Invoice.tax inv = patched (InsertInvoice.tax d) 0
         /\ Invoice.totalAmount inv = InsertInvoice.totalAmount d
         /\ Invoice.isPaid inv = patched (InsertInvoice.isPaid d) false
         /\ (InsertInvoice.invoiceNumber d <> "" ->
             Invoice.invoiceNumber inv = InsertInvoice.invoiceNumber d))
    /\ (forall d, app user (POST_transactions (Some d)) w = (r, w') ->
          exists tx,
            Response.json r = transaction_json tx
            /\ In tx (transactions (db w'))
            /\ Transaction.amount tx = InsertTransaction.amount d
            /\ Transaction.status tx = patched (InsertTransaction.status d) tx_pending
            /\ Transaction.transactionDate tx
               = patched (InsertTransaction.transactionDate d) (clock w))
    /\ (forall d, app user (POST_subscriptions (Some d)) w = (r, w') ->
          exists sub,
            Response.json r = subscription_json sub
            /\ In sub (subscriptions (db w'))
            /\ Subscription.subscriptionType sub = InsertSubscription.subscriptionType d
            /\ Subscription.autoRenew sub = patched (InsertSubscription.autoRenew d) false).
Proof.
  intros user [s fs t en] r w' Hr.
  destruct user as [u|].
  2: { repeat split; intros d E; inversion E; subst; discriminate Hr. }
  unfold app. simpl middleware. simpl route. simpl isSales.
  destruct (_ || _)%bool.
  2: { repeat split; intros d E; inversion E; subst; discriminate Hr. }
  split; [|split].
  - intros d. unfold post_invoices, handler, bind, parse, ret, send,
      storage.generateInvoiceNumber, storage.createInvoice, now, bind, ret,
      db_query, db_call.
    simpl_request.
    destruct (String.eqb (InsertInvoice.invoiceNumber d) "") eqn:Ek;
      destruct fs as [|[] [|[] fs]]; simpl_request;
      try (intros E; inversion E; subst; discriminate Hr);
      split_test; simpl_request; intros E'; inversion E'; subst;
      try discriminate Hr;
      eexists; (split; [reflexivity|]);
      (split; [apply in_or_app; right; left; reflexivity|]);
      repeat (split; [reflexivity|]);
      intros Hne; try reflexivity;
      apply String.eqb_eq in Ek; contradiction.
  - intros d. unfold post_transactions, handler, bind, parse, ret, send,
      storage.createTransaction, storage.updateInvoice, now, bind, ret, db_call.
    simpl.
    destruct fs as [|[] fs]; simpl;
      try (intros E; inversion E; subst; discriminate Hr);
      split_test; simpl; try (intros E'; inversion E'; subst; discriminate Hr);
      (destruct (truthy (InsertTransaction.invoiceId d)); simpl);
      try (destruct fs as [|[] fs]; simpl);
      try (destruct (selectById (invoices s) _); simpl);
      intros E'; inversion E'; subst; try discriminate Hr;
      eexists; (split; [reflexivity|]);
      (split; [simpl; apply in_or_app; right; left; reflexivity|]);
      repeat split.
  - intros d. unfold post_subscriptions, handler, bind, parse, ret, send,
      storage.createSubscription, now, bind, ret, db_call.
    simpl.
    destruct fs as [|[] fs]; simpl;
      try (intros E; inversion E; subst; discriminate Hr);
      split_test; simpl; intros E'; inversion E'; subst; try discriminate Hr;
      eexists; (split; [reflexivity|]);
      (split; [simpl; apply in_or_app; right; left; reflexivity|]);
      repeat split.
Qed.

Lemma created_rows_take_the_defaults_of_their_columns_witness :
  let r := fst (app (Some Demo.sam) (POST_invoices (Some Demo.new_invoice)) Demo.world) in
  let w' := snd (app (Some Demo.sam) (POST_invoices (Some Demo.new_invoice)) Demo.world) in
  Response.status r = 201
  /\ exists inv,
      Response.json r = invoice_json inv
      /\ In inv (invoices (db w'))
      /\ Invoice.amount inv = 10000
      /\ Invoice.tax inv = 825
      /\ Invoice.totalAmount inv = 99999
      /\ Invoice.isPaid inv = false
      /\ (InsertInvoice.invoiceNumber Demo.new_invoice <> "" ->
          Invoice.invoiceNumber inv = InsertInvoice.invoiceNumber Demo.new_invoice).
Proof.
  cbv zeta. split; [vm_compute; reflexivity|].
  assert (H : Response.status
                (fst (app (Some Demo.sam) (POST_invoices (Some Demo.new_invoice))
                        Demo.world)) = 201)
    by (vm_compute; reflexivity).
  apply (proj1 (created_rows_take_the_defaults_of_their_columns
                  (Some Demo.sam) Demo.world _ _ H) Demo.new_invoice).
  vm_compute; reflexivity.
Defined.


(** ** The four gates *)

Lemma passes_role gate user (role_ok : User.t -> bool) :
  (forall u next w,
      gate (Some u) next w
      = if role_ok u then next u w else (Response.mk 403 (message "Forbidden"), w)) ->
  passes gate user -> exists u, user = Some u /\ role_ok u = true.
Proof.
  intros Hg (u & -> & Hp). exists u. split; [reflexivity|].
  specialize (Hp (fun _ w => (Response.mk 200 (message ""), w)) idle).
  rewrite Hg in Hp. destruct (role_ok u); [reflexivity|discriminate Hp].
Qed.

Lemma isAdmin_eq u next w :
  isAdmin (Some u) next w
  = if UserRole_eqb (User.role u) admin then next u w
    else (Response.mk 403 (message "Forbidden"), w).
Proof. simpl. destruct (UserRole_eqb _ _); reflexivity. Qed.

Lemma isSupport_eq u next w :
  isSupport (Some u) next w
  = if (UserRole_eqb (User.role u) support || UserRole_eqb (User.role u) admin)%bool
    then next u w
    else (Response.mk 403 (message "Forbidden"), w).
Proof. simpl. destruct (_ || _)%bool; reflexivity. Qed.

Lemma isSales_eq u next w :
  isSales (Some u) next w
  = if (UserRole_eqb (User.role u) sales || UserRole_eqb (User.role u) admin)%bool
    then next u w
    else (Response.mk 403 (message "Forbidden"), w).
Proof. simpl. destruct (_ || _)%bool; reflexivity. Qed.

(** X21. The four gates of the routes. Each gate either runs the
    handler it guards as the user of the session or answers without
    running it and leaves the world as it was: 401 for
    [isAuthenticated], 403 for [isAdmin], [isSupport] and [isSales]. The
    callers [isAdmin] lets through are the users of role [admin], and
    they are exactly the callers that both [isSupport] and [isSales] let
    through; whoever passes [isSupport] or [isSales] passes
    [isAuthenticated]. *)
Theorem role_gates_are_ordered :
  forall user : option User.t,
    (passes isAuthenticated user \/ refuses isAuthenticated user 401)
    /\ (passes isAdmin user \/ refuses isAdmin user 403)
    /\ (passes isSupport user \/ refuses isSupport user 403)
    /\ (passes isSales user \/ refuses isSales user 403)
    /\ (passes isAdmin user <-> passes isSupport user /\ passes isSales user)
    /\ (passes isSupport user \/ passes isSales user -> passes isAuthenticated user)
    /\ (passes isAdmin user <-> exists u, user = Some u /\ User.role u = admin).
Proof.
  intros user.
  assert (Hadm : passes isAdmin user <-> exists u, user = Some u /\ User.role u = admin).
  { split.
    - intros H. apply (passes_role _ _ (fun u => UserRole_eqb (User.role u) admin)) in H.
      + destruct H as (u & -> & H). exists u. split; [reflexivity|].
        apply UserRole_eqb_eq. exact H.
      + intros. apply isAdmin_eq.
    - intros (u & -> & H). exists u. split; [reflexivity|]. intros next w.
      rewrite isAdmin_eq, H. reflexivity. }
  split; [|split; [|split; [|split; [|split; [|split]]]]].
  - destruct user as [u|]; [left; exists u; split; reflexivity|right].
    intros next w. eexists. reflexivity.
  - destruct user as [u|]; [|right; intros next w; eexists; reflexivity].
    destruct (UserRole_eqb (User.role u) admin) eqn:E.
    + left. exists u. split; [reflexivity|]. intros. rewrite isAdmin_eq, E. reflexivity.
    + right. intros next w. rewrite isAdmin_eq, E. eexists. reflexivity.
  - destruct user as [u|]; [|right; intros next w; eexists; reflexivity].
    destruct (UserRole_eqb (User.role u) support || UserRole_eqb (User.role u) admin)%bool eqn:E.
    + left. exists u. split; [reflexivity|]. intros. rewrite isSupport_eq, E. reflexivity.
    + right. intros next w. rewrite isSupport_eq, E. eexists. reflexivity.
  - destruct user as [u|]; [|right; intros next w; eexists; reflexivity].
    destruct (UserRole_eqb (User.role u) sales || UserRole_eqb (User.role u) admin)%bool eqn:E.
    + left. exists u. split; [reflexivity|]. intros. rewrite isSales_eq, E. reflexivity.
    + right. intros next w. rewrite isSales_eq, E. eexists. reflexivity.
  - rewrite Hadm. split.
    + intros (u & -> & H). split; exists u; (split; [reflexivity|]); intros next w.
      * rewrite isSupport_eq, H. reflexivity.
      * rewrite isSales_eq, H. reflexivity.
    + intros [Hs Hl].
      apply (passes_role _ _ (fun u => (UserRole_eqb (User.role u) support
                                        || UserRole_eqb (User.role u) admin)%bool)) in Hs;
        [|intros; apply isSupport_eq].
      apply (passes_role _ _ (fun u => (UserRole_eqb (User.role u) sales
                                        || UserRole_eqb (User.role u) admin)%bool)) in Hl;
        [|intros; apply isSales_eq].
      destruct Hs as (u & -> & Hs). destruct Hl as (u' & E & Hl).
      inversion E; subst u'. exists u. split; [reflexivity|].
      destruct (User.role u); simpl in *; try discriminate; reflexivity.
  - intros [(u & -> & _)|(u & -> & _)]; exists u; split; reflexivity.
  - exact Hadm.
Qed.

(** ** Expiry, as the pages show it *)

Lemma quot_pos_iff a : 0 < Z.quot a Calendar.MS_PER_DAY <-> Calendar.MS_PER_DAY <= a.
Proof. unfold Calendar.MS_PER_DAY. Z.to_euclidean_division_equations. lia. Qed.

Lemma quot_le_iff a n :
  0 <= n -> (Z.quot a Calendar.MS_PER_DAY <= n <-> a < (n + 1) * Calendar.MS_PER_DAY).
Proof. unfold Calendar.MS_PER_DAY. Z.to_euclidean_division_equations. nia. Qed.

Lemma badge_expiring_soon st d t :
  Pages.Licenses.getStatusBadge st d t = "Expiring Soon"
  <-> st = active
      /\ t + Calendar.MS_PER_DAY <= Calendar.midnight d < t + 15 * Calendar.MS_PER_DAY.
Proof.
  unfold Pages.Licenses.getStatusBadge, Pages.Licenses.getDaysUntilExpiration,
    Calendar.differenceInDays.
  pose proof (quot_pos_iff (Calendar.midnight d - t)) as Hp.
  pose proof (quot_le_iff (Calendar.midnight d - t) 14 ltac:(lia)) as Hl.
  assert (Hb : (LicenseStatus_eqb st active
                && (Z.quot (Calendar.midnight d - t) Calendar.MS_PER_DAY <=? 14)
                && (0 <? Z.quot (Calendar.midnight d - t) Calendar.MS_PER_DAY))%bool = true
               <-> st = active
                   /\ t + Calendar.MS_PER_DAY <= Calendar.midnight d
                      < t + 15 * Calendar.MS_PER_DAY).
  { rewrite !andb_true_iff, LicenseStatus_eqb_eq, Z.leb_le, Z.ltb_lt.
    unfold Calendar.MS_PER_DAY in *.
    change (14 + 1) with 15 in Hl. intuition lia. }
  destruct (_ && _ && _)%bool.
  - split; [intros _; apply Hb; reflexivity|reflexivity].
  - split.
    + destruct st; intros H'; discriminate H'.
    + intros H'. apply Hb in H'. discriminate H'.
Qed.

Lemma badge_active_otherwise d t :
  Pages.Licenses.getStatusBadge active d t <> "Expiring Soon" ->
  Pages.Licenses.getStatusBadge active d t = "Active".
Proof.
  unfold Pages.Licenses.getStatusBadge. destruct (_ && _ && _)%bool; [|reflexivity].
  intros H. exfalso. apply H. reflexivity.
Qed.

(** X22. The badge of the licenses page against the alerts of the
    dashboard, read at the same instant. The page shows "Expiring Soon"
    exactly for an active license whose expiration date (at midnight) is
    at least one day and less than 15 days ahead. A license that
    [getExpiringLicenses(14)] returns is shown "Expiring Soon" when its
    expiration is a day or more ahead and "Active" otherwise, that is
    when it expires within a day or has already expired; a license shown
    "Expiring Soon" that is not returned expires on the fourteenth day
    from today or later, 13 or 14 full days ahead. *)
Theorem license_badge_against_dashboard_alerts :
  forall (w : World) (rows : list License.t) (l : License.t),
    fst (storage.getExpiringLicenses 14 w) = Ok rows ->
    In l (licenses (db w)) ->
    let t := clock w in
    let m := Calendar.midnight (License.expirationDate l) in
    let badge :=
      Pages.Licenses.getStatusBadge (License.status l) (License.expirationDate l) t in
    (badge = "Expiring Soon"
     <-> License.status l = active
         /\ t + Calendar.MS_PER_DAY <= m < t + 15 * Calendar.MS_PER_DAY)
    /\ (In l rows ->
        badge = if m <? t + Calendar.MS_PER_DAY then "Active" else "Expiring Soon")
    /\ (badge = "Expiring Soon" -> ~ In l rows ->
        Calendar.day_of t + 14 <= License.expirationDate l
        /\ 13 <= daysUntilExpiration l t <= 14).
Proof.
  intros [s fs t en] rows l Hq Hin. cbv zeta. simpl clock. simpl db in Hin.
  assert (Hrows : rows = filter (storage.expiring (Calendar.addDays t 14)) (licenses s)).
  { unfold storage.getExpiringLicenses, bind, now, db_query, db_call in Hq.
    simpl in Hq. destruct fs as [|[] fs]; simpl in Hq; congruence. }
  subst rows. clear Hq.
  split; [apply badge_expiring_soon|]. split.
  - rewrite filter_In. unfold storage.expiring.
    rewrite andb_true_iff, LicenseStatus_eqb_eq, Z.ltb_lt. intros (_ & Hs & Hm).
    rewrite Hs.
    assert (Hb : Calendar.midnight (License.expirationDate l)
                 < t + 14 * Calendar.MS_PER_DAY).
    { unfold Calendar.addDays, Calendar.day_of, Calendar.midnight,
        Calendar.MS_PER_DAY in *.
      Z.to_euclidean_division_equations; lia. }
    destruct (Z.ltb_spec (Calendar.midnight (License.expirationDate l))
                (t + Calendar.MS_PER_DAY)) as [Hlt|Hge].
    + apply badge_active_otherwise. rewrite badge_expiring_soon.
      unfold Calendar.MS_PER_DAY in *. lia.
    + apply badge_expiring_soon. split; [reflexivity|]. unfold Calendar.MS_PER_DAY in *. lia.
  - rewrite badge_expiring_soon. intros (Hs & Hm) Hn.
    assert (Hd : Calendar.day_of t + 14 <= License.expirationDate l).
    { destruct (Z_lt_le_dec (License.expirationDate l) (Calendar.day_of t + 14))
        as [Hlt|Hge]; [|exact Hge].
      exfalso. apply Hn. rewrite filter_In. split; [exact Hin|].
      unfold storage.expiring.
      rewrite andb_true_iff, LicenseStatus_eqb_eq, Z.ltb_lt. split; [exact Hs|].
      unfold Calendar.addDays, Calendar.day_of, Calendar.MS_PER_DAY in *.
      Z.to_euclidean_division_equations; lia. }
    split; [exact Hd|].
    unfold daysUntilExpiration, Calendar.differenceInDays, Calendar.day_of,
      Calendar.midnight, Calendar.MS_PER_DAY in *.
    Z.to_euclidean_division_equations; lia.
Qed.

(** X23. The status of the subscriptions page, by the position of the
    clock: "upcoming" before the midnight that starts the start date;
    otherwise "expired" after the midnight that starts the end date, so
    during the end date itself; otherwise "expiring" when that midnight
    is less than 15 days ahead, and "active" when it is 15 days or more
    ahead. Against the licenses page: when an active license that
    expires on the end date is shown "Expiring Soon", a started
    subscription is "expiring"; and when the subscription is "expiring"
    the license is shown "Expiring Soon" unless the end is less than a
    day ahead, where it is shown "Active". *)
Theorem subscription_status_windows :
  forall (startDate endDate t : Z),
    let st := fst (Pages.Subscriptions.getSubscriptionStatus startDate endDate t) in
    let s := Calendar.midnight startDate in
    let e := Calendar.midnight endDate in
    (st = "upcoming" <-> t < s)
    /\ (st = "expired" <-> s <= t /\ e < t)
    /\ (st = "expiring" <-> s <= t <= e /\ e < t + 15 * Calendar.MS_PER_DAY)
    /\ (st = "active" <-> s <= t /\ t + 15 * Calendar.MS_PER_DAY <= e)
    /\ (Pages.Licenses.getStatusBadge active endDate t = "Expiring Soon" ->
        s <= t -> st = "expiring")
    /\ (st = "expiring" ->
        Pages.Licenses.getStatusBadge active endDate t
        = if e <? t + Calendar.MS_PER_DAY then "Active" else "Expiring Soon").
Proof.
  intros startDate endDate t. cbv zeta.
  assert (Hw : let st := fst (Pages.Subscriptions.getSubscriptionStatus startDate endDate t) in
               (st = "upcoming" <-> t < Calendar.midnight startDate)
               /\ (st = "expired"
                   <-> Calendar.midnight startDate <= t /\ Calendar.midnight endDate < t)
               /\ (st = "expiring"
                   <-> Calendar.midnight startDate <= t <= Calendar.midnight endDate
                       /\ Calendar.midnight endDate < t + 15 * Calendar.MS_PER_DAY)
               /\ (st = "active"
                   <-> Calendar.midnight startDate <= t
                       /\ t + 15 * Calendar.MS_PER_DAY <= Calendar.midnight endDate)).
  { cbv zeta.
    unfold Pages.Subscriptions.getSubscriptionStatus, Pages.Subscriptions.isFuture,
      Pages.Subscriptions.isPast, Calendar.differenceInDays.
    pose proof (quot_le_iff (Calendar.midnight endDate - t) 14 ltac:(lia)) as Hl.
    destruct (Z.ltb_spec t (Calendar.midnight startDate));
      [|destruct (Z.ltb_spec (Calendar.midnight endDate) t);
        [|destruct (Z.leb_spec (Z.quot (Calendar.midnight endDate - t)
                                  Calendar.MS_PER_DAY) 14)]];
      simpl fst;
      (split; [|split; [|split]]);
      unfold Calendar.MS_PER_DAY in *; change (14 + 1) with 15 in Hl;
      (split; [intros H'; try discriminate H'; try lia | intros H'; try reflexivity;
                                                         exfalso; lia]). }
  cbv zeta in Hw. destruct Hw as (Hu & Hx & Hg & Ha).
  split; [exact Hu|]. split; [exact Hx|]. split; [exact Hg|]. split; [exact Ha|].
  split.
  - rewrite badge_expiring_soon, Hg. unfold Calendar.MS_PER_DAY. lia.
  - rewrite Hg. intros (Hs & He).
    destruct (Z.ltb_spec (Calendar.midnight endDate) (t + Calendar.MS_PER_DAY)).
    + apply badge_active_otherwise. rewrite badge_expiring_soon.
      unfold Calendar.MS_PER_DAY in *. lia.
    + apply badge_expiring_soon. unfold Calendar.MS_PER_DAY in *.
      split; [reflexivity|lia].
Qed.

Lemma license_badge_against_dashboard_alerts_witness :
  let w := Demo.world in
  let rows := filter (storage.expiring (Calendar.addDays (clock w) 14)) (licenses (db w)) in
  let l := Demo.edge_license in
  let t := clock w in
  let m := Calendar.midnight (License.expirationDate l) in
  let badge :=
    Pages.Licenses.getStatusBadge (License.status l) (License.expirationDate l) t in
  fst (storage.getExpiringLicenses 14 w) = Ok rows
  /\ In l (licenses (db w))
  /\ (badge = "Expiring Soon"
      <-> License.status l = active
          /\ t + Calendar.MS_PER_DAY <= m < t + 15 * Calendar.MS_PER_DAY)
  /\ (In l rows ->
      badge = if m <? t + Calendar.MS_PER_DAY then "Active" else "Expiring Soon")
  /\ (badge = "Expiring Soon" -> ~ In l rows ->
      Calendar.day_of t + 14 <= License.expirationDate l
      /\ 13 <= daysUntilExpiration l t <= 14).
Proof.
  cbv zeta.
  assert (Hq : fst (storage.getExpiringLicenses 14 Demo.world)
               = Ok (filter (storage.expiring (Calendar.addDays (clock Demo.world) 14))
                       (licenses (db Demo.world))))
    by reflexivity.
  assert (Hin : In Demo.edge_license (licenses (db Demo.world)))
    by (simpl; right; right; left; reflexivity).
  split; [exact Hq|]. split; [exact Hin|].
  exact (license_badge_against_dashboard_alerts Demo.world _ Demo.edge_license Hq Hin).
Defined.

(** ** The statistic of the active subscriptions *)

Lemma shown_is_count (u : User.t) (w : World) :
  shown_activeSubscriptions u w = Some (active_licenses (licenses (db w))).
Proof. destruct w. reflexivity. Qed.

Lemma active_licenses_cons (r : License.t) (l : list License.t) :
  active_licenses (r :: l) = is_active (License.status r) + active_licenses l.
Proof.
  unfold active_licenses, storage.count, is_active. cbn [filter].
  destruct (LicenseStatus_eqb (License.status r) active); cbn [List.length]; lia.
Qed.

Lemma active_licenses_app (l : list License.t) (r : License.t) :
  active_licenses (l ++ [r]) = active_licenses l + is_active (License.status r).
Proof.
  induction l as [|x l IH]; cbn [List.app].
  - rewrite active_licenses_cons. unfold active_licenses, storage.count.
    cbn [filter List.length]. lia.
  - rewrite !active_licenses_cons, IH. lia.
Qed.

Lemma active_licenses_update (l : list License.t) (i : Z) (f : License.t -> License.t)
  (old : License.t) :
  NoDup (ids l) -> selectById l i = Some old ->
  active_licenses (updateById l i f)
  = active_licenses l + (is_active (License.status (f old)) - is_active (License.status old)).
Proof.
  induction l as [|r l IH]; intros Hn Hs; [discriminate Hs|].
  simpl in Hn. inversion Hn as [|? ? Hr Hn']; subst.
  unfold selectById in Hs. simpl in Hs.
  change (updateById (r :: l) i f)
    with ((if row_id r =? i then f r else r) :: updateById l i f).
  rewrite !active_licenses_cons.
  destruct (row_id r =? i) eqn:E.
  - inversion Hs; subst old. apply Z.eqb_eq in E.
    assert (Ha : ~ In i (ids l)) by (subst i; exact Hr).
    rewrite (updateById_absent License.licenseKey l i f Ha). lia.
  - rewrite (IH Hn' Hs). lia.
Qed.

Lemma other_routes_keep_licenses (user : option User.t) (e : Endpoint) (w : World) :
  match e with
  | POST_licenses _ | PATCH_licenses_id _ _ => False
  | _ => True
  end ->
  licenses (db (snd (app user e w))) = licenses (db w).
Proof.
  intros He.
  set (Q := fun s' => licenses s' = licenses (db w)).
  change (Q (db (snd (app user e w)))).
  assert (Q0 : Q (db w)) by reflexivity.
  pose proof (reads_preserve Q) as R.
  pose proof (subscriptions_writes_keep Q) as WS.
  pose proof (invoices_writes_keep Q) as WI.
  pose proof (transactions_writes_keep Q) as WT.
  destruct e; try contradiction;
    route_frame ltac:(first
      [ apply R
      | apply WS; intros; unfold Q in *; simpl in *; assumption
      | apply WI; intros; unfold Q in *; simpl in *; assumption
      | apply WT; intros; unfold Q in *; simpl in *; assumption ]);
    exact Q0.
Qed.

Lemma post_license_adds (user : option User.t) (d : InsertLicense.t) (w : World) :
  active_licenses (licenses (db (snd (app user (POST_licenses (Some d)) w))))
  = active_licenses (licenses (db w))
    + added_to_statistic (POST_licenses (Some d)) (db w)
        (Response.status (fst (app user (POST_licenses (Some d)) w))).
Proof.
  destruct w as [s fs t en]. unfold app. simpl middleware. simpl route.
  destruct user as [u|]; simpl isSales;
    [destruct (_ || _)%bool|]; try (simpl; lia).
  unfold post_licenses, handler, bind, parse, ret, send, storage.generateLicenseKey,
    storage.createLicense, randomUUID, now, bind, ret, db_call. simpl.
  destruct (String.eqb (InsertLicense.licenseKey d) ""), en, fs as [|[] fs]; simpl;
    try lia;
    split_test; simpl; try lia;
    rewrite active_licenses_app; reflexivity.
Qed.

Lemma patch_license_adds (user : option User.t) (i : Z) (p : PartialLicense.t)
  (w : World) :
  NoDup (ids (licenses (db w))) ->
  active_licenses (licenses (db (snd (app user (PATCH_licenses_id i (Some p)) w))))
  = active_licenses (licenses (db w))
    + added_to_statistic (PATCH_licenses_id i (Some p)) (db w)
        (Response.status (fst (app user (PATCH_licenses_id i (Some p)) w))).
Proof.
  destruct w as [s fs t en]. simpl db. intros Hn.
  unfold app. simpl middleware. simpl route.
  destruct user as [u|]; simpl isSales;
    [destruct (_ || _)%bool|]; simpl;
    try (destruct (selectById (licenses s) i); simpl; lia).
  unfold patch_license, handler, bind, parse, ret, send, storage.updateLicense,
    now, bind, ret, db_call. simpl.
  destruct fs as [|[] fs]; simpl;
    destruct (selectById (licenses s) i) as [old|] eqn:Es; simpl; try lia;
    split_test; simpl; try lia;
    rewrite (active_licenses_update _ _ _ old Hn Es);
    reflexivity.
Qed.

(** X24. The [activeSubscriptions] statistic of the dashboard counts
    licenses. When no two licenses share an id, a request moves the
    statistic, as read with no failing query before and after the
    request, as follows: a creation of a license answered 201 adds one
    when the created license is active (the default of a body without
    status) and nothing otherwise; a patch of a license answered 200
    adds the difference between the new and the old status; every other
    request, the creation and the patch of a subscription included, and
    every request answered otherwise, leaves it as it was. *)
Theorem active_subscriptions_statistic_counts_licenses :
  forall (viewer : User.t) (user : option User.t) (e : Endpoint) (w : World),
    NoDup (ids (licenses (db w))) ->
    exists n,
      shown_activeSubscriptions viewer w = Some n
      /\ shown_activeSubscriptions viewer (snd (app user e w))
         = Some (n + added_to_statistic e (db w) (Response.status (fst (app user e w)))).
Proof.
  intros viewer user e w Hn. rewrite !shown_is_count. eexists. split; [reflexivity|].
  f_equal.
  destruct e as [| | | | | | | |[d|]| i [p|] | | | | | | | |];
    try (rewrite other_routes_keep_licenses by exact I; simpl; lia).
  - apply post_license_adds.
  - destruct w as [s fs t en]. unfold app. simpl.
    destruct user as [u|]; simpl; [destruct (_ || _)%bool|]; simpl; lia.
  - apply patch_license_adds. exact Hn.
  - destruct w as [s fs t en]. unfold app. simpl.
    destruct user as [u|]; simpl; [destruct (_ || _)%bool|]; simpl; lia.
Qed.

Lemma active_subscriptions_statistic_counts_licenses_witness :
  NoDup (ids (licenses (db Demo.world)))
  /\ exists n,
      shown_activeSubscriptions Demo.sue Demo.world = Some n
      /\ shown_activeSubscriptions Demo.sue
           (snd (app (Some Demo.sam) (POST_licenses (Some Demo.new_license)) Demo.world))
         = Some (n + added_to_statistic (POST_licenses (Some Demo.new_license))
                       (db Demo.world)
                       (Response.status
                          (fst (app (Some Demo.sam)
                                  (POST_licenses (Some Demo.new_license)) Demo.world)))).
Proof.
  assert (Hn : NoDup (ids (licenses (db Demo.world)))).
  { simpl. repeat (constructor; [simpl; intros H; repeat destruct H as [H|H];
                                 try discriminate H; exact H|]).
    constructor. }
  split; [exact Hn|].
  exact (active_subscriptions_statistic_counts_licenses
           Demo.sue (Some Demo.sam) (POST_licenses (Some Demo.new_license))
           Demo.world Hn).
Defined.

(** ** Recent transactions of the dashboard *)

Lemma mapM_each {A B} (f : A -> M B) (R : A -> B -> Prop) (w : World) (l : list A) :
  (forall a, In a l -> exists b, f a w = (Ok b, w) /\ R a b) ->
  exists bs, mapM f l w = (Ok bs, w) /\ Forall2 R l bs.
Proof.
  induction l as [|a l IH]; intros Hf; simpl.
  - exists []. split; [reflexivity|constructor].
  - destruct (Hf a (or_introl eq_refl)) as (b & Eb & Rb).
    destruct IH as (bs & Ebs & Rbs); [intros x Hx; apply Hf; right; exact Hx|].
    exists (b :: bs). split; [|constructor; assumption].
    unfold bind at 1. rewrite Eb. unfold bind at 1. rewrite Ebs. reflexivity.
Qed.

Lemma or_unknown_product_not_empty (s : option string) : or_unknown_product s <> "".
Proof. destruct s as [[|c s]|]; simpl; discriminate. Qed.

Lemma or_unknown_some (s : string) : s <> "" -> or_unknown (Some s) = s.
Proof. destruct s; [intros H; contradiction H; reflexivity|reflexivity]. Qed.

Lemma or_unknown_product_some (s : string) : s <> "" -> or_unknown_product (Some s) = s.
Proof. destruct s; [intros H; contradiction H; reflexivity|reflexivity]. Qed.

Lemma truthy_some (x : Z) : x <> 0 -> truthy (Some x) = true.
Proof. intros H. simpl. apply negb_true_iff, Z.eqb_neq. exact H. Qed.

Lemma db_query_quiet {A} (q : Store -> A) (s : Store) (t : Z) (en : list string) :
  db_query q (mkWorld s [] t en) = (Ok (q s), mkWorld s [] t en).
Proof. reflexivity. Qed.

Lemma bind_ok {A B} (m : M A) (k : A -> M B) (w w' : World) (a : A) :
  m w = (Ok a, w') -> bind m k w = k a w'.
Proof. intros E. unfold bind. rewrite E. reflexivity. Qed.

Ltac details_start :=
  eexists; (split; [reflexivity|]);
  unfold details_of; cbn [RecentTransaction.transaction RecentTransaction.clientName
    RecentTransaction.productName RecentTransaction.subscriptionType];
  (split; [reflexivity|]); (split; [apply or_unknown_not_empty|]);
  (split; [apply or_unknown_product_not_empty|]);
  (split; [intros c Hc Hn; rewrite Hc; apply or_unknown_some; exact Hn|]);
  (split; [intros Hc; rewrite Hc; reflexivity|]).

Lemma recent_transaction_details_quiet (s : Store) (t : Z) (en : list string)
  (tx : Transaction.t) :
  exists d,
    recent_transaction_details tx (mkWorld s [] t en) = (Ok d, mkWorld s [] t en)
    /\ details_of s tx d.
Proof.
  unfold recent_transaction_details, storage.getClient, storage.getInvoice,
    storage.getSubscription, storage.getProduct.
  erewrite bind_ok by apply db_query_quiet.
  destruct (truthy (Transaction.invoiceId tx)) eqn:Ti.
  2: { erewrite bind_ok by reflexivity. cbn [subscription_of_invoice truthy].
       erewrite bind_ok by reflexivity. cbn [option_map truthy].
       erewrite bind_ok by reflexivity. unfold ret. details_start.
       split; [reflexivity|]. split; [reflexivity|].
       intros x inv y sub Hx Hx0. rewrite Hx, (truthy_some x Hx0) in Ti. discriminate Ti. }
  erewrite bind_ok by apply db_query_quiet.
  set (invoice := selectById (invoices s) (or_zero (Transaction.invoiceId tx))).
  destruct (truthy (subscription_of_invoice invoice)) eqn:Ts.
  2: { erewrite bind_ok by reflexivity. cbn [option_map truthy].
       erewrite bind_ok by reflexivity. unfold ret. details_start.
       split; [reflexivity|]. split; [reflexivity|].
       intros x inv y sub Hx Hx0 Hi Hy Hy0. exfalso.
       unfold invoice in Ts. rewrite Hx in Ts. cbn [or_zero] in Ts. rewrite Hi in Ts.
       cbn [subscription_of_invoice] in Ts. rewrite Hy, (truthy_some y Hy0) in Ts.
       discriminate Ts. }
  erewrite bind_ok by apply db_query_quiet.
  set (subscription := selectById (subscriptions s)
                         (or_zero (subscription_of_invoice invoice))).
  assert (Hchain : forall x inv y sub,
             Transaction.invoiceId tx = Some x ->
             selectById (invoices s) x = Some inv ->
             Invoice.subscriptionId inv = Some y ->
             selectById (subscriptions s) y = Some sub ->
             subscription = Some sub).
  { intros x inv y sub Hx Hi Hy Hsub. unfold subscription, invoice.
    rewrite Hx. cbn [or_zero]. rewrite Hi. cbn [subscription_of_invoice].
    rewrite Hy. cbn [or_zero]. exact Hsub. }
  clearbody subscription.
  destruct (truthy (option_map Subscription.productId subscription)) eqn:Tp.
  - erewrite bind_ok by apply db_query_quiet. unfold ret. details_start.
    split; [intros Hf; rewrite Hf in Ti; discriminate Ti|].
    split.
    + destruct subscription; [discriminate|discriminate Tp].
    + intros x inv y sub Hx Hx0 Hi Hy Hy0 Hsub.
      rewrite (Hchain x inv y sub Hx Hi Hy Hsub) in *. cbn [option_map or_zero].
      split; [reflexivity|]. intros p Hp0 Hp Hn. rewrite Hp. cbn [option_map].
      apply or_unknown_product_some. exact Hn.
  - erewrite bind_ok by reflexivity. unfold ret. details_start.
    split; [intros Hf; rewrite Hf in Ti; discriminate Ti|].
    split.
    + intros _. reflexivity.
    + intros x inv y sub Hx Hx0 Hi Hy Hy0 Hsub.
      rewrite (Hchain x inv y sub Hx Hi Hy Hsub) in *. cbn [option_map].
      split; [reflexivity|]. intros p Hp0. exfalso.
      cbn [option_map] in Tp. rewrite (truthy_some _ Hp0) in Tp. discriminate Tp.
Qed.

Lemma dashboard_recent_transactions_reads (P : Store -> Prop) :
  preserves P dashboard_recent_transactions.
Proof.
  unfold dashboard_recent_transactions, recent_transaction_details,
    storage.getRecentTransactions, storage.getClient, storage.getInvoice,
    storage.getSubscription, storage.getProduct.
  frame.
Qed.

(** X25. The recent transactions of the dashboard. The computation
    of [GET /api/dashboard/recent-transactions] never writes. When no
    database call fails it returns the five most recent transactions,
    most recent first (all of them when there are fewer), each with
    three names that are never empty: the company name of its client,
    "Unknown" when the client is missing; the type of the subscription
    billed by its invoice, and the name of the product of that
    subscription, "Unknown Product" whenever the subscription type is
    unknown, as it is for every transaction without invoice. *)
Theorem recent_transactions_carry_the_names_of_their_chain :
  forall w : World,
    db (snd (dashboard_recent_transactions w)) = db w
    /\ (faults w = [] ->
        exists details,
          dashboard_recent_transactions w = (Ok details, w)
          /\ Forall2 (details_of (db w))
               (firstn 5 (storage.sort_desc (transactions (db w)))) details
          /\ map RecentTransaction.transaction details
             = firstn 5 (storage.sort_desc (transactions (db w)))
          /\ (List.length details <= 5)%nat).
Proof.
  intros w. split.
  { apply (dashboard_recent_transactions_reads (fun s' => s' = db w)). reflexivity. }
  destruct w as [s fs t en]. intros Hf. simpl in Hf. subst fs. cbn [db].
  destruct (mapM_each recent_transaction_details (details_of s) (mkWorld s [] t en)
              (firstn 5 (storage.sort_desc (transactions s))))
    as (details & Ed & Rd).
  { intros tx _. apply recent_transaction_details_quiet. }
  exists details.
  assert (Hmap : map RecentTransaction.transaction details
                 = firstn 5 (storage.sort_desc (transactions s))).
  { clear Ed. induction Rd as [|tx d l ds Hd _ IH]; [reflexivity|].
    simpl. rewrite IH. destruct Hd as [Hd _]. rewrite Hd. reflexivity. }
  split; [|split; [exact Rd|split; [exact Hmap|]]].
  - unfold dashboard_recent_transactions, storage.getRecentTransactions.
    erewrite bind_ok by apply db_query_quiet. exact Ed.
  - rewrite <- (length_map RecentTransaction.transaction), Hmap, length_firstn. lia.
Qed.

Lemma recent_transactions_carry_the_names_of_their_chain_witness :
  let w := serve Demo.session Demo.world in
  faults w = []
  /\ exists details,
      dashboard_recent_transactions w = (Ok details, w)
      /\ Forall2 (details_of (db w))
           (firstn 5 (storage.sort_desc (transactions (db w)))) details
      /\ map RecentTransaction.transaction details
         = firstn 5 (storage.sort_desc (transactions (db w)))
      /\ (List.length details <= 5)%nat.
Proof.
  cbv zeta.
  assert (Hf : faults (serve Demo.session Demo.world) = []) by (vm_compute; reflexivity).
  split; [exact Hf|].
  exact (proj2 (recent_transactions_carry_the_names_of_their_chain
                  (serve Demo.session Demo.world)) Hf).
Defined.

(** ** Lists without a client filter *)

(** X26. The lists of subscriptions, invoices and transactions asked
    without a client filter, when no database call fails. For a caller
    of a staff role the subscriptions and the invoices are always the
    empty list, whatever the tables hold, and the transactions are the
    20 most recent. For a caller of role [client] with a client record
    each list holds exactly the rows of the table that belong to that
    client; without a client record the answer is 403 "Client profile
    not found". The world is left as it was. A filter [clientId = 0] is
    treated as no filter. *)
Theorem unfiltered_lists_depend_on_the_role :
  forall (u : User.t) (w : World),
    faults w = [] ->
    (User.role u <> client ->
     app (Some u) (GET_subscriptions None) w
     = (Response.mk 200 (subscriptions_json []), w)
     /\ app (Some u) (GET_invoices None) w = (Response.mk 200 (invoices_json []), w)
     /\ app (Some u) (GET_transactions None) w
        = (Response.mk 200
             (transactions_json (firstn 20 (storage.sort_desc (transactions (db w))))),
           w))
    /\ (User.role u = client -> profile_of (db w) u = None ->
        forall e, e = GET_subscriptions None \/ e = GET_invoices None
                  \/ e = GET_transactions None ->
                  app (Some u) e w
                  = (Response.mk 403 (message "Client profile not found"), w))
    /\ (User.role u = client ->
        forall c, profile_of (db w) u = Some c ->
        exists subs invs txs,
          app (Some u) (GET_subscriptions None) w
          = (Response.mk 200 (subscriptions_json subs), w)
          /\ app (Some u) (GET_invoices None) w = (Response.mk 200 (invoices_json invs), w)
          /\ app (Some u) (GET_transactions None) w
             = (Response.mk 200 (transactions_json txs), w)
          /\ (forall x, In x subs <->
                        In x (subscriptions (db w)) /\ Subscription.clientId x = Client.id c)
          /\ (forall x, In x invs <->
                        In x (invoices (db w)) /\ Invoice.clientId x = Client.id c)
          /\ (forall x, In x txs <->
                        In x (transactions (db w)) /\ Transaction.clientId x = Client.id c))
    /\ app (Some u) (GET_subscriptions (Some 0)) w = app (Some u) (GET_subscriptions None) w
    /\ app (Some u) (GET_invoices (Some 0)) w = app (Some u) (GET_invoices None) w
    /\ app (Some u) (GET_transactions (Some 0)) w = app (Some u) (GET_transactions None) w.
Proof.
  intros u [s fs t en] Hf. simpl in Hf. subst fs. unfold profile_of. cbn [db].
  split; [|split; [|split; [|split; [reflexivity|split; reflexivity]]]].
  - intros Hr.
    assert (E : UserRole_eqb (User.role u) client = false)
      by (destruct (User.role u); try reflexivity; contradiction Hr; reflexivity).
    unfold app. simpl middleware. simpl route. simpl isAuthenticated.
    unfold get_subscriptions, get_invoices, get_transactions, handler, bind, send, ret,
      storage.getRecentTransactions, db_query, db_call.
    simpl. rewrite E. simpl. repeat split.
  - intros Hr Hp e He.
    assert (E : UserRole_eqb (User.role u) client = true) by (rewrite Hr; reflexivity).
    destruct He as [->|[->| ->]];
      unfold app; simpl middleware; simpl route; simpl isAuthenticated;
      unfold get_subscriptions, get_invoices, get_transactions, handler, bind, send, ret,
        storage.getClientByUserId, db_query, db_call;
      simpl; rewrite E; simpl; rewrite Hp; reflexivity.
  - intros Hr c Hp.
    assert (E : UserRole_eqb (User.role u) client = true) by (rewrite Hr; reflexivity).
    exists (filter (fun x => Subscription.clientId x =? Client.id c) (subscriptions s)),
      (filter (fun x => Invoice.clientId x =? Client.id c) (invoices s)),
      (filter (fun x => Transaction.clientId x =? Client.id c) (transactions s)).
    split; [|split; [|split; [|split; [|split]]]].
    1-3: unfold app; simpl middleware; simpl route; simpl isAuthenticated;
      unfold get_subscriptions, get_invoices, get_transactions, handler, bind, send, ret,
        storage.getClientByUserId, storage.getSubscriptionsByClient,
        storage.getInvoicesByClient, storage.getTransactionsByClient, db_query, db_call;
      simpl; rewrite E; simpl; rewrite Hp; reflexivity.
    all: intros x; rewrite filter_In, Z.eqb_eq; reflexivity.
Qed.

Lemma unfiltered_lists_depend_on_the_role_witness :
  faults Demo.world = []
  /\ app (Some Demo.sam) (GET_subscriptions None) Demo.world
     = (Response.mk 200 (subscriptions_json []), Demo.world).
Proof.
  split; [reflexivity|].
  apply (proj1 (unfiltered_lists_depend_on_the_role Demo.sam Demo.world eq_refl)).
  intros H. discriminate H.
Defined.

(** ** Patches *)

Lemma selectById_patched {R : Type} `{Row R} (l : list R) (i : Z) (f : R -> R) (old : R) :
  (forall r, row_id (f r) = row_id r) ->
  selectById l i = Some old ->
  selectById (updateById l i f) i = Some (f old).
Proof.
  intros Hf Hs. rewrite selectById_updateById by exact Hf.
  rewrite Z.eqb_refl, Hs. reflexivity.
Qed.

(** X27. What a 200 answer of a [PATCH] of a subscription, an invoice
    or a transaction carries: the row of the answer is the row now
    stored under the id, with the id of the old row, every column the
    body supplies set to the value of the body (the references to the
    client, the product, the subscription and the invoice included),
    every column the body leaves out as it was, and [updatedAt] set to
    the current time. No column is guarded: the total of an invoice is
    stored as sent, and [isPaid] can be set back to false. *)
Theorem patches_set_the_supplied_columns :
  forall (user : option User.t) (w : World) (r : Response.t) (w' : World) (i : Z),
    Response.status r = 200 ->
    (forall d old,
        app user (PATCH_subscriptions_id i (Some d)) w = (r, w') ->
        selectById (subscriptions (db w)) i = Some old ->
        exists sub,
          Response.json r = subscription_json sub
          /\ selectById (subscriptions (db w')) i = Some sub
          /\ Subscription.id sub = Subscription.id old
          /\ Subscription.clientId sub
             = patched (PartialSubscription.clientId d) (Subscription.clientId old)
          /\ Subscription.productId sub
             = patched (PartialSubscription.productId d) (Subscription.productId old)
          /\ Subscription.subscriptionType sub
             = patched (PartialSubscription.subscriptionType d)
                 (Subscription.subscriptionType old)
          /\ Subscription.startDate sub
             = patched (PartialSubscription.startDate d) (Subscription.startDate old)
          /\ Subscription.endDate sub
             = patched (PartialSubscription.endDate d) (Subscription.endDate old)
          /\ Subscription.price sub
             = patched (PartialSubscription.price d) (Subscription.price old)
          /\ Subscription.autoRenew sub
             = patched (PartialSubscription.autoRenew d) (Subscription.autoRenew old)
          /\ Subscription.updatedAt sub = clock w)
    /\ (forall d old,
          app user (PATCH_invoices_id i (Some d)) w = (r, w') ->
          selectById (invoices (db w)) i = Some old ->
          exists inv,
            Response.json r = invoice_json inv
            /\ selectById (invoices (db w')) i = Some inv
            /\ Invoice.id inv = Invoice.id old
            /\ Invoice.clientId inv
               = patched (PartialInvoice.clientId d) (Invoice.clientId old)
            /\ Invoice.subscriptionId inv
               = patched (PartialInvoice.subscriptionId d) (Invoice.subscriptionId old)
            /\ Invoice.invoiceNumber inv
               = patched (PartialInvoice.invoiceNumber d) (Invoice.invoiceNumber old)
            /\ Invoice.amount inv = patched (PartialInvoice.amount d) (Invoice.amount old)
            /\ Invoice.tax inv = patched (PartialInvoice.tax d) (Invoice.tax old)
            /\ Invoice.totalAmount inv
               = patched (PartialInvoice.totalAmount d) (Invoice.totalAmount old)
            /\ Invoice.issueDate inv
               = patched (PartialInvoice.issueDate d) (Invoice.issueDate old)
            /\ Invoice.dueDate inv = patched (PartialInvoice.dueDate d) (Invoice.dueDate old)
            /\ Invoice.isPaid inv = patched (PartialInvoice.isPaid d) (Invoice.isPaid old)
            /\ Invoice.updatedAt inv = clock w)
    /\ (forall d old,
          app user (PATCH_transactions_id i (Some d)) w = (r, w') ->
          selectById (transactions (db w)) i = Some old ->
          exists tx,
            Response.json r = transaction_json tx
            /\ selectById (transactions (db w')) i = Some tx
            /\ Transaction.id tx = Transaction.id old
            /\ Transaction.clientId tx
               = patched (PartialTransaction.clientId d) (Transaction.clientId old)
            /\ Transaction.invoiceId tx
               = patched (PartialTransaction.invoiceId d) (Transaction.invoiceId old)
            /\ Transaction.amount tx
               = patched (PartialTransaction.amount d) (Transaction.amount old)
            /\ Transaction.status tx
               = patched (PartialTransaction.status d) (Transaction.status old)
            /\ Transaction.transactionDate tx
               = patched (PartialTransaction.transactionDate d)
                   (Transaction.transactionDate old)
            /\ Transaction.updatedAt tx = clock w).
Proof.
  intros user [s fs t en] r w' i Hr.
  destruct user as [u|].
  2: { split; [|split]; intros d old E; inversion E; subst; discriminate Hr. }
  unfold app. simpl middleware. simpl route. simpl isSales.
  destruct (_ || _)%bool.
  2: { split; [|split]; intros d old E; inversion E; subst; discriminate Hr. }
  cbn [db clock].
  split; [|split]; intros d old E Hold;
    unfold patch_subscription, patch_invoice, patch_transaction, handler, bind, parse,
      ret, send, storage.updateSubscription, storage.updateInvoice,
      storage.updateTransaction, now, bind, ret, db_call in E;
    simpl in E; rewrite Hold in E;
    destruct fs as [|[] fs]; simpl in E;
    try (inversion E; subst; discriminate Hr);
    (revert E; split_test; simpl; intros Eq; inversion Eq; subst; try discriminate Hr);
    eexists; (split; [reflexivity|]);
    (split; [simpl; apply selectById_patched; [intros; reflexivity|exact Hold]|]);
    repeat split.
Qed.

(** ** Repeating a patch *)

Lemma updateById_twice {R : Type} `{Row R} (l : list R) (i : Z) (f : R -> R) :
  (forall r, row_id (f r) = row_id r) -> (forall r, f (f r) = f r) ->
  updateById (updateById l i f) i f = updateById l i f.
Proof.
  intros Hid Hf. unfold updateById. rewrite map_map. apply map_ext. intros r.
  destruct (row_id r =? i) eqn:E.
  - rewrite Hid, E. apply Hf.
  - rewrite E. reflexivity.
Qed.

Lemma others_updateById {R : Type} `{Row R} (l : list R) (i : Z) (f : R -> R)
  (p : R -> bool) :
  (forall r, row_id (f r) = row_id r) ->
  existsb (fun r => (negb (row_id r =? i) && p r)%bool) (updateById l i f)
  = existsb (fun r => (negb (row_id r =? i) && p r)%bool) l.
Proof.
  intros Hid. unfold updateById. induction l as [|r l IH]; simpl; [reflexivity|].
  rewrite IH. f_equal. destruct (row_id r =? i) eqn:E.
  - rewrite Hid, E. reflexivity.
  - rewrite E. reflexivity.
Qed.

Lemma patched_twice {A} (d : option A) (x : A) : patched d (patched d x) = patched d x.
Proof. destruct d; reflexivity. Qed.

Lemma patch_subscription_twice d t old :
  storage.patch_subscription d t (storage.patch_subscription d t old)
  = storage.patch_subscription d t old.
Proof. unfold storage.patch_subscription. simpl. rewrite !patched_twice. reflexivity. Qed.

Lemma patch_license_twice d t old :
  storage.patch_license d t (storage.patch_license d t old)
  = storage.patch_license d t old.
Proof. unfold storage.patch_license. simpl. rewrite !patched_twice. reflexivity. Qed.

Lemma patch_invoice_twice d t old :
  storage.patch_invoice d t (storage.patch_invoice d t old)
  = storage.patch_invoice d t old.
Proof. unfold storage.patch_invoice. simpl. rewrite !patched_twice. reflexivity. Qed.

Lemma patch_transaction_twice d t old :
  storage.patch_transaction d t (storage.patch_transaction d t old)
  = storage.patch_transaction d t old.
Proof. unfold storage.patch_transaction. simpl. rewrite !patched_twice. reflexivity. Qed.

Lemma patch_subscription_run u i d s t en :
  app (Some u) (PATCH_subscriptions_id i (Some d)) (mkWorld s [] t en)
  = if sales_or_admin (Some u) then
      match selectById (subscriptions s) i with
      | None => (Response.mk 404 (message "Subscription not found"), mkWorld s [] t en)
      | Some old =>
          if (fk_opt (clients s) (PartialSubscription.clientId d)
              && fk_opt (products s) (PartialSubscription.productId d))%bool
          then (Response.mk 200 (subscription_json (storage.patch_subscription d t old)),
                mkWorld (set_subscriptions
                           (updateById (subscriptions s) i (storage.patch_subscription d t))
                           (subscriptions_id_seq s) s) [] t en)
          else (Response.mk 500 (message "Error updating subscription"),
                mkWorld s [] t en)
      end
    else (Response.mk 403 (message "Forbidden"), mkWorld s [] t en).
Proof.
  unfold app. simpl middleware. simpl route. simpl isSales. simpl sales_or_admin.
  destruct (_ || _)%bool; [|reflexivity].
  unfold patch_subscription, handler, bind, parse, ret, send, storage.updateSubscription,
    now, bind, db_call. simpl.
  destruct (selectById (subscriptions s) i); [|reflexivity].
  destruct (_ && _)%bool; reflexivity.
Qed.

Lemma patch_license_run u i d s t en :
  app (Some u) (PATCH_licenses_id i (Some d)) (mkWorld s [] t en)
  = if sales_or_admin (Some u) then
      match selectById (licenses s) i with
      | None => (Response.mk 404 (message "License not found"), mkWorld s [] t en)
      | Some old =>
          if (fk_opt (subscriptions s) (PartialLicense.subscriptionId d)
              && negb (storage.key_taken_by_other (licenses s) i
                         (PartialLicense.licenseKey d)))%bool
          then (Response.mk 200 (license_json (storage.patch_license d t old)),
                mkWorld (set_licenses
                           (updateById (licenses s) i (storage.patch_license d t))
                           (licenses_id_seq s) s) [] t en)
          else (Response.mk 500 (message "Error updating license"), mkWorld s [] t en)
      end
    else (Response.mk 403 (message "Forbidden"), mkWorld s [] t en).
Proof.
  unfold app. simpl middleware. simpl route. simpl isSales. simpl sales_or_admin.
  destruct (_ || _)%bool; [|reflexivity].
  unfold patch_license, handler, bind, parse, ret, send, storage.updateLicense,
    now, bind, db_call. simpl.
  destruct (selectById (licenses s) i); [|reflexivity].
  destruct (_ && _)%bool; reflexivity.
Qed.

Lemma patch_invoice_run u i d s t en :
  app (Some u) (PATCH_invoices_id i (Some d)) (mkWorld s [] t en)
  = if sales_or_admin (Some u) then
      match selectById (invoices s) i with
      | None => (Response.mk 404 (message "Invoice not found"), mkWorld s [] t en)
      | Some old =>
          if (fk_opt (clients s) (PartialInvoice.clientId d)
              && storage.fk_opt2 (subscriptions s) (PartialInvoice.subscriptionId d)
              && negb (storage.number_taken_by_other (invoices s) i
                         (PartialInvoice.invoiceNumber d)))%bool
          then (Response.mk 200 (invoice_json (storage.patch_invoice d t old)),
                mkWorld (set_invoices
                           (updateById (invoices s) i (storage.patch_invoice d t))
                           (invoices_id_seq s) s) [] t en)
          else (Response.mk 500 (message "Error updating invoice"), mkWorld s [] t en)
      end
    else (Response.mk 403 (message "Forbidden"), mkWorld s [] t en).
Proof.
  unfold app. simpl middleware. simpl route. simpl isSales. simpl sales_or_admin.
  destruct (_ || _)%bool; [|reflexivity].
  unfold patch_invoice, handler, bind, parse, ret, send, storage.updateInvoice,
    now, bind, db_call. simpl.
  destruct (selectById (invoices s) i); [|reflexivity].
  destruct (_ && _ && _)%bool; reflexivity.
Qed.

Lemma patch_transaction_run u i d s t en :
  app (Some u) (PATCH_transactions_id i (Some d)) (mkWorld s [] t en)
  = if sales_or_admin (Some u) then
      match selectById (transactions s) i with
      | None => (Response.mk 404 (message "Transaction not found"), mkWorld s [] t en)
      | Some old =>
          if (fk_opt (clients s) (PartialTransaction.clientId d)
              && storage.fk_opt2 (invoices s) (PartialTransaction.invoiceId d))%bool
          then (Response.mk 200 (transaction_json (storage.patch_transaction d t old)),
                mkWorld (set_transactions
                           (updateById (transactions s) i (storage.patch_transaction d t))
                           (transactions_id_seq s) s) [] t en)
          else (Response.mk 500 (message "Error updating transaction"),
                mkWorld s [] t en)
      end
    else (Response.mk 403 (message "Forbidden"), mkWorld s [] t en).
Proof.
  unfold app. simpl middleware. simpl route. simpl isSales. simpl sales_or_admin.
  destruct (_ || _)%bool; [|reflexivity].
  unfold patch_transaction, handler, bind, parse, ret, send, storage.updateTransaction,
    now, bind, db_call. simpl.
  destruct (selectById (transactions s) i); [|reflexivity].
  destruct (_ && _)%bool; reflexivity.
Qed.

Lemma key_taken_by_other_updateById rows i f k :
  (forall r, License.id (f r) = License.id r) ->
  storage.key_taken_by_other (updateById rows i f) i k
  = storage.key_taken_by_other rows i k.
Proof.
  intros Hid. destruct k as [k|]; [|reflexivity]. unfold storage.key_taken_by_other.
  apply (others_updateById rows i f (fun l => String.eqb (License.licenseKey l) k)).
  exact Hid.
Qed.

Lemma number_taken_by_other_updateById rows i f k :
  (forall r, Invoice.id (f r) = Invoice.id r) ->
  storage.number_taken_by_other (updateById rows i f) i k
  = storage.number_taken_by_other rows i k.
Proof.
  intros Hid. destruct k as [k|]; [|reflexivity]. unfold storage.number_taken_by_other.
  apply (others_updateById rows i f (fun l => String.eqb (Invoice.invoiceNumber l) k)).
  exact Hid.
Qed.

(** X28. A [PATCH] is idempotent: when no database call fails, a
    [PATCH] of a subscription, license, invoice or transaction that was
    answered 200, sent again by the same caller with the same body at
    the same time of the clock, gets the same answer and leaves the
    world as the first one left it. *)
Theorem a_repeated_patch_changes_nothing :
  forall (user : option User.t) (e : Endpoint) (w : World),
    is_patch e = true ->
    faults w = [] ->
    Response.status (fst (app user e w)) = 200 ->
    app user e (snd (app user e w)) = app user e w.
Proof.
  intros user e [s fs t en] He Hf. simpl in Hf. subst fs.
  destruct user as [u|].
  2: { destruct e as [| | | | |? [?|]| | | |? [?|]| | | |? [?|]| | | |? [?|]];
       try discriminate He; intros H; discriminate H. }
  destruct e as [| | | | |i [d|]| | | |i [d|]| | | |i [d|]| | | |i [d|]];
    try discriminate He; clear He.
  - rewrite patch_subscription_run.
    destruct (sales_or_admin (Some u)) eqn:Hu; [|intros H; discriminate H].
    destruct (selectById (subscriptions s) i) as [old|] eqn:Hold;
      [|intros H; discriminate H].
    destruct (_ && _)%bool eqn:Hc; [|intros H; discriminate H].
    intros _. cbn [snd]. rewrite patch_subscription_run, Hu.
    cbn [subscriptions clients products set_subscriptions subscriptions_id_seq].
    rewrite (@selectById_patched Subscription.t Row_Subscription _ i (storage.patch_subscription d t) old ltac:(intros; reflexivity) Hold).
    rewrite Hc, patch_subscription_twice.
    rewrite updateById_twice
      by (intros; try apply patch_subscription_twice; reflexivity).
    reflexivity.
  - rewrite patch_license_run.
    destruct (sales_or_admin (Some u)) eqn:Hu; [|intros H; discriminate H].
    destruct (selectById (licenses s) i) as [old|] eqn:Hold;
      [|intros H; discriminate H].
    destruct (_ && _)%bool eqn:Hc; [|intros H; discriminate H].
    intros _. cbn [snd]. rewrite patch_license_run, Hu.
    cbn [licenses subscriptions set_licenses licenses_id_seq].
    rewrite (@selectById_patched License.t Row_License _ i (storage.patch_license d t) old ltac:(intros; reflexivity) Hold).
    rewrite key_taken_by_other_updateById by (intros; reflexivity).
    rewrite Hc, patch_license_twice.
    rewrite updateById_twice
      by (intros; try apply patch_license_twice; reflexivity).
    reflexivity.
  - rewrite patch_invoice_run.
    destruct (sales_or_admin (Some u)) eqn:Hu; [|intros H; discriminate H].
    destruct (selectById (invoices s) i) as [old|] eqn:Hold;
      [|intros H; discriminate H].
    destruct (_ && _ && _)%bool eqn:Hc; [|intros H; discriminate H].
    intros _. cbn [snd]. rewrite patch_invoice_run, Hu.
    cbn [invoices clients subscriptions set_invoices invoices_id_seq].
    rewrite (@selectById_patched Invoice.t Row_Invoice _ i (storage.patch_invoice d t) old ltac:(intros; reflexivity) Hold).
    rewrite number_taken_by_other_updateById by (intros; reflexivity).
    rewrite Hc, patch_invoice_twice.
    rewrite updateById_twice
      by (intros; try apply patch_invoice_twice; reflexivity).
    reflexivity.
  - rewrite patch_transaction_run.
    destruct (sales_or_admin (Some u)) eqn:Hu; [|intros H; discriminate H].
    destruct (selectById (transactions s) i) as [old|] eqn:Hold;
      [|intros H; discriminate H].
    destruct (_ && _)%bool eqn:Hc; [|intros H; discriminate H].
    intros _. cbn [snd]. rewrite patch_transaction_run, Hu.
    cbn [transactions clients invoices set_transactions transactions_id_seq].
    rewrite (@selectById_patched Transaction.t Row_Transaction _ i (storage.patch_transaction d t) old ltac:(intros; reflexivity) Hold).
    rewrite Hc, patch_transaction_twice.
    rewrite updateById_twice
      by (intros; try apply patch_transaction_twice; reflexivity).
    reflexivity.
Qed.

Lemma patches_set_the_supplied_columns_witness :
  let d := PartialInvoice.mk None None None None None (Some 1) None None (Some true) in
  let r := fst (app (Some Demo.sam) (PATCH_invoices_id 1 (Some d)) Demo.world) in
  let w' := snd (app (Some Demo.sam) (PATCH_invoices_id 1 (Some d)) Demo.world) in
  Response.status r = 200
  /\ selectById (invoices (db Demo.world)) 1 = Some Demo.acme_invoice
  /\ exists inv,
      Response.json r = invoice_json inv
      /\ selectById (invoices (db w')) 1 = Some inv
      /\ Invoice.id inv = Invoice.id Demo.acme_invoice
      /\ Invoice.clientId inv
         = patched (PartialInvoice.clientId d) (Invoice.clientId Demo.acme_invoice)
      /\ Invoice.subscriptionId inv
         = patched (PartialInvoice.subscriptionId d)
             (Invoice.subscriptionId Demo.acme_invoice)
      /\ Invoice.invoiceNumber inv
         = patched (PartialInvoice.invoiceNumber d) (Invoice.invoiceNumber Demo.acme_invoice)
      /\ Invoice.amount inv
         = patched (PartialInvoice.amount d) (Invoice.amount Demo.acme_invoice)
      /\ Invoice.tax inv = patched (PartialInvoice.tax d) (Invoice.tax Demo.acme_invoice)
      /\ Invoice.totalAmount inv
         = patched (PartialInvoice.totalAmount d) (Invoice.totalAmount Demo.acme_invoice)
      /\ Invoice.issueDate inv
         = patched (PartialInvoice.issueDate d) (Invoice.issueDate Demo.acme_invoice)
      /\ Invoice.dueDate inv
         = patched (PartialInvoice.dueDate d) (Invoice.dueDate Demo.acme_invoice)
      /\ Invoice.isPaid inv
         = patched (PartialInvoice.isPaid d) (Invoice.isPaid Demo.acme_invoice)
      /\ Invoice.updatedAt inv = clock Demo.world.
Proof.
  cbv zeta.
  assert (H : Response.status
                (fst (app (Some Demo.sam)
                        (PATCH_invoices_id 1
                           (Some (PartialInvoice.mk None None None None None (Some 1)
                                    None None (Some true))))
                        Demo.world)) = 200)
    by (vm_compute; reflexivity).
  split; [exact H|]. split; [reflexivity|].
  apply (proj1 (proj2 (patches_set_the_supplied_columns
                         (Some Demo.sam) Demo.world _ _ 1 H))
           (PartialInvoice.mk None None None None None (Some 1) None None (Some true))
           Demo.acme_invoice).
  - vm_compute; reflexivity.
  - reflexivity.
Defined.

Lemma a_repeated_patch_changes_nothing_witness :
  let e := PATCH_licenses_id 1 (Some (renewal 19782)) in
  is_patch e = true
  /\ faults Demo.world = []
  /\ app (Some Demo.sam) e (snd (app (Some Demo.sam) e Demo.world))
     = app (Some Demo.sam) e Demo.world.
Proof.
  cbv zeta. split; [reflexivity|]. split; [reflexivity|].
  apply (a_repeated_patch_changes_nothing
           (Some Demo.sam) (PATCH_licenses_id 1 (Some (renewal 19782))) Demo.world);
    vm_compute; reflexivity.
Defined.
